(** * json_dart_web: JSON sample to Dart class text

    A shallow embedding of the two generators of the repository,
    [DartGenerator] (src/script/dart-generator.js, the "standard" renderer)
    and [ModelNewGenerator] (the "nested/persistence" renderer), and the
    properties of their output that the specification states.

    Conventions of the embedding

    - A JavaScript string is a [string]; the keys that survive the
      identifier check are pure ASCII, so the case conversions applied to
      them are the ASCII ones.
    - A parsed JSON document is a [json] tree.  An object is the list of its
      entries in the enumeration order of [Object.keys] / [Object.entries];
      a real object never repeats a key.
    - A JSON number is kept as the decimal [significand * 10 ^ exponent10];
      the generators only ask whether it is an integer.
    - [throw] is the [Throw] branch of [result]; [try ... catch] is a match.
    - The builtins [JSON.parse] and [JSON.stringify(_, null, 2)] belong to
      the JavaScript runtime, not to the repository: they are the fields of
      a [Runtime] record over which the generators are parameterised.
    - An options object is a finite map from switch names to booleans;
      reading a missing switch gives [undefined], which is falsy. *)

From stdpp Require Import base gmap strings list fin_maps.
From Stdlib Require Import ZArith Ascii String DecimalString.

Local Open Scope string_scope.

(** ** Characters and strings *)

Definition code (c : ascii) : nat := nat_of_ascii c.

Definition is_lower (c : ascii) : bool := (97 <=? code c)%nat && (code c <=? 122)%nat.
Definition is_upper (c : ascii) : bool := (65 <=? code c)%nat && (code c <=? 90)%nat.
Definition is_digit (c : ascii) : bool := (48 <=? code c)%nat && (code c <=? 57)%nat.
Definition is_underscore (c : ascii) : bool := Ascii.eqb c "_".
Definition is_letter (c : ascii) : bool := is_lower c || is_upper c.

(** [c.toUpperCase()] and [c.toLowerCase()] on one ASCII character; a
    character outside ASCII is left as it is. *)
Definition char_toUpperCase (c : ascii) : ascii :=
  if is_lower c then ascii_of_nat (code c - 32) else c.

Definition char_toLowerCase (c : ascii) : ascii :=
  if is_upper c then ascii_of_nat (code c + 32) else c.

Fixpoint toLowerCase (s : string) : string :=
  match s with
  | EmptyString => EmptyString
  | String c rest => String (char_toLowerCase c) (toLowerCase rest)
  end.

(** The line feed and the double quote, for the texts that contain them. *)
Definition nl : string := String "010"%char EmptyString.
Definition dq : string := String "034"%char EmptyString.

(** [Array.prototype.join]. *)
Definition join (sep : string) (l : list string) : string := String.concat sep l.

Definition nonempty (s : string) : bool := negb (String.eqb s "").

(** [s.split('\n')]: the pieces between line feeds, never an empty list. *)
Fixpoint split_lines (s : string) : list string :=
  match s with
  | EmptyString => [EmptyString]
  | String c rest =>
      if Ascii.eqb c "010" then EmptyString :: split_lines rest
      else match split_lines rest with
           | line :: more => String c line :: more
           | [] => [String c EmptyString]
           end
  end.

(** [s.trim()] on an ASCII text, whose white space is the tab, the line
    feed, the vertical tab, the form feed, the carriage return and the
    space.  [String.prototype.trim] strips the white space of Unicode as
    well, which an ASCII text does not hold. *)
Definition is_space (c : ascii) : bool :=
  ((9 <=? code c)%nat && (code c <=? 13)%nat) || (code c =? 32)%nat.

Fixpoint trimStart (s : string) : string :=
  match s with
  | EmptyString => EmptyString
  | String c rest => if is_space c then trimStart rest else s
  end.

Fixpoint trimEnd (s : string) : string :=
  match s with
  | EmptyString => EmptyString
  | String c rest =>
      match trimEnd rest with
      | EmptyString => if is_space c then EmptyString else String c EmptyString
      | kept => String c kept
      end
  end.

Definition trim (s : string) : string := trimEnd (trimStart s).

(** ** Regular expressions of the generators *)

(** [/^[a-zA-Z_][a-zA-Z0-9_]*$/.test(name)] *)
Definition ident_start (c : ascii) : bool := is_letter c || is_underscore c.
Definition ident_part (c : ascii) : bool := is_letter c || is_digit c || is_underscore c.

Fixpoint all_chars (p : ascii -> bool) (s : string) : bool :=
  match s with
  | EmptyString => true
  | String c rest => p c && all_chars p rest
  end.

Definition identifier_regex_test (name : string) : bool :=
  match name with
  | EmptyString => false
  | String c rest => ident_start c && all_chars ident_part rest
  end.

(** [str.replace(/_([a-z])/g, (match, letter) => f(letter))]: scanning from
    the left, every underscore directly followed by a lower-case letter is
    replaced, together with that letter, by [f letter]; the scan resumes
    after the letter. *)
Fixpoint replace_underscore_lower (f : ascii -> string) (str : string) : string :=
  match str with
  | EmptyString => EmptyString
  | String c rest =>
      if is_underscore c then
        match rest with
        | String letter rest' =>
            if is_lower letter then f letter +:+ replace_underscore_lower f rest'
            else String c (replace_underscore_lower f rest)
        | EmptyString => String c EmptyString
        end
      else String c (replace_underscore_lower f rest)
  end.

(** ** JSON values *)

Record number := { significand : Z; exponent10 : Z }.

(** [Number.isInteger(n)]: the value has no fractional part.  It is asked
    of the decimal as the text spells it; a double rounds a decimal of more
    than seventeen significant digits or beyond its range. *)
Definition Number_isInteger (n : number) : bool :=
  if (0 <=? exponent10 n)%Z then true
  else (significand n mod 10 ^ (- exponent10 n) =? 0)%Z.

#[warnings="-register-all"]
Inductive json :=
| JNull
| JBool (b : bool)
| JNumber (n : number)
| JString (s : string)
| JArray (items : list json)
| JObject (entries : list (string * json)).

Inductive jstype := TString | TBoolean | TNumber | TObject.

(** [typeof value] *)
Definition typeof (value : json) : jstype :=
  match value with
  | JString _ => TString
  | JBool _ => TBoolean
  | JNumber _ => TNumber
  | JNull | JArray _ | JObject _ => TObject
  end.

Definition Array_isArray (value : json) : bool :=
  match value with JArray _ => true | _ => false end.

Definition is_null (value : json) : bool :=
  match value with JNull => true | _ => false end.

(** ** Exceptions *)

Inductive exn :=
| Error (message : string)        (* [throw new Error(message)] in the sources *)
| SyntaxError (message : string)  (* raised by [JSON.parse] *)
| TypeError_nullish.              (* [Object.keys(null)], [Object.entries(null)] *)

Inductive result (A : Type) :=
| Ok (a : A)
| Throw (e : exn).
Arguments Ok {A} a.
Arguments Throw {A} e.

Definition bind {A B} (r : result A) (k : A -> result B) : result B :=
  match r with
  | Ok a => k a
  | Throw e => Throw e
  end.

Notation "'let!' x ':=' r 'in' k" := (bind r (fun x => k))
  (at level 10, x name, r at level 100, k at level 200).

(** The builtins of the JavaScript runtime used by the generators. *)
Record Runtime := {
  JSON_parse : string -> result json;
  JSON_stringify : json -> string;       (* [JSON.stringify(value, null, 2)] *)
  nullish_message : string               (* the message of [TypeError_nullish] *)
}.

Definition message (rt : Runtime) (e : exn) : string :=
  match e with
  | Error m => m
  | SyntaxError m => m
  | TypeError_nullish => nullish_message rt
  end.

(** Decimal spelling of an array index. *)
Definition index_key (i : nat) : string :=
  NilZero.string_of_uint (Nat.to_uint i).

Fixpoint indexed {A} (i : nat) (l : list A) : list (string * A) :=
  match l with
  | [] => []
  | x :: rest => (index_key i, x) :: indexed (S i) rest
  end.

Fixpoint chars (s : string) : list json :=
  match s with
  | EmptyString => []
  | String c rest => JString (String c EmptyString) :: chars rest
  end.

(** [Object.entries(value)] for a parsed JSON value: the entries of an
    object, the indexed items of an array or a string, nothing for the other
    primitives, and a [TypeError] for [null]. *)
Definition Object_entries (value : json) : result (list (string * json)) :=
  match value with
  | JObject entries => Ok entries
  | JArray items => Ok (indexed 0 items)
  | JString s => Ok (indexed 0 (chars s))
  | JNumber _ | JBool _ => Ok []
  | JNull => Throw TypeError_nullish
  end.

(** ** The standard renderer: src/script/dart-generator.js *)

Module DartGenerator.

(** The generator instance: its only field is [this.options].  Only
    [setOptions] assigns it; the rendering methods read the instance and
    leave it as it is, so they are functions of it. *)
Record t := { options : gmap string bool }.

(** [constructor()] *)
Definition new : t :=
  {| options := list_to_map
       [ ("generateToJson", true); ("generateCopyWith", true);
         ("generateToString", true); ("generateKeys", true);
         ("useNum", false); ("useSerializable", true);
         ("useEquatable", true); ("useDefaultValue", false);
         ("generateComment", false) ] |}.

(** [setOptions(options)]: [this.options = { ...this.options, ...options }] *)
Definition setOptions (opts : gmap string bool) (this : t) : t :=
  {| options := opts ∪ options this |}.

(** Reading the switch [this.options.<key>] in a condition. *)
Definition opt (this : t) (key : string) : bool :=
  default false (options this !! key).

(** [this.className]: no method of the class ever assigns it, so the
    read yields [undefined]. *)
Definition this_className : option string := None.

(** String concatenation with a possibly undefined operand. *)
Definition to_string (v : option string) : string :=
  match v with
  | Some s => s
  | None => "undefined"
  end.

Record property := {
  name : string;
  type : string;
  jsonKey : string;
  value : json
}.

Definition keywords : list string :=
  [ "abstract"; "as"; "assert"; "async"; "await"; "break"; "case"; "catch"; "class";
    "const"; "continue"; "default"; "deferred"; "do"; "dynamic"; "else"; "enum";
    "export"; "extends"; "external"; "factory"; "false"; "final"; "finally"; "for";
    "function"; "get"; "hide"; "if"; "implements"; "import"; "in"; "interface"; "is";
    "library"; "mixin"; "new"; "null"; "on"; "operator"; "part"; "rethrow"; "return";
    "set"; "show"; "static"; "super"; "switch"; "sync"; "this"; "throw"; "true"; "try";
    "typedef"; "var"; "void"; "while"; "with"; "yield" ].

Definition isDartKeyword (name : string) : bool :=
  existsb (String.eqb name) keywords.

Definition isValidDartVariableName (name : string) : bool :=
  identifier_regex_test name && negb (isDartKeyword name).

Definition toCamelCase (str : string) : string :=
  replace_underscore_lower (fun letter => String (char_toUpperCase letter) EmptyString) str.

Fixpoint inferDartType (this : t) (value : json) : string :=
  match value with
  | JNull => "dynamic"
  | JString _ => "String"
  | JBool _ => "bool"
  | JNumber n =>
      if opt this "useNum" then "num"
      else if Number_isInteger n then "int" else "double"
  | JArray [] => "List<dynamic>"
  | JArray (first :: _) => "List<" +:+ inferDartType this first +:+ ">"
  | JObject _ => "Map<String, dynamic>"
  end.

(** The body of the [for ... of Object.entries(obj)] loop. *)
Fixpoint extractEntries (this : t) (entries : list (string * json)) : list property :=
  match entries with
  | [] => []
  | (key, value) :: rest =>
      if negb (isValidDartVariableName key) then extractEntries this rest
      else {| name := toCamelCase key;
              type := inferDartType this value;
              jsonKey := key;
              value := value |} :: extractEntries this rest
  end.

Definition extractProperties (this : t) (obj : json) : result (list property) :=
  let! entries := Object_entries obj in
  Ok (extractEntries this entries).

Definition generateImports (this : t) : string :=
  join nl ((if opt this "useSerializable"
      then ["import 'package:json_annotation/json_annotation.dart';"] else [])
     ++ (if opt this "useEquatable"
         then ["import 'package:equatable/equatable.dart';"] else [])
     ++ (if opt this "useSerializable"
         then [""; "part 'model.g.dart';"] else [])).

Definition generateClassDeclaration (this : t) (className : string) : string :=
  let annotations := if opt this "useSerializable" then ["@JsonSerializable()"] else [] in
  let extendsClause := if opt this "useEquatable" then " extends Equatable" else "" in
  join nl (annotations ++ ["class " +:+ className +:+ extendsClause +:+ " {"]).

Definition generateFields (this : t) (properties : list property) : string :=
  join (nl +:+ nl) (map (fun prop =>
        let annotations :=
          if opt this "generateKeys" && opt this "useSerializable"
          then ["  @JsonKey(name: '" +:+ jsonKey prop +:+ "')"] else [] in
        let nullable := if opt this "useDefaultValue" then "" else "?" in
        let field := "  final " +:+ type prop +:+ nullable +:+ " " +:+ name prop +:+ ";" in
        join nl (annotations ++ [field])) properties).

(** The array [properties.map(...)] inside [generateConstructor], before
    it is joined. *)
Definition constructorParams (this : t) (properties : list property) : list string :=
  map (fun prop =>
         let required := if opt this "useDefaultValue" then "required " else "" in
         "    " +:+ required +:+ "this." +:+ name prop) properties.

Definition generateConstructor (this : t) (className : string)
    (properties : list property) : string :=
  let params := join ("," +:+ nl) (constructorParams this properties) in
  join nl [ "  const " +:+ className +:+ "({"; params; "  });" ].

Definition getDefaultValue (type : string) : string :=
  if String.eqb type "String" then "''"
  else if String.eqb type "int" then "0"
  else if String.eqb type "double" then "0.0"
  else if String.eqb type "num" then "0"
  else if String.eqb type "bool" then "false"
  else "null".

Definition generateFromJson (this : t) (className : string)
    (properties : list property) : string :=
  if negb (opt this "useSerializable") then
    let assignments := join ("," +:+ nl) (map (fun prop =>
        let assignment := "      " +:+ name prop +:+ ": json['" +:+ jsonKey prop +:+ "']" in
        if negb (String.eqb (type prop) "dynamic") && negb (opt this "useDefaultValue")
        then assignment +:+ " as " +:+ type prop +:+ "?"
        else if opt this "useDefaultValue"
        then assignment +:+ " as " +:+ type prop +:+ "? ?? " +:+ getDefaultValue (type prop)
        else assignment) properties) in
    join nl
      [ "  factory " +:+ className +:+ ".fromJson(Map<String, dynamic> json) {";
        "    return " +:+ className +:+ "(";
        assignments;
        "    );";
        "  }" ]
  else
    "  factory " +:+ className +:+ ".fromJson(Map<String, dynamic> json) => _$"
      +:+ className +:+ "FromJson(json);".

Definition generateToJson (this : t) (properties : list property) : string :=
  if negb (opt this "generateToJson") then ""
  else if negb (opt this "useSerializable") then
    let assignments := join ("," +:+ nl) (map (fun prop =>
        "      '" +:+ jsonKey prop +:+ "': " +:+ name prop) properties) in
    join nl
      [ "";
        "  Map<String, dynamic> toJson() {";
        "    return {";
        assignments;
        "    };";
        "  }" ]
  else
    nl +:+ "  Map<String, dynamic> toJson() => _$" +:+ to_string this_className
      +:+ "ToJson(this);".

Definition generateCopyWith (this : t) (className : string)
    (properties : list property) : string :=
  if negb (opt this "generateCopyWith") then ""
  else
    let params := join ("," +:+ nl) (map (fun prop =>
        let nullable := if opt this "useDefaultValue" then "" else "?" in
        "    " +:+ type prop +:+ nullable +:+ " " +:+ name prop) properties) in
    let assignments := join ("," +:+ nl) (map (fun prop =>
        "      " +:+ name prop +:+ ": " +:+ name prop +:+ " ?? this." +:+ name prop)
        properties) in
    join nl
      [ "";
        "  " +:+ className +:+ " copyWith({";
        params;
        "  }) {";
        "    return " +:+ className +:+ "(";
        assignments;
        "    );";
        "  }" ].

Definition generateToString (this : t) (className : string)
    (properties : list property) : string :=
  if negb (opt this "generateToString") then ""
  else if opt this "useEquatable" then
    let propsList := join ", " (map name properties) in
    join nl
      [ "";
        "  @override";
        "  List<Object?> get props => [" +:+ propsList +:+ "];" ]
  else
    let propsString :=
      join ", " (map (fun prop => name prop +:+ ": $" +:+ name prop) properties) in
    join nl
      [ "";
        "  @override";
        "  String toString() {";
        "    return '" +:+ className +:+ "(" +:+ propsString +:+ ")';";
        "  }" ].

Section WithRuntime.
Variable rt : Runtime.

Definition generateJsonComment (this : t) (originalJson : string) : result string :=
  if negb (opt this "generateComment") then Ok ""
  else
    let! parsed := JSON_parse rt originalJson in
    let formattedJson :=
      join nl (map (fun line => "// " +:+ line) (split_lines (JSON_stringify rt parsed))) in
    Ok (nl +:+ nl +:+ formattedJson).

(** The array of sections that [buildDartClass] filters and joins. *)
Definition sections (this : t) (className : string) (properties : list property)
    (jsonComment : string) : list string :=
  [ generateImports this;
    "";
    generateClassDeclaration this className;
    generateFields this properties;
    "";
    generateConstructor this className properties;
    "";
    generateFromJson this className properties;
    generateToJson this properties;
    generateCopyWith this className properties;
    generateToString this className properties;
    "}";
    jsonComment ].

Definition buildDartClass (this : t) (className : string) (jsonObj : json)
    (originalJson : string) : result string :=
  let! properties := extractProperties this jsonObj in
  let! jsonComment := generateJsonComment this originalJson in
  Ok (join nl (List.filter nonempty (sections this className properties jsonComment))).

(** The [try] block of [generateDartClass]. *)
Definition generateDartClass_try (this : t) (className jsonString : string)
    : result string :=
  let! jsonObj := JSON_parse rt jsonString in
  match jsonObj with
  | JArray [] => Throw (Error "Cannot generate class from empty array")
  | JArray (first :: _) => buildDartClass this className first jsonString
  | _ => buildDartClass this className jsonObj jsonString
  end.

Definition generateDartClass (this : t) (className jsonString : string)
    : result string :=
  match generateDartClass_try this className jsonString with
  | Ok text => Ok text
  | Throw error => Throw (Error ("Invalid JSON: " +:+ message rt error))
  end.

End WithRuntime.

End DartGenerator.

(** ** The nested/persistence renderer: [ModelNewGenerator] *)

Module ModelNewGenerator.

(** The generator instance: [this.baseImports] is set by the constructor,
    [this.currentClassName] only by [setCurrentClassName]; the rendering
    methods read the instance and leave it as it is. *)
Record t := {
  baseImports : list string;
  currentClassName : option string
}.

(** [constructor()] *)
Definition new : t :=
  {| baseImports :=
       [ "import 'dart:convert';";
         "";
         "import '../main.dart';";
         "import 'base.dart';";
         "" ];
     currentClassName := None |}.

Definition setCurrentClassName (className : string) (this : t) : t :=
  {| baseImports := baseImports this; currentClassName := Some className |}.

(** [this.currentClassName || 'Model']: an unset or empty name is falsy. *)
Definition getCurrentClassName (this : t) : string :=
  match currentClassName this with
  | Some className => if nonempty className then className else "Model"
  | None => "Model"
  end.

(** Reading the switch [settings.<key>] in a condition. *)
Definition setting (settings : gmap string bool) (key : string) : bool :=
  default false (settings !! key).

Definition keywords : list string :=
  [ "abstract"; "as"; "assert"; "async"; "await"; "break"; "case"; "catch"; "class";
    "const"; "continue"; "default"; "deferred"; "do"; "dynamic"; "else"; "enum";
    "export"; "extends"; "external"; "factory"; "false"; "final"; "finally"; "for";
    "function"; "get"; "hide"; "if"; "implements"; "import"; "in"; "interface"; "is";
    "library"; "mixin"; "new"; "null"; "on"; "operator"; "part"; "rethrow"; "return";
    "set"; "show"; "static"; "super"; "switch"; "sync"; "this"; "throw"; "true"; "try";
    "typedef"; "var"; "void"; "while"; "with"; "yield" ].

Definition isDartKeyword (name : string) : bool :=
  existsb (String.eqb name) keywords.

Definition isValidDartVariableName (name : string) : bool :=
  identifier_regex_test name && negb (isDartKeyword name).

Definition toCamelCase (str : string) : string :=
  replace_underscore_lower (fun letter => String (char_toUpperCase letter) EmptyString) str.

Definition capitalize (str : string) : string :=
  match str with
  | EmptyString => EmptyString
  | String c rest => String (char_toUpperCase c) rest
  end.

(** The five arrays filled by [generateProperties]. *)
Record categories := {
  stringProps : list string;
  boolProps : list string;
  intProps : list string;
  doubleProps : list string;
  objectProps : list string
}.

Definition no_props : categories :=
  {| stringProps := []; boolProps := []; intProps := []; doubleProps := [];
     objectProps := [] |}.

(** The callback of [Object.keys(jsonData).forEach] in [generateProperties],
    with [value = jsonData[key]]. *)
Definition categorize (acc : categories) (entry : string * json) : categories :=
  let (key, value) := entry in
  if negb (isValidDartVariableName key) then acc
  else
    let camelKey := toCamelCase key in
    match typeof value with
    | TString =>
        {| stringProps := stringProps acc ++ [camelKey]; boolProps := boolProps acc;
           intProps := intProps acc; doubleProps := doubleProps acc;
           objectProps := objectProps acc |}
    | TBoolean =>
        {| stringProps := stringProps acc; boolProps := boolProps acc ++ [camelKey];
           intProps := intProps acc; doubleProps := doubleProps acc;
           objectProps := objectProps acc |}
    | TNumber =>
        match value with
        | JNumber n =>
            if Number_isInteger n then
              {| stringProps := stringProps acc; boolProps := boolProps acc;
                 intProps := intProps acc ++ [camelKey]; doubleProps := doubleProps acc;
                 objectProps := objectProps acc |}
            else
              {| stringProps := stringProps acc; boolProps := boolProps acc;
                 intProps := intProps acc; doubleProps := doubleProps acc ++ [camelKey];
                 objectProps := objectProps acc |}
        | _ => acc
        end
    | TObject =>
        if negb (is_null value) && negb (Array_isArray value) then
          {| stringProps := stringProps acc; boolProps := boolProps acc;
             intProps := intProps acc; doubleProps := doubleProps acc;
             objectProps :=
               objectProps acc ++ [capitalize camelKey +:+ "Model " +:+ camelKey] |}
        else acc
    end.

Definition late (type : string) (names : list string) : string :=
  match names with
  | [] => ""
  | _ => "  late " +:+ type +:+ " " +:+ join ("," +:+ nl +:+ "      ") names +:+ ";" +:+ nl
  end.

(** The text assembled at the end of [generateProperties], before [trim]. *)
Definition declarations (c : categories) : string :=
  late "String" (stringProps c)
  +:+ late "bool" (boolProps c)
  +:+ late "int" (intProps c)
  +:+ late "double" (doubleProps c)
  +:+ fold_left (fun properties prop => properties +:+ "  late " +:+ prop +:+ ";" +:+ nl)
        (objectProps c) "".

Definition generateProperties (jsonData : json) : result string :=
  let! entries := Object_entries jsonData in
  Ok (trim (declarations (fold_left categorize entries no_props))).

(** The callback of [Object.keys(jsonData).forEach] in [generateFromJson]:
    the text it appends to [method]. *)
Definition assignment (entry : string * json) : string :=
  let (key, value) := entry in
  if negb (isValidDartVariableName key) then ""
  else
    let camelKey := toCamelCase key in
    match typeof value with
    | TString =>
        "    " +:+ camelKey +:+ " = stringFromJson(json, " +:+ dq +:+ key +:+ dq +:+ ");" +:+ nl
    | TBoolean =>
        "    " +:+ camelKey +:+ " = boolFromJson(json, " +:+ dq +:+ key +:+ dq +:+ ");" +:+ nl
    | TNumber =>
        match value with
        | JNumber n =>
            if Number_isInteger n then
              "    " +:+ camelKey +:+ " = intFromJson(json, " +:+ dq +:+ key +:+ dq +:+ ");"
                +:+ nl
            else
              "    " +:+ camelKey +:+ " = doubleFromJson(json, " +:+ dq +:+ key +:+ dq +:+ ");"
                +:+ nl
        | _ => ""
        end
    | TObject =>
        if negb (is_null value) && negb (Array_isArray value) then
          let modelName := capitalize camelKey +:+ "Model" in
          "    " +:+ camelKey +:+ " = " +:+ modelName +:+ ".fromJson(json?[" +:+ dq +:+ key
            +:+ dq +:+ "] ?? {});" +:+ nl
        else ""
    end.

Definition generateFromJson (this : t) (jsonData : json) (hasSingleton : bool)
    : result string :=
  let constructorName :=
    if hasSingleton then "fromJson" else getCurrentClassName this +:+ ".fromJson" in
  let method := "  " +:+ constructorName +:+ "([Map<String, dynamic>? json]) {" +:+ nl in
  let method :=
    method +:+ "    id = stringFromJson(json, " +:+ dq +:+ "id" +:+ dq +:+ ");" +:+ nl in
  let! entries := Object_entries jsonData in
  let method := fold_left (fun method entry => method +:+ assignment entry) entries method in
  Ok (method +:+ "  }").

Definition generateSaveMethod (className : string) : string :=
  let key := toLowerCase className in
  join nl
    [ "  save() {";
      "    Prefs.setString('" +:+ key +:+ "', jsonEncode(toJson()));";
      "  }" ].

Definition generateClearMethod (className : string) : string :=
  let key := toLowerCase className in
  join nl
    [ "  clear() {";
      "    Prefs.remove('" +:+ key +:+ "');";
      "    fromJson();";
      "  }" ].

Definition generateGetMethod (className : string) : string :=
  let key := toLowerCase className in
  join nl
    [ "  get() {";
      "    String data = Prefs.getString('" +:+ key +:+ "') ?? '{}';";
      "    fromJson(jsonDecode(data));";
      "  }" ].

(** The array [assignments] of [generateToJson]. *)
Definition toJsonAssignments (entries : list (string * json)) : list string :=
  map (fun entry : string * json =>
         let (key, value) := entry in
         let camelKey := toCamelCase key in
         match typeof value with
         | TObject =>
             if negb (is_null value) && negb (Array_isArray value)
             then "        " +:+ dq +:+ key +:+ dq +:+ ": " +:+ camelKey +:+ ".toJson()"
             else "        " +:+ dq +:+ key +:+ dq +:+ ": " +:+ camelKey
         | _ => "        " +:+ dq +:+ key +:+ dq +:+ ": " +:+ camelKey
         end)
      (List.filter (fun entry => isValidDartVariableName (fst entry)) entries).

Definition generateToJson (jsonData : json) : result string :=
  let method := "  @override" +:+ nl +:+ "  Map<String, dynamic> toJson() => {" +:+ nl in
  let method := method +:+ "        " +:+ dq +:+ "id" +:+ dq +:+ ": id," +:+ nl in
  let! entries := Object_entries jsonData in
  let method := method +:+ join ("," +:+ nl) (toJsonAssignments entries) +:+ "," +:+ nl in
  Ok (method +:+ "      };").

Section WithRuntime.
Variable rt : Runtime.

Definition generate (this : t) (className : string) (jsonData : json)
    (settings : gmap string bool) : result string :=
  let! jsonData :=
    match jsonData with
    | JArray [] => Throw (Error "Cannot generate class from empty array")
    | JArray (first :: _) => Ok first
    | _ => Ok jsonData
    end in
  let dartCode := join nl (baseImports this) in
  let dartCode := dartCode +:+ "class " +:+ className +:+ " extends Model {" +:+ nl in
  let dartCode :=
    if setting settings "singletonPattern" then
      dartCode +:+ "  " +:+ className +:+ "._();" +:+ nl
        +:+ "  static " +:+ className +:+ " i = " +:+ className +:+ "._();" +:+ nl +:+ nl
    else dartCode in
  let! properties := generateProperties jsonData in
  let dartCode := dartCode +:+ properties +:+ nl +:+ nl in
  let! fromJson := generateFromJson this jsonData (setting settings "singletonPattern") in
  let dartCode := dartCode +:+ fromJson +:+ nl +:+ nl in
  let dartCode :=
    if setting settings "localSave"
    then dartCode +:+ generateSaveMethod className +:+ nl +:+ nl else dartCode in
  let dartCode :=
    if setting settings "localClear"
    then dartCode +:+ generateClearMethod className +:+ nl +:+ nl else dartCode in
  let dartCode :=
    if setting settings "localGet"
    then dartCode +:+ generateGetMethod className +:+ nl +:+ nl else dartCode in
  let! toJson := generateToJson jsonData in
  let dartCode := dartCode +:+ toJson +:+ nl in
  let dartCode := dartCode +:+ "}" +:+ nl in
  let dartCode :=
    if setting settings "generateJsonComment"
    then dartCode +:+ nl +:+ "/*" +:+ nl +:+ JSON_stringify rt jsonData +:+ nl +:+ "*/"
    else dartCode in
  Ok dartCode.

End WithRuntime.

End ModelNewGenerator.

(** ** The main script: [JsonToDartConverter] of src/script/script.js

    The converter owns one instance of each generator, the in-memory
    history and the elements of the page.  Of an element the model keeps
    what the script reads or writes: the value of the two inputs and of the
    output, the checked state of the check boxes that exist, and the last
    notification shown.  The clock read by [Date.now()] is an argument.  The
    copies written to [localStorage] and the rendering of the history list
    are left out. *)

Module JsonToDartConverter.

Record historyItem := {
  className : string;
  jsonString : string;
  timestamp : Z
}.

Inductive notificationType := error | success.

Record t := {
  dartGenerator : DartGenerator.t;
  modelNewGenerator : ModelNewGenerator.t;
  history : list historyItem;
  classNameInput : string;
  jsonInput : string;
  checkboxes : gmap string bool;
  dartOutput : string;
  notification : option (string * notificationType)
}.

Definition showNotification (text : string) (type : notificationType) (this : t) : t :=
  {| dartGenerator := dartGenerator this;
     modelNewGenerator := modelNewGenerator this;
     history := history this;
     classNameInput := classNameInput this;
     jsonInput := jsonInput this;
     checkboxes := checkboxes this;
     dartOutput := dartOutput this;
     notification := Some (text, type) |}.

Definition showError (text : string) (this : t) : t := showNotification text error this.

Definition showSuccess (text : string) (this : t) : t := showNotification text success this.

(** [getCurrentSettings()]: one entry for every check box that exists. *)
Definition getCurrentSettings (this : t) : gmap string bool := checkboxes this.

(** The three statements of [saveToHistory] on [this.history]: drop the
    items of the same class name, put the new item in front, keep the first
    twenty. *)
Definition saveItem (item : historyItem) (items : list historyItem) : list historyItem :=
  take 20 (item :: List.filter (fun other => negb (String.eqb (className other) (className item)))
                               items).

Definition saveToHistory (now : Z) (name json : string) (this : t) : t :=
  let historyItem := {| className := name; jsonString := json; timestamp := now |} in
  {| dartGenerator := dartGenerator this;
     modelNewGenerator := modelNewGenerator this;
     history := saveItem historyItem (history this);
     classNameInput := classNameInput this;
     jsonInput := jsonInput this;
     checkboxes := checkboxes this;
     dartOutput := dartOutput this;
     notification := notification this |}.

Definition loadFromHistory (item : historyItem) (this : t) : t :=
  showSuccess ("Loaded: " +:+ className item)
    {| dartGenerator := dartGenerator this;
       modelNewGenerator := modelNewGenerator this;
       history := history this;
       classNameInput := className item;
       jsonInput := jsonString item;
       checkboxes := checkboxes this;
       dartOutput := dartOutput this;
       notification := notification this |}.

Section WithRuntime.
Variable rt : Runtime.

(** The [try] block of [convert] after [JSON.parse] has returned
    [parsedJson]; the assignments made before an exception are kept. *)
Definition convert_parsed (now : Z) (name : string) (parsedJson : json) (this : t) : t :=
  let formattedJson := JSON_stringify rt parsedJson in
  let this :=
    {| dartGenerator := dartGenerator this;
       modelNewGenerator := modelNewGenerator this;
       history := history this;
       classNameInput := classNameInput this;
       jsonInput := formattedJson;
       checkboxes := checkboxes this;
       dartOutput := dartOutput this;
       notification := notification this |} in
  let settings := getCurrentSettings this in
  let this :=
    if ModelNewGenerator.setting settings "modelNew" then
      {| dartGenerator := dartGenerator this;
         modelNewGenerator :=
           ModelNewGenerator.setCurrentClassName name (modelNewGenerator this);
         history := history this;
         classNameInput := classNameInput this;
         jsonInput := jsonInput this;
         checkboxes := checkboxes this;
         dartOutput := dartOutput this;
         notification := notification this |}
    else
      {| dartGenerator := DartGenerator.setOptions settings (dartGenerator this);
         modelNewGenerator := modelNewGenerator this;
         history := history this;
         classNameInput := classNameInput this;
         jsonInput := jsonInput this;
         checkboxes := checkboxes this;
         dartOutput := dartOutput this;
         notification := notification this |} in
  let generated :=
    if ModelNewGenerator.setting settings "modelNew"
    then ModelNewGenerator.generate rt (modelNewGenerator this) name parsedJson settings
    else DartGenerator.generateDartClass rt (dartGenerator this) name formattedJson in
  match generated with
  | Throw e => showError ("Error: " +:+ message rt e) this
  | Ok dartClass =>
      let this :=
        {| dartGenerator := dartGenerator this;
           modelNewGenerator := modelNewGenerator this;
           history := history this;
           classNameInput := classNameInput this;
           jsonInput := jsonInput this;
           checkboxes := checkboxes this;
           dartOutput := dartClass;
           notification := notification this |} in
      showSuccess "Dart class generated successfully!"
        (saveToHistory now name formattedJson this)
  end.

Definition convert (now : Z) (this : t) : t :=
  let name := trim (classNameInput this) in
  let json := trim (jsonInput this) in
  if negb (nonempty name) then showError "Please enter a class name" this
  else if negb (nonempty json) then showError "Please enter JSON data" this
  else
    match JSON_parse rt json with
    | Throw e => showError ("Error: " +:+ message rt e) this
    | Ok parsedJson => convert_parsed now name parsedJson this
    end.

End WithRuntime.

End JsonToDartConverter.

(** ** A concrete runtime

    An executable [Runtime] on which the generators are run in the examples
    below: a reader of JSON texts and a printer with an indentation of two
    spaces, for ASCII texts.  Numbers are printed in plain decimal notation
    and the keys of an object keep the order of the text.  The properties
    stated for every runtime do not depend on it. *)

Module ReferenceRuntime.

Definition digit_char (d : Z) : ascii := ascii_of_nat (48 + Z.to_nat d).

Fixpoint digits_of (fuel : nat) (z : Z) (acc : string) : string :=
  match fuel with
  | O => acc
  | S fuel' =>
      let acc' := String (digit_char (z mod 10)) acc in
      if (z <? 10)%Z then acc' else digits_of fuel' (z / 10) acc'
  end.

(** Decimal digits of a natural number given as [Z]. *)
Definition decimal (z : Z) : string :=
  digits_of (S (Z.to_nat (Z.log2 z))) z EmptyString.

Fixpoint zeros (n : nat) : string :=
  match n with
  | O => EmptyString
  | S n' => String "0" (zeros n')
  end.

(** Drop the zeros that end a fraction. *)
Fixpoint strip_zeros (s : string) : string :=
  match s with
  | EmptyString => EmptyString
  | String c rest =>
      match strip_zeros rest with
      | EmptyString => if Ascii.eqb c "0" then EmptyString else String c EmptyString
      | kept => String c kept
      end
  end.

Definition number_to_string (n : number) : string :=
  let m := Z.abs (significand n) in
  let sign := if (significand n <? 0)%Z then "-" else "" in
  if (m =? 0)%Z then "0"
  else if (0 <=? exponent10 n)%Z then sign +:+ decimal m +:+ zeros (Z.to_nat (exponent10 n))
  else
    let d := Z.to_nat (- exponent10 n) in
    let ds := decimal m in
    let ds := zeros (S d - String.length ds) +:+ ds in
    let whole := substring 0 (String.length ds - d) ds in
    let frac := strip_zeros (substring (String.length ds - d) d ds) in
    match frac with
    | EmptyString => sign +:+ whole
    | _ => sign +:+ whole +:+ "." +:+ frac
    end.

Definition hex_char (d : nat) : ascii :=
  if (d <? 10)%nat then ascii_of_nat (48 + d) else ascii_of_nat (87 + d).

Definition quote_char (c : ascii) : string :=
  let n := code c in
  if (n =? 34)%nat then "\" +:+ dq
  else if (n =? 92)%nat then "\\"
  else if (n =? 8)%nat then "\b"
  else if (n =? 9)%nat then "\t"
  else if (n =? 10)%nat then "\n"
  else if (n =? 12)%nat then "\f"
  else if (n =? 13)%nat then "\r"
  else if (n <? 32)%nat
  then "\u00" +:+ String (hex_char (n / 16)) (String (hex_char (n mod 16)) EmptyString)
  else String c EmptyString.

Fixpoint quote_body (s : string) : string :=
  match s with
  | EmptyString => EmptyString
  | String c rest => quote_char c +:+ quote_body rest
  end.

Definition quote (s : string) : string := dq +:+ quote_body s +:+ dq.

Fixpoint stringify (indent : string) (value : json) : string :=
  let inner := indent +:+ "  " in
  match value with
  | JNull => "null"
  | JBool true => "true"
  | JBool false => "false"
  | JNumber n => number_to_string n
  | JString s => quote s
  | JArray [] => "[]"
  | JArray items =>
      "[" +:+ nl +:+ inner
        +:+ join ("," +:+ nl +:+ inner) (map (stringify inner) items)
        +:+ nl +:+ indent +:+ "]"
  | JObject [] => "{}"
  | JObject entries =>
      "{" +:+ nl +:+ inner
        +:+ join ("," +:+ nl +:+ inner)
              (map (fun entry : string * json =>
                      let (key, item) := entry in
                      quote key +:+ ": " +:+ stringify inner item) entries)
        +:+ nl +:+ indent +:+ "}"
  end.

Definition unexpected : exn := SyntaxError "Unexpected token in JSON".

Fixpoint skip_ws (s : string) : string :=
  match s with
  | String c rest =>
      if (code c =? 32)%nat || (code c =? 9)%nat || (code c =? 10)%nat || (code c =? 13)%nat
      then skip_ws rest else s
  | EmptyString => EmptyString
  end.

Definition expect (word : string) (s : string) : option string :=
  if String.prefix word s
  then Some (substring (String.length word) (String.length s - String.length word) s)
  else None.

(** The digits at the head of [s], their value appended to [acc], the
    count of digits read and the rest. *)
Fixpoint read_digits (s : string) (acc : Z) (count : nat) : Z * nat * string :=
  match s with
  | String c rest =>
      if is_digit c then read_digits rest (acc * 10 + Z.of_nat (code c - 48)) (S count)
      else (acc, count, s)
  | EmptyString => (acc, count, s)
  end.

Definition read_number (s : string) : result (number * string) :=
  let (negative, s) :=
    match s with
    | String "-" rest => (true, rest)
    | _ => (false, s)
    end in
  let '(int, int_count, s) := read_digits s 0%Z 0 in
  if (int_count =? 0)%nat then Throw unexpected
  else
    let '(mant, frac_count, s) :=
      match s with
      | String "." rest => read_digits rest int 0
      | _ => (int, 0, s)
      end in
    let '(exp, s) :=
      match s with
      | String c rest =>
          if Ascii.eqb c "e" || Ascii.eqb c "E" then
            match rest with
            | String "-" rest' => let '(e, _, s') := read_digits rest' 0%Z 0 in ((- e)%Z, s')
            | String "+" rest' => let '(e, _, s') := read_digits rest' 0%Z 0 in (e, s')
            | _ => let '(e, _, s') := read_digits rest 0%Z 0 in (e, s')
            end
          else (0%Z, s)
      | EmptyString => (0%Z, s)
      end in
    Ok ({| significand := if negative then (- mant)%Z else mant;
           exponent10 := (exp - Z.of_nat frac_count)%Z |}, s).

(** The characters of a string literal up to its closing quote. *)
Fixpoint read_string (s : string) : result (string * string) :=
  match s with
  | EmptyString => Throw unexpected
  | String c rest =>
      if (code c =? 34)%nat then Ok (EmptyString, rest)
      else if (code c =? 92)%nat then
        match rest with
        | String e rest' =>
            let plain (c' : ascii) :=
              let! tail := read_string rest' in
              Ok (String c' (fst tail), snd tail) in
            if (code e =? 34)%nat || (code e =? 92)%nat || (code e =? 47)%nat then plain e
            else if Ascii.eqb e "n" then plain "010"%char
            else if Ascii.eqb e "t" then plain "009"%char
            else if Ascii.eqb e "r" then plain "013"%char
            else if Ascii.eqb e "b" then plain "008"%char
            else if Ascii.eqb e "f" then plain "012"%char
            else Throw unexpected
        | EmptyString => Throw unexpected
        end
      else if (code c <? 32)%nat then Throw unexpected
      else
        let! tail := read_string rest in
        Ok (String c (fst tail), snd tail)
  end.

(** [obj[key] = value] while an object is built: a repeated key keeps its
    place and takes the later value. *)
Fixpoint put (entries : list (string * json)) (key : string) (value : json)
    : list (string * json) :=
  match entries with
  | [] => [(key, value)]
  | (k, v) :: rest =>
      if String.eqb k key then (k, value) :: rest else (k, v) :: put rest key value
  end.

Fixpoint read_value (fuel : nat) (s : string) : result (json * string) :=
  match fuel with
  | O => Throw unexpected
  | S fuel' =>
      let read_items :=
        fix read_items (n : nat) (acc : list json) (s : string) : result (json * string) :=
          match n with
          | O => Throw unexpected
          | S n' =>
              let! item := read_value fuel' s in
              match skip_ws (snd item) with
              | String "," rest => read_items n' (acc ++ [fst item])%list rest
              | String "]" rest => Ok (JArray (acc ++ [fst item])%list, rest)
              | _ => Throw unexpected
              end
          end in
      let read_entries :=
        fix read_entries (n : nat) (acc : list (string * json)) (s : string)
            : result (json * string) :=
          match n with
          | O => Throw unexpected
          | S n' =>
              match skip_ws s with
              | String c rest =>
                  if (code c =? 34)%nat then
                    let! key := read_string rest in
                    match skip_ws (snd key) with
                    | String ":" rest' =>
                        let! item := read_value fuel' rest' in
                        match skip_ws (snd item) with
                        | String "," rest'' =>
                            read_entries n' (put acc (fst key) (fst item)) rest''
                        | String "}" rest'' =>
                            Ok (JObject (put acc (fst key) (fst item)), rest'')
                        | _ => Throw unexpected
                        end
                    | _ => Throw unexpected
                    end
                  else Throw unexpected
              | EmptyString => Throw unexpected
              end
          end in
      match skip_ws s with
      | EmptyString => Throw unexpected
      | String c rest =>
          if (code c =? 34)%nat then
            let! str := read_string rest in Ok (JString (fst str), snd str)
          else if Ascii.eqb c "[" then
            match skip_ws rest with
            | String "]" rest' => Ok (JArray [], rest')
            | _ => read_items fuel' [] rest
            end
          else if Ascii.eqb c "{" then
            match skip_ws rest with
            | String "}" rest' => Ok (JObject [], rest')
            | _ => read_entries fuel' [] rest
            end
          else if Ascii.eqb c "-" || is_digit c then
            let! num := read_number (String c rest) in Ok (JNumber (fst num), snd num)
          else
            match expect "null" (String c rest) with
            | Some rest' => Ok (JNull, rest')
            | None =>
                match expect "true" (String c rest) with
                | Some rest' => Ok (JBool true, rest')
                | None =>
                    match expect "false" (String c rest) with
                    | Some rest' => Ok (JBool false, rest')
                    | None => Throw unexpected
                    end
                end
            end
      end
  end.

Definition parse (text : string) : result json :=
  let! parsed := read_value (S (String.length text)) text in
  match skip_ws (snd parsed) with
  | EmptyString => Ok (fst parsed)
  | _ => Throw unexpected
  end.

Definition runtime : Runtime :=
  {| JSON_parse := parse;
     JSON_stringify := stringify EmptyString;
     nullish_message := "Cannot convert undefined or null to object" |}.

End ReferenceRuntime.

(** ** Specification-side definitions *)

(** The identifier derivation as a rule on each character of the key: a
    character is removed when it is an underscore immediately followed by a
    character of the class [follows]; it is upper-cased when it belongs to
    [follows] and immediately follows an underscore; every other character
    is kept.  [prev] is the character before the head of [str]. *)
Fixpoint derive (follows : ascii -> bool) (prev : option ascii) (str : string) : string :=
  match str with
  | EmptyString => EmptyString
  | String c rest =>
      let removed :=
        is_underscore c && match rest with
                           | String next _ => follows next
                           | EmptyString => false
                           end in
      let raised :=
        match prev with
        | Some p => is_underscore p && follows c
        | None => false
        end in
      if removed then derive follows (Some c) rest
      else String (if raised then char_toUpperCase c else c) (derive follows (Some c) rest)
  end.

(** The derivation in the words of the specification: "each letter
    immediately following an underscore", whatever its case. *)
Definition camel_of_spec (key : string) : string := derive is_letter None key.

(** A character between two others, bounds included: one range of a
    character class. *)
Definition in_range (lo hi c : ascii) : bool :=
  (N_of_ascii lo <=? N_of_ascii c)%N && (N_of_ascii c <=? N_of_ascii hi)%N.

(** The classes [[A-Za-z_]] and [[A-Za-z0-9_]]. *)
Definition first_class (c : ascii) : bool :=
  in_range "A"%char "Z"%char c || in_range "a"%char "z"%char c || Ascii.eqb c "_"%char.

Definition next_class (c : ascii) : bool :=
  in_range "A"%char "Z"%char c || in_range "a"%char "z"%char c
  || in_range "0"%char "9"%char c || Ascii.eqb c "_"%char.

(** The whole key matches [[A-Za-z_][A-Za-z0-9_]*]. *)
Definition matches_pattern (key : string) : bool :=
  match list_ascii_of_string key with
  | [] => false
  | c :: rest => first_class c && forallb next_class rest
  end.

(** The reserved words of Dart, the target language: the words that are
    never identifiers. *)
Definition reserved_words : list string :=
  [ "assert"; "break"; "case"; "catch"; "class"; "const"; "continue"; "default"; "do";
    "else"; "enum"; "extends"; "false"; "final"; "finally"; "for"; "if"; "in"; "is";
    "new"; "null"; "rethrow"; "return"; "super"; "switch"; "this"; "throw"; "true";
    "try"; "var"; "void"; "while"; "with" ].

(** The camel-cased form of the key is one of the words. *)
Definition collides (words : list string) (key : string) : bool :=
  existsb (String.eqb (camel_of_spec key)) words.

(** The legality of a key in the words of the specification: it matches
    the pattern and its camel-cased form is no reserved word. *)
Definition legal_key (key : string) : bool :=
  matches_pattern key && negb (collides reserved_words key).

(** The words that cost a key its descriptor: the reserved words, and
    twenty-six more that are no reserved words of Dart. *)
Definition further_words : list string :=
  [ "abstract"; "as"; "async"; "await"; "deferred"; "dynamic"; "export"; "external";
    "factory"; "function"; "get"; "hide"; "implements"; "import"; "interface";
    "library"; "mixin"; "on"; "operator"; "part"; "set"; "show"; "static"; "sync";
    "typedef"; "yield" ].

Definition listed_words : list string := (reserved_words ++ further_words)%list.

(** A key that matches the pattern and whose camel-cased form is none of
    the listed words. *)
Definition accepted_key (key : string) : bool :=
  matches_pattern key && negb (collides listed_words key).

Fixpoint any_char (p : ascii -> bool) (s : string) : bool :=
  match s with
  | EmptyString => false
  | String c rest => p c || any_char p rest
  end.

(** [strip_prefix p s]: the rest of [s] after its prefix [p]. *)
Fixpoint strip_prefix (p s : string) : option string :=
  match p with
  | EmptyString => Some s
  | String a p' =>
      match s with
      | String b s' => if Ascii.eqb a b then strip_prefix p' s' else None
      | EmptyString => None
      end
  end.

(** A line of the constructor's parameter list is marked when the word
    [required] precedes [this.<field>]. *)
Definition marked_required (line : string) : bool :=
  match strip_prefix "    required " line with
  | Some _ => true
  | None => false
  end.

(** The field that a line of the constructor's parameter list initialises. *)
Definition param_field (line : string) : option string :=
  match strip_prefix "    required this." line with
  | Some field => Some field
  | None => strip_prefix "    this." line
  end.

(** The text holds no line feed. *)
Definition single_line (s : string) : bool :=
  all_chars (fun c => negb (Ascii.eqb c "010"%char)) s.

Definition starts_with (prefix s : string) : bool :=
  match strip_prefix prefix s with
  | Some _ => true
  | None => false
  end.

Fixpoint ends_with (suffix s : string) : bool :=
  String.eqb suffix s
  || match s with
     | EmptyString => false
     | String _ rest => ends_with suffix rest
     end.

(** The line that opens a [toString] method of the class. *)
Definition toString_header : string := "  String toString() {".

Definition declares_toString (line : string) : bool := String.eqb line toString_header.

(** A line that declares the [props] getter, whatever it lists. *)
Definition declares_props (line : string) : bool :=
  starts_with "  List<Object?> get props => [" line && ends_with "];" line.

(** The [props] getter that lists [fields] in this order. *)
Definition props_line (fields : list string) : string :=
  "  List<Object?> get props => [" +:+ join ", " fields +:+ "];".

(** The statement of a [toString] method for [fields]. *)
Definition toString_return (className : string) (fields : list string) : string :=
  "    return '" +:+ className +:+ "("
  +:+ join ", " (map (fun field => field +:+ ": $" +:+ field) fields) +:+ ")';".

(** The identifiers of the fields of a sample: the camel-cased forms of its
    accepted keys, in the order of the keys. *)
Definition field_names (entries : list (string * json)) : list string :=
  map (derive is_lower None) (List.filter accepted_key (map fst entries)).

(** Every line of the text satisfies [P]. *)
Definition every_line (P : string -> bool) (text : string) : bool :=
  forallb P (split_lines text).

(** A line that declares neither member. *)
Definition plain_line (line : string) : bool :=
  negb (declares_props line) && negb (declares_toString line).

(** A line whose third character opens neither declaration: after an
    indentation of two spaces, the getter starts with [L] and the method
    with [S]. *)
Definition third_other (line : string) : bool :=
  match line with
  | String _ (String _ (String c _)) => negb (Ascii.eqb c "L") && negb (Ascii.eqb c "S")
  | _ => true
  end.

(** A descriptor whose identifier, type and key are single lines. *)
Definition fine (prop : DartGenerator.property) : bool :=
  single_line (DartGenerator.name prop) && single_line (DartGenerator.type prop)
  && single_line (DartGenerator.jsonKey prop).

(** An entry of the sample for which the nested renderer emits a field: its
    key is valid and its value is neither [null] nor an array. *)
Definition declaring (entry : string * json) : bool :=
  ModelNewGenerator.isValidDartVariableName (fst entry)
  && negb (is_null (snd entry)) && negb (Array_isArray (snd entry)).

(** The identifier [ident] is declared by the arrays of [generateProperties]:
    it is listed after [late String], [late bool], [late int] or
    [late double], or it has its own line [late <Ident>Model <ident>]. *)
Definition declares (c : ModelNewGenerator.categories) (ident : string) : Prop :=
  In ident (ModelNewGenerator.stringProps c)
  \/ In ident (ModelNewGenerator.boolProps c)
  \/ In ident (ModelNewGenerator.intProps c)
  \/ In ident (ModelNewGenerator.doubleProps c)
  \/ In (ModelNewGenerator.capitalize ident +:+ "Model " +:+ ident)
        (ModelNewGenerator.objectProps c).

(** The fields declared for a sample object. *)
Definition declared_in (entries : list (string * json)) (ident : string) : Prop :=
  declares (fold_left ModelNewGenerator.categorize entries ModelNewGenerator.no_props) ident.

(** The identifiers that the serialization map of the nested renderer
    refers to: [id], and the camel-cased form of every valid key. *)
Definition referenced_in (entries : list (string * json)) (ident : string) : Prop :=
  ident = "id"
  \/ exists key value,
       In (key, value) entries
       /\ ModelNewGenerator.isValidDartVariableName key = true
       /\ ModelNewGenerator.toCamelCase key = ident.

(** A value of kind object that is neither [null] nor an array. *)
Definition is_nested (value : json) : bool :=
  match typeof value with
  | TObject => negb (is_null value) && negb (Array_isArray value)
  | _ => false
  end.

(** The line of the serialization map for the key [key]. *)
Definition map_line (key ident : string) (nested : bool) : string :=
  "        " +:+ dq +:+ key +:+ dq +:+ ": " +:+ ident
    +:+ (if nested then ".toJson()" else "").

(** ** Example inputs *)

Definition one : number := {| significand := 1; exponent10 := 0 |}.

(** The text [{"id":1}]. *)
Definition id_text : string := "{" +:+ dq +:+ "id" +:+ dq +:+ ":1}".

(** The parsed sample [{"id": 1, "name": "Ann", "active": true}]. *)
Definition user : list (string * json) :=
  [ ("id", JNumber one); ("name", JString "Ann"); ("active", JBool true) ].

(** The parsed sample [{"id": "x", "addr": {"city": "NYC"}}]. *)
Definition address : list (string * json) :=
  [ ("id", JString "x"); ("addr", JObject [("city", JString "NYC")]) ].

(** The parsed sample [{"name": "Ann"}]. *)
Definition ann : json := JObject [("name", JString "Ann")].

(** The text that the nested renderer returns for the class [User] and the
    sample [ann] when it emits no comment; [constructorName] is the name it
    gives to the deserialization method. *)
Definition ann_model (constructorName : string) : string :=
  "import 'dart:convert';" +:+ nl
  +:+ nl
  +:+ "import '../main.dart';" +:+ nl
  +:+ "import 'base.dart';" +:+ nl
  +:+ "class User extends Model {" +:+ nl
  +:+ "late String name;" +:+ nl
  +:+ nl
  +:+ "  " +:+ constructorName +:+ "([Map<String, dynamic>? json]) {" +:+ nl
  +:+ "    id = stringFromJson(json, " +:+ dq +:+ "id" +:+ dq +:+ ");" +:+ nl
  +:+ "    name = stringFromJson(json, " +:+ dq +:+ "name" +:+ dq +:+ ");" +:+ nl
  +:+ "  }" +:+ nl
  +:+ nl
  +:+ "  @override" +:+ nl
  +:+ "  Map<String, dynamic> toJson() => {" +:+ nl
  +:+ "        " +:+ dq +:+ "id" +:+ dq +:+ ": id," +:+ nl
  +:+ "        " +:+ dq +:+ "name" +:+ dq +:+ ": name," +:+ nl
  +:+ "      };" +:+ nl
  +:+ "}" +:+ nl.

(** The two texts that the string-representation section can hold. *)
Definition props_getter (properties : list DartGenerator.property) : string :=
  "  @override" +:+ nl
  +:+ "  List<Object?> get props => ["
  +:+ join ", " (map DartGenerator.name properties) +:+ "];".

Definition toString_method (className : string)
    (properties : list DartGenerator.property) : string :=
  "  @override" +:+ nl
  +:+ "  String toString() {" +:+ nl
  +:+ "    return '" +:+ className +:+ "("
  +:+ join ", " (map (fun prop => DartGenerator.name prop +:+ ": $" +:+ DartGenerator.name prop)
                     properties)
  +:+ ")';" +:+ nl
  +:+ "  }".

(** The class text up to the copy-with method: the first ten sections of
    [buildDartClass], the empty ones dropped. *)
Definition class_before (this : DartGenerator.t) (className : string)
    (properties : list DartGenerator.property) : string :=
  join nl (List.filter nonempty
    [ DartGenerator.generateImports this;
      "";
      DartGenerator.generateClassDeclaration this className;
      DartGenerator.generateFields this properties;
      "";
      DartGenerator.generateConstructor this className properties;
      "";
      DartGenerator.generateFromJson this className properties;
      DartGenerator.generateToJson this properties;
      DartGenerator.generateCopyWith this className properties ]).

(** The closing brace and what follows it. *)
Definition class_after (jsonComment : string) : string :=
  "}" +:+ (if nonempty jsonComment then nl +:+ jsonComment else "").

(** The nine switches that the standard renderer reads. *)
Definition switches : list string :=
  [ "generateToJson"; "generateCopyWith"; "generateToString"; "generateKeys";
    "useNum"; "useSerializable"; "useEquatable"; "useDefaultValue"; "generateComment" ].

(** An options object that defines every switch. *)
Definition complete (opts : gmap string bool) : Prop :=
  forall key, In key switches -> is_Some (opts !! key).

(** Two instances that read the same value for every switch. *)
Definition agree (this that : DartGenerator.t) : Prop :=
  forall key, In key switches -> DartGenerator.opt this key = DartGenerator.opt that key.

(** The instances of the nested renderer that its interface produces. *)
Inductive model_instance : ModelNewGenerator.t -> Prop :=
| instance_new : model_instance ModelNewGenerator.new
| instance_set className this :
    model_instance this ->
    model_instance (ModelNewGenerator.setCurrentClassName className this).

(** The options object of the user interface with its default values. *)
Definition all_defaults : gmap string bool := DartGenerator.options DartGenerator.new.

(** A sample in which two keys share one camel-cased form. *)
Definition clash : list (string * json) :=
  [ ("id", JString "x"); ("a_b", JNull); ("aB", JString "y") ].

(** The parsed sample [{"tags": []}]. *)
Definition tags : list (string * json) := [ ("tags", JArray []) ].

(** The parsed sample [{"id": 1, "get": "x", "function": "f"}]. *)
Definition getter : list (string * json) :=
  [ ("id", JNumber one); ("get", JString "x"); ("function", JString "f") ].

(** ** Definitions for the further properties *)

(** The text holds an underscore directly followed by a lower-case letter:
    the regular expression of [toCamelCase] has a match in it. *)
Fixpoint has_match (str : string) : bool :=
  match str with
  | EmptyString => false
  | String c rest =>
      (is_underscore c && match rest with
                          | String next _ => is_lower next
                          | EmptyString => false
                          end)
      || has_match rest
  end.

(** From camelCase back to snake_case: an underscore and the lower-case
    letter for every upper-case letter. *)
Fixpoint to_snake (str : string) : string :=
  match str with
  | EmptyString => EmptyString
  | String c rest =>
      if is_upper c then String "_" (String (char_toLowerCase c) (to_snake rest))
      else String c (to_snake rest)
  end.

(** The value that serves as the template of the class: the first item of
    an array, the value itself otherwise; none for the empty array. *)
Definition template (jsonData : json) : option json :=
  match jsonData with
  | JArray [] => None
  | JArray (first :: _) => Some first
  | _ => Some jsonData
  end.

(** The text [[{"id":1},{"x":2}]]. *)
Definition two_items_text : string :=
  "[{" +:+ dq +:+ "id" +:+ dq +:+ ":1},{" +:+ dq +:+ "x" +:+ dq +:+ ":2}]".

Definition two : number := {| significand := 2; exponent10 := 0 |}.

(** A field descriptor without its sample value. *)
Definition erase (prop : DartGenerator.property) : DartGenerator.property :=
  {| DartGenerator.name := DartGenerator.name prop;
     DartGenerator.type := DartGenerator.type prop;
     DartGenerator.jsonKey := DartGenerator.jsonKey prop;
     DartGenerator.value := JNull |}.

(** What the nested renderer looks at in a sample value. *)
Inductive value_kind := KString | KBoolean | KInteger | KDouble | KNested | KNone.

Definition kind (value : json) : value_kind :=
  match value with
  | JString _ => KString
  | JBool _ => KBoolean
  | JNumber n => if Number_isInteger n then KInteger else KDouble
  | JObject _ => KNested
  | JNull | JArray _ => KNone
  end.

(** Two samples with the same keys in the same order and, key by key,
    values of the same kind. *)
Definition same_shape (entries entries' : list (string * json)) : Prop :=
  Forall2 (fun entry entry' => fst entry = fst entry' /\ kind (snd entry) = kind (snd entry'))
          entries entries'.

(** The samples [{"name": "Bob", "tags": null}] and
    [{"name": "Ann", "tags": [1]}]. *)
Definition bob : list (string * json) := [ ("name", JString "Bob"); ("tags", JNull) ].
Definition ann_tags : list (string * json) :=
  [ ("name", JString "Ann"); ("tags", JArray [JNumber one]) ].

(** The samples [{"id": 1, "name": "Ann"}] and [{"id": 7, "name": "Bob"}]. *)
Definition ann_one : list (string * json) := [ ("id", JNumber one); ("name", JString "Ann") ].
Definition bob_seven : list (string * json) :=
  [ ("id", JNumber {| significand := 7; exponent10 := 0 |}); ("name", JString "Bob") ].

(** The number of fields in the five arrays of [generateProperties]. *)
Definition declared_count (c : ModelNewGenerator.categories) : nat :=
  List.length (ModelNewGenerator.stringProps c) + List.length (ModelNewGenerator.boolProps c)
  + List.length (ModelNewGenerator.intProps c) + List.length (ModelNewGenerator.doubleProps c)
  + List.length (ModelNewGenerator.objectProps c).

(** The serialization map that the nested renderer writes when no key of
    the sample is valid. *)
Definition id_only_map : string :=
  "  @override" +:+ nl
  +:+ "  Map<String, dynamic> toJson() => {" +:+ nl
  +:+ "        " +:+ dq +:+ "id" +:+ dq +:+ ": id," +:+ nl
  +:+ "," +:+ nl
  +:+ "      };".

(** Remove the [// ] that starts a line of the trailing comment. *)
Definition uncomment (line : string) : string :=
  match strip_prefix "// " line with
  | Some rest => rest
  | None => line
  end.

(** A history of two items and a new item for the class of the second. *)
Definition two_saved : list JsonToDartConverter.historyItem :=
  [ {| JsonToDartConverter.className := "User";
       JsonToDartConverter.jsonString := "{}";
       JsonToDartConverter.timestamp := 1 |};
    {| JsonToDartConverter.className := "Order";
       JsonToDartConverter.jsonString := "[]";
       JsonToDartConverter.timestamp := 2 |} ].

Definition order_again : JsonToDartConverter.historyItem :=
  {| JsonToDartConverter.className := "Order";
     JsonToDartConverter.jsonString := "{}";
     JsonToDartConverter.timestamp := 3 |}.

(** A fresh page on which the class name and the JSON text are typed. *)
Definition page (name json : string) (checked : gmap string bool)
    (items : list JsonToDartConverter.historyItem) : JsonToDartConverter.t :=
  {| JsonToDartConverter.dartGenerator := DartGenerator.new;
     JsonToDartConverter.modelNewGenerator := ModelNewGenerator.new;
     JsonToDartConverter.history := items;
     JsonToDartConverter.classNameInput := name;
     JsonToDartConverter.jsonInput := json;
     JsonToDartConverter.checkboxes := checked;
     JsonToDartConverter.dartOutput := EmptyString;
     JsonToDartConverter.notification := None |}.

(** The same page after other conversions: the generators carry another
    class name and another switch, the history is not empty. *)
Definition used_page (name json : string) (checked : gmap string bool)
    : JsonToDartConverter.t :=
  {| JsonToDartConverter.dartGenerator :=
       DartGenerator.setOptions {[ "useNum" := true ]} DartGenerator.new;
     JsonToDartConverter.modelNewGenerator :=
       ModelNewGenerator.setCurrentClassName "Other" ModelNewGenerator.new;
     JsonToDartConverter.history := two_saved;
     JsonToDartConverter.classNameInput := name;
     JsonToDartConverter.jsonInput := json;
     JsonToDartConverter.checkboxes := checked;
     JsonToDartConverter.dartOutput := "class Other {}";
     JsonToDartConverter.notification := None |}.

(** The call of a generator made by [convert]: the nested renderer when
    the check box modelNew is checked, the standard renderer otherwise, each
    after the update of its instance. *)
Definition generated (rt : Runtime) (this : JsonToDartConverter.t) (name : string)
    (parsed : json) : result string :=
  if ModelNewGenerator.setting (JsonToDartConverter.checkboxes this) "modelNew"
  then ModelNewGenerator.generate rt
         (ModelNewGenerator.setCurrentClassName name
            (JsonToDartConverter.modelNewGenerator this))
         name parsed (JsonToDartConverter.checkboxes this)
  else DartGenerator.generateDartClass rt
         (DartGenerator.setOptions (JsonToDartConverter.checkboxes this)
            (JsonToDartConverter.dartGenerator this))
         name (JSON_stringify rt parsed).

(** Every character of the text is an ASCII character; on such a text
    [trim] strips what [String.prototype.trim] strips. *)
Definition ascii_text (s : string) : bool := all_chars (fun c => (code c <? 128)%nat) s.

(** The value that the generator called by [convert] renders: the parsed
    text for the nested renderer; for the standard renderer, which is given
    the pretty-printed text, what [JSON.parse] reads in it. *)
Definition rendered (rt : Runtime) (modelNew : bool) (parsed : json) : result json :=
  if modelNew then Ok parsed else JSON_parse rt (JSON_stringify rt parsed).

(** The text of an error raised by a generator: the standard renderer
    wraps every message. *)
Definition failure (modelNew : bool) (reason : string) : string :=
  "Error: " +:+ (if modelNew then "" else "Invalid JSON: ") +:+ reason.

(** The notification that [convert] ends with, told from the two fields
    and the check box modelNew alone: the first cause of failure in the
    order of the checks, or the success. *)
Definition verdict (rt : Runtime) (this : JsonToDartConverter.t)
    : string * JsonToDartConverter.notificationType :=
  let name := trim (JsonToDartConverter.classNameInput this) in
  let json := trim (JsonToDartConverter.jsonInput this) in
  let modelNew := ModelNewGenerator.setting (JsonToDartConverter.checkboxes this) "modelNew" in
  if String.eqb name "" then ("Please enter a class name", JsonToDartConverter.error)
  else if String.eqb json "" then ("Please enter JSON data", JsonToDartConverter.error)
  else
    match JSON_parse rt json with
    | Throw e => ("Error: " +:+ message rt e, JsonToDartConverter.error)
    | Ok parsed =>
        match rendered rt modelNew parsed with
        | Throw e => (failure modelNew (message rt e), JsonToDartConverter.error)
        | Ok value =>
            match template value with
            | None =>
                (failure modelNew "Cannot generate class from empty array",
                 JsonToDartConverter.error)
            | Some JNull => (failure modelNew (nullish_message rt), JsonToDartConverter.error)
            | Some _ => ("Dart class generated successfully!", JsonToDartConverter.success)
            end
        end
    end.

(** The JSON field after [convert]: the pretty-printed text once both
    fields are filled in and the text parses, the typed text otherwise. *)
Definition pretty (rt : Runtime) (this : JsonToDartConverter.t) : string :=
  let name := trim (JsonToDartConverter.classNameInput this) in
  let json := trim (JsonToDartConverter.jsonInput this) in
  if nonempty name && nonempty json
  then match JSON_parse rt json with
       | Ok parsed => JSON_stringify rt parsed
       | Throw _ => JsonToDartConverter.jsonInput this
       end
  else JsonToDartConverter.jsonInput this.

(** The runtime reads back the text it prints for [value]. *)
Definition reads_back (rt : Runtime) (value : json) : Prop :=
  nonempty (trim (JSON_stringify rt value)) = true
  /\ JSON_parse rt (trim (JSON_stringify rt value)) = Ok value.

(** * Properties *)

(** ** The scenarios of the specification, run on the model *)

Example user_fields :
  DartGenerator.generateFields DartGenerator.new
    (DartGenerator.extractEntries DartGenerator.new user)
  = "  @JsonKey(name: 'id')
  final int? id;

  @JsonKey(name: 'name')
  final String? name;

  @JsonKey(name: 'active')
  final bool? active;".
Proof. vm_compute. reflexivity. Qed.

Example user_constructor :
  DartGenerator.generateConstructor DartGenerator.new "User"
    (DartGenerator.extractEntries DartGenerator.new user)
  = "  const User({
    this.id,
    this.name,
    this.active
  });".
Proof. vm_compute. reflexivity. Qed.

Example user_default_values :
  let this :=
    DartGenerator.setOptions {[ "useDefaultValue" := true; "useSerializable" := false ]}
      DartGenerator.new in
  DartGenerator.generateFromJson this "User" (DartGenerator.extractEntries this user)
  = "  factory User.fromJson(Map<String, dynamic> json) {
    return User(
      id: json['id'] as int? ?? 0,
      name: json['name'] as String? ?? '',
      active: json['active'] as bool? ?? false
    );
  }".
Proof. vm_compute. reflexivity. Qed.

Example address_fields :
  ModelNewGenerator.generateProperties (JObject address)
  = Ok ("late String id;" +:+ nl +:+ "  late AddrModel addr;").
Proof. vm_compute. reflexivity. Qed.

Example address_fromJson :
  ModelNewGenerator.generateFromJson
    (ModelNewGenerator.setCurrentClassName "User" ModelNewGenerator.new) (JObject address) false
  = Ok ("  User.fromJson([Map<String, dynamic>? json]) {" +:+ nl
        +:+ "    id = stringFromJson(json, " +:+ dq +:+ "id" +:+ dq +:+ ");" +:+ nl
        +:+ "    id = stringFromJson(json, " +:+ dq +:+ "id" +:+ dq +:+ ");" +:+ nl
        +:+ "    addr = AddrModel.fromJson(json?[" +:+ dq +:+ "addr" +:+ dq +:+ "] ?? {});" +:+ nl
        +:+ "  }").
Proof. vm_compute. reflexivity. Qed.

Example tags_type :
  map DartGenerator.type (DartGenerator.extractEntries DartGenerator.new tags)
  = ["List<dynamic>"].
Proof. reflexivity. Qed.

Example toCamelCase_samples :
  map DartGenerator.toCamelCase ["user_name"; "__a"; "a_1"; "_x_y"; "a_"; "first_Name_x"]
  = ["userName"; "_A"; "a_1"; "XY"; "a_"; "first_NameX"].
Proof. reflexivity. Qed.

Example parse_print_sample :
  JSON_parse ReferenceRuntime.runtime id_text = Ok (JObject [("id", JNumber one)])
  /\ JSON_stringify ReferenceRuntime.runtime (JObject [("id", JNumber one)])
     = "{" +:+ nl +:+ "  " +:+ dq +:+ "id" +:+ dq +:+ ": 1" +:+ nl +:+ "}".
Proof. split; vm_compute; reflexivity. Qed.

(** ** Strings *)

Lemma append_nil (t : string) : EmptyString +:+ t = t.
Proof. reflexivity. Qed.

Lemma append_cons (c : ascii) (s t : string) : String c s +:+ t = String c (s +:+ t).
Proof. reflexivity. Qed.

Lemma append_nil_r (s : string) : s +:+ EmptyString = s.
Proof. induction s as [|c s IH]; [reflexivity|]. now rewrite append_cons, IH. Qed.

Lemma append_assoc (s t u : string) : (s +:+ t) +:+ u = s +:+ t +:+ u.
Proof. induction s as [|c s IH]; [reflexivity|]. now rewrite !append_cons, IH. Qed.

Lemma length_append (s t : string) :
  String.length (s +:+ t) = String.length s + String.length t.
Proof. induction s as [|c s IH]; [reflexivity|]. rewrite append_cons. simpl. now rewrite IH. Qed.

Lemma split_lines_not_nil s : split_lines s <> [].
Proof.
  destruct s as [|c rest]; simpl; [discriminate|].
  destruct (Ascii.eqb c "010"); [discriminate|].
  destruct (split_lines rest); discriminate.
Qed.

(** Induction on strings that also gives the hypothesis for the tail of the
    tail, as the scan of [replace_underscore_lower] needs. *)
Lemma string_ind2 (P : string -> Prop) :
  P EmptyString ->
  (forall c, P (String c EmptyString)) ->
  (forall c d s, P s -> P (String d s) -> P (String c (String d s))) ->
  forall s, P s.
Proof.
  intros H0 H1 H2 s.
  assert (P s /\ forall c, P (String c s)) as [H _]; [|exact H].
  induction s as [|d s [IHs IHc]]; split; auto.
Qed.

(** ** Characters *)

Lemma lower_is_not_underscore c : is_lower c = true -> is_underscore c = false.
Proof. destruct c as [[] [] [] [] [] [] [] []]; vm_compute; congruence. Qed.

Lemma upper_of_lower c : is_lower c = true -> is_upper (char_toUpperCase c) = true.
Proof. destruct c as [[] [] [] [] [] [] [] []]; vm_compute; congruence. Qed.

(** ** snake_case to camelCase *)

Lemma toCamelCase_same str :
  ModelNewGenerator.toCamelCase str = DartGenerator.toCamelCase str.
Proof. reflexivity. Qed.

Lemma isValidDartVariableName_same name :
  ModelNewGenerator.isValidDartVariableName name
  = DartGenerator.isValidDartVariableName name.
Proof. reflexivity. Qed.

Lemma toCamelCase_match c letter rest :
  is_underscore c = true -> is_lower letter = true ->
  DartGenerator.toCamelCase (String c (String letter rest))
  = String (char_toUpperCase letter) (DartGenerator.toCamelCase rest).
Proof.
  intros Hc Hl. unfold DartGenerator.toCamelCase. simpl. now rewrite Hc, Hl.
Qed.

Lemma toCamelCase_skip c rest :
  is_underscore c
  && match rest with String next _ => is_lower next | EmptyString => false end = false ->
  DartGenerator.toCamelCase (String c rest)
  = String c (DartGenerator.toCamelCase rest).
Proof.
  unfold DartGenerator.toCamelCase. simpl.
  destruct (is_underscore c); [|reflexivity].
  destruct rest as [|next rest]; [reflexivity|]. simpl.
  now intros ->.
Qed.

(** The scan of the regular expression agrees with the rule on each
    character, provided the character before the scanned text is not an
    underscore in front of a lower-case letter. *)
Lemma derive_scan str :
  forall prev,
    match prev, str with
    | Some p, String c _ => is_underscore p && is_lower c = false
    | _, _ => True
    end ->
    derive is_lower prev str = DartGenerator.toCamelCase str.
Proof.
  induction str as [|c|c d s IHs IHd] using string_ind2; intros prev Hprev.
  - reflexivity.
  - unfold DartGenerator.toCamelCase. simpl. rewrite andb_false_r.
    destruct prev as [p|]; [rewrite Hprev|]; now destruct (is_underscore c).
  - assert (Hraised : match prev with
                      | Some p => is_underscore p && is_lower c
                      | None => false
                      end = false) by (destruct prev; auto).
    change (derive is_lower prev (String c (String d s)))
      with (if is_underscore c && is_lower d then derive is_lower (Some c) (String d s)
            else String (if match prev with
                               | Some p => is_underscore p && is_lower c
                               | None => false
                               end then char_toUpperCase c else c)
                        (derive is_lower (Some c) (String d s))).
    rewrite Hraised.
    destruct (is_underscore c) eqn:Hc, (is_lower d) eqn:Hd; simpl andb; cbv iota.
    + rewrite toCamelCase_match by assumption.
      change (derive is_lower (Some c) (String d s))
        with (if is_underscore d
                 && match s with String next _ => is_lower next | EmptyString => false end
              then derive is_lower (Some d) s
              else String (if is_underscore c && is_lower d then char_toUpperCase d else d)
                          (derive is_lower (Some d) s)).
      rewrite (lower_is_not_underscore d Hd), Hc, Hd. simpl.
      f_equal. apply IHs. destruct s; [exact I|].
      now rewrite (lower_is_not_underscore d Hd).
    + rewrite toCamelCase_skip by (simpl; now rewrite Hc, Hd).
      f_equal. apply IHd. rewrite ?Hc, ?Hd. reflexivity.
    + rewrite toCamelCase_skip by (simpl; now rewrite Hc).
      f_equal. apply IHd. rewrite ?Hc, ?Hd. reflexivity.
    + rewrite toCamelCase_skip by (simpl; now rewrite Hc).
      f_equal. apply IHd. rewrite ?Hc, ?Hd. reflexivity.
Qed.

(** Either the key is returned as it is, or the result holds an upper-case
    letter and the key held an underscore. *)
Lemma toCamelCase_changes str :
  DartGenerator.toCamelCase str = str
  \/ (any_char is_upper (DartGenerator.toCamelCase str) = true
      /\ any_char is_underscore str = true).
Proof.
  induction str as [|c|c d s IHs IHd] using string_ind2.
  - now left.
  - left. unfold DartGenerator.toCamelCase. simpl. now destruct (is_underscore c).
  - destruct (is_underscore c) eqn:Hc, (is_lower d) eqn:Hd.
    + right. rewrite toCamelCase_match by assumption. simpl.
      now rewrite (upper_of_lower d Hd), Hc.
    + rewrite toCamelCase_skip by (simpl; now rewrite Hc, Hd).
      destruct IHd as [->|[Hu _]]; [now left|right].
      simpl in *. rewrite Hu, Hc. split; [apply orb_true_r|reflexivity].
    + rewrite toCamelCase_skip by (simpl; now rewrite Hc).
      destruct IHd as [->|[Hu Hs]]; [now left|right].
      split; [simpl; rewrite Hu; apply orb_true_r|].
      change (any_char is_underscore (String c (String d s)))
        with (is_underscore c || any_char is_underscore (String d s)).
      rewrite Hs. apply orb_true_r.
    + rewrite toCamelCase_skip by (simpl; now rewrite Hc).
      destruct IHd as [->|[Hu Hs]]; [now left|right].
      split; [simpl; rewrite Hu; apply orb_true_r|].
      change (any_char is_underscore (String c (String d s)))
        with (is_underscore c || any_char is_underscore (String d s)).
      rewrite Hs. apply orb_true_r.
Qed.

(** C4, as stated, fails: the key [user_Name] passes the legality check of
    both generators, the specification's rule removes its underscore and
    gives [userName], and the generators return the key unchanged. *)
Lemma toCamelCase_keeps_underscore_before_upper :
  DartGenerator.isValidDartVariableName "user_Name" = true
  /\ ModelNewGenerator.isValidDartVariableName "user_Name" = true
  /\ camel_of_spec "user_Name" = "userName"
  /\ DartGenerator.toCamelCase "user_Name" = "user_Name"
  /\ ModelNewGenerator.toCamelCase "user_Name" = "user_Name"
  /\ DartGenerator.toCamelCase "user_Name" <> camel_of_spec "user_Name".
Proof. repeat split; try reflexivity. vm_compute. discriminate. Qed.

(** C4, amended: for every key, the identifier derived by either generator
    is the key in which each underscore immediately followed by a lower-case
    ASCII letter is removed and that letter upper-cased; every other
    character, an underscore in front of an upper-case letter included, is
    left as it is. *)
Theorem toCamelCase_lower_rule (key : string) :
  DartGenerator.toCamelCase key = derive is_lower None key
  /\ ModelNewGenerator.toCamelCase key = derive is_lower None key.
Proof.
  assert (H : derive is_lower None key = DartGenerator.toCamelCase key)
    by (apply derive_scan; exact I).
  split; symmetry; exact H.
Qed.

(** ** Legal keys *)

Lemma keywords_same : ModelNewGenerator.keywords = DartGenerator.keywords.
Proof. reflexivity. Qed.

(** A reserved word holds neither an upper-case letter nor an underscore. *)
Lemma keyword_plain name :
  DartGenerator.isDartKeyword name = true ->
  any_char is_upper name = false /\ any_char is_underscore name = false.
Proof.
  unfold DartGenerator.isDartKeyword. intros H.
  apply List.existsb_exists in H as (kw & Hin & Heq).
  apply String.eqb_eq in Heq. subst kw.
  assert (Hall : forallb (fun kw => negb (any_char is_upper kw)
                                    && negb (any_char is_underscore kw))
                         DartGenerator.keywords = true) by (vm_compute; reflexivity).
  rewrite List.forallb_forall in Hall. specialize (Hall name Hin).
  apply andb_true_iff in Hall as [H1 H2].
  now apply negb_true_iff in H1, H2.
Qed.

(** The check of the sources looks the raw key up in the reserved words;
    looking its camel-cased form up gives the same answer. *)
Lemma isDartKeyword_toCamelCase key :
  DartGenerator.isDartKeyword (DartGenerator.toCamelCase key)
  = DartGenerator.isDartKeyword key.
Proof.
  destruct (toCamelCase_changes key) as [->|[Hu Hs]]; [reflexivity|].
  destruct (DartGenerator.isDartKeyword (DartGenerator.toCamelCase key)) eqn:H1.
  { apply keyword_plain in H1 as [H1 _]. congruence. }
  destruct (DartGenerator.isDartKeyword key) eqn:H2; [|reflexivity].
  apply keyword_plain in H2 as [_ H2]. congruence.
Qed.

Lemma first_class_start c : first_class c = ident_start c.
Proof. destruct c as [[] [] [] [] [] [] [] []]; reflexivity. Qed.

Lemma next_class_part c : next_class c = ident_part c.
Proof. destruct c as [[] [] [] [] [] [] [] []]; reflexivity. Qed.

Lemma matches_pattern_regex key : matches_pattern key = identifier_regex_test key.
Proof.
  destruct key as [|c rest]; [reflexivity|].
  unfold matches_pattern. cbn [list_ascii_of_string identifier_regex_test].
  rewrite first_class_start. f_equal.
  induction rest as [|d rest IH]; [reflexivity|].
  cbn [list_ascii_of_string forallb all_chars]. now rewrite next_class_part, IH.
Qed.

(** The rule of the specification on each character either returns the
    key as it is, or returns a text with an upper-case letter for a key
    with an underscore. *)
Lemma derive_letter_changes str : forall prev,
  derive is_letter prev str = str
  \/ (any_char is_upper (derive is_letter prev str) = true
      /\ (any_char is_underscore str = true
          \/ match prev with Some p => is_underscore p = true | None => False end)).
Proof.
  assert (Hup : forall c, is_letter c = true -> is_upper (char_toUpperCase c) = true).
  { intros c. destruct c as [[] [] [] [] [] [] [] []]; vm_compute; congruence. }
  assert (Hnu : forall c, is_letter c = true -> is_underscore c = false).
  { intros c. destruct c as [[] [] [] [] [] [] [] []]; vm_compute; congruence. }
  induction str as [|c rest IH]; intros prev; [now left|].
  cbn [derive].
  destruct (is_underscore c) eqn:Hc; cbn [andb].
  - destruct rest as [|next rest']; cbn iota.
    + destruct prev as [p|]; [|now left].
      destruct (is_underscore p && is_letter c) eqn:Hraised; [|now left].
      apply andb_true_iff in Hraised as [_ Hl]. rewrite (Hnu c Hl) in Hc. discriminate.
    + destruct (is_letter next) eqn:Hnext.
      * right. split; [|left; cbn [any_char]; now rewrite Hc].
        cbn [derive]. rewrite (Hnu next Hnext), Hc, Hnext. cbn [andb any_char].
        now rewrite (Hup next Hnext).
      * assert (Hraised : match prev with
                          | Some p => is_underscore p && is_letter c
                          | None => false
                          end = false).
        { destruct prev as [p|]; [|reflexivity].
          destruct (is_letter c) eqn:Hl; [|apply andb_false_r].
          rewrite (Hnu c Hl) in Hc. discriminate. }
        rewrite Hraised.
        destruct (IH (Some c)) as [->|[Hu _]]; [now left|right].
        split; [cbn [any_char]; rewrite Hu; apply orb_true_r|].
        left. cbn [any_char]. now rewrite Hc.
  - destruct prev as [p|].
    + destruct (is_underscore p && is_letter c) eqn:Hraised.
      * apply andb_true_iff in Hraised as [Hp Hl]. right.
        split; [cbn [any_char]; now rewrite (Hup c Hl)|now right].
      * destruct (IH (Some c)) as [->|[Hu [Hs|Hs]]]; [now left| |congruence].
        right. split; [cbn [any_char]; rewrite Hu; apply orb_true_r|].
        left. cbn [any_char]. rewrite Hs. apply orb_true_r.
    + destruct (IH (Some c)) as [->|[Hu [Hs|Hs]]]; [now left| |congruence].
      right. split; [cbn [any_char]; rewrite Hu; apply orb_true_r|].
      left. cbn [any_char]. rewrite Hs. apply orb_true_r.
Qed.

(** A listed word holds neither an upper-case letter nor an underscore. *)
Lemma listed_word_plain word :
  existsb (String.eqb word) listed_words = true ->
  any_char is_upper word = false /\ any_char is_underscore word = false.
Proof.
  intros H. apply List.existsb_exists in H as (kw & Hin & Heq).
  apply String.eqb_eq in Heq. subst kw.
  assert (Hall : forallb (fun kw => negb (any_char is_upper kw)
                                    && negb (any_char is_underscore kw))
                         listed_words = true) by (vm_compute; reflexivity).
  rewrite List.forallb_forall in Hall. specialize (Hall word Hin).
  apply andb_true_iff in Hall as [H1 H2].
  now apply negb_true_iff in H1, H2.
Qed.

(** Looking the camel-cased form of a key up in the listed words, or the
    key itself, gives the same answer. *)
Lemma collides_listed key :
  collides listed_words key = existsb (String.eqb key) listed_words.
Proof.
  unfold collides, camel_of_spec.
  destruct (derive_letter_changes key None) as [->|[Hu [Hs|[]]]]; [reflexivity|].
  destruct (existsb (String.eqb (derive is_letter None key)) listed_words) eqn:H1.
  { apply listed_word_plain in H1 as [H1 _]. congruence. }
  destruct (existsb (String.eqb key) listed_words) eqn:H2; [|reflexivity].
  apply listed_word_plain in H2 as [_ H2]. congruence.
Qed.

(** The listed words are the words of the generators' own list. *)
Lemma listed_words_keywords word :
  existsb (String.eqb word) listed_words = DartGenerator.isDartKeyword word.
Proof.
  unfold DartGenerator.isDartKeyword.
  assert (H12 : forallb (fun kw => existsb (String.eqb kw) DartGenerator.keywords)
                        listed_words = true) by (vm_compute; reflexivity).
  assert (H21 : forallb (fun kw => existsb (String.eqb kw) listed_words)
                        DartGenerator.keywords = true) by (vm_compute; reflexivity).
  rewrite List.forallb_forall in H12, H21.
  destruct (existsb (String.eqb word) listed_words) eqn:H1;
    destruct (existsb (String.eqb word) DartGenerator.keywords) eqn:H2; try reflexivity.
  - apply List.existsb_exists in H1 as (kw & Hin & Heq).
    apply String.eqb_eq in Heq. subst kw. rewrite (H12 word Hin) in H2. discriminate.
  - apply List.existsb_exists in H2 as (kw & Hin & Heq).
    apply String.eqb_eq in Heq. subst kw. rewrite (H21 word Hin) in H1. discriminate.
Qed.

Lemma accepted_key_valid key :
  accepted_key key = DartGenerator.isValidDartVariableName key.
Proof.
  unfold accepted_key, DartGenerator.isValidDartVariableName.
  now rewrite matches_pattern_regex, collides_listed, listed_words_keywords.
Qed.

(** A key that collides with a reserved word collides with a listed word. *)
Lemma accepted_key_legal key : accepted_key key = true -> legal_key key = true.
Proof.
  unfold accepted_key, legal_key, collides, listed_words.
  rewrite List.existsb_app, negb_orb. intros H.
  apply andb_true_iff in H as [Hp H]. apply andb_true_iff in H as [Hr _].
  now rewrite Hp, Hr.
Qed.

Lemma extractEntries_accepted this entries :
  map (fun prop => (DartGenerator.jsonKey prop, DartGenerator.value prop))
      (DartGenerator.extractEntries this entries)
  = List.filter (fun entry => accepted_key (fst entry)) entries.
Proof.
  induction entries as [|[key value] rest IH]; [reflexivity|].
  cbn [DartGenerator.extractEntries List.filter fst]. rewrite accepted_key_valid.
  destruct (DartGenerator.isValidDartVariableName key); cbn [negb map]; now rewrite IH.
Qed.

Lemma extractEntries_keys this entries :
  map DartGenerator.jsonKey (DartGenerator.extractEntries this entries)
  = List.filter accepted_key (map fst entries).
Proof.
  induction entries as [|[key value] rest IH]; [reflexivity|].
  cbn [DartGenerator.extractEntries List.filter map fst]. rewrite accepted_key_valid.
  destruct (DartGenerator.isValidDartVariableName key); cbn [negb map]; now rewrite IH.
Qed.



(** ** The constructor of the standard renderer *)

Lemma constructorParams_required this properties line :
  In line (DartGenerator.constructorParams this properties) ->
  marked_required line = DartGenerator.opt this "useDefaultValue".
Proof.
  unfold DartGenerator.constructorParams. rewrite List.in_map_iff.
  intros (prop & <- & _).
  now destruct (DartGenerator.opt this "useDefaultValue").
Qed.

Lemma constructorParams_fields this properties :
  map param_field (DartGenerator.constructorParams this properties)
  = map (fun prop => Some (DartGenerator.name prop)) properties.
Proof.
  unfold DartGenerator.constructorParams. rewrite List.map_map.
  apply List.map_ext. intros prop.
  now destruct (DartGenerator.opt this "useDefaultValue").
Qed.

(** C1, as stated, fails: under the default options the switch
    useDefaultValue is off, and the one parameter of the constructor
    generated for the sample [{"id": 1}] is not marked [required]. *)
Lemma constructor_not_required_when_switch_off :
  let this := DartGenerator.new in
  let params :=
    DartGenerator.constructorParams this
      (DartGenerator.extractEntries this
         [("id", JNumber one)]) in
  DartGenerator.opt this "useDefaultValue" = false
  /\ params = ["    this.id"]
  /\ ~ (forall line, In line params ->
          (marked_required line = true <-> DartGenerator.opt this "useDefaultValue" = false)).
Proof.
  repeat split; try reflexivity.
  intros H. specialize (H "    this.id" (or_introl eq_refl)).
  destruct H as [_ H]. specialize (H eq_refl). discriminate H.
Qed.

(** C1, amended: for every sample object, option set and class name, the
    constructor is the header [const <Class>({], one parameter line per
    rendered field in the order of the fields, and the closing line; a
    parameter is marked [required] if and only if the switch useDefaultValue
    is on.  Under the default options, where the switch is off, no parameter
    is marked. *)
Theorem constructor_required_iff_default_value (this : DartGenerator.t)
    (className : string) (entries : list (string * json)) :
  let properties := DartGenerator.extractEntries this entries in
  let params := DartGenerator.constructorParams this properties in
  DartGenerator.extractProperties this (JObject entries) = Ok properties
  /\ DartGenerator.generateConstructor this className properties
     = "  const " +:+ className +:+ "({" +:+ nl +:+ join ("," +:+ nl) params +:+ nl +:+ "  });"
  /\ map param_field params = map (fun prop => Some (DartGenerator.name prop)) properties
  /\ (forall line, In line params ->
        (marked_required line = true <-> DartGenerator.opt this "useDefaultValue" = true))
  /\ (forall line,
        In line (DartGenerator.constructorParams DartGenerator.new
                   (DartGenerator.extractEntries DartGenerator.new entries)) ->
        marked_required line = false).
Proof.
  intros properties params. split; [reflexivity|]. split; [|split; [|split]].
  - unfold DartGenerator.generateConstructor, join. simpl.
    fold params. now rewrite !append_assoc.
  - apply constructorParams_fields.
  - intros line Hin. now rewrite (constructorParams_required _ _ _ Hin).
  - intros line Hin. now rewrite (constructorParams_required _ _ _ Hin).
Qed.

(** ** The fields of the nested renderer *)

Lemma append_same_length_suffix (a b x y : string) :
  a +:+ x = b +:+ y -> String.length x = String.length y -> x = y.
Proof.
  revert b. induction a as [|c a IH]; intros [|d b] H Hlen.
  - exact H.
  - rewrite append_nil in H. subst x. rewrite append_cons in Hlen. simpl in Hlen.
    rewrite length_append in Hlen. lia.
  - rewrite append_nil in H. subst y. rewrite append_cons in Hlen. simpl in Hlen.
    rewrite length_append in Hlen. lia.
  - rewrite !append_cons in H. injection H as _ H. now apply (IH b).
Qed.

Lemma length_capitalize str :
  String.length (ModelNewGenerator.capitalize str) = String.length str.
Proof. now destruct str. Qed.

Lemma model_name_inj (x y : string) :
  ModelNewGenerator.capitalize x +:+ "Model " +:+ x
  = ModelNewGenerator.capitalize y +:+ "Model " +:+ y ->
  x = y.
Proof.
  intros H.
  assert (Hlen : String.length x = String.length y).
  { apply (f_equal String.length) in H.
    rewrite !length_append, !length_capitalize in H. simpl in H. lia. }
  rewrite <- !append_assoc in H.
  exact (append_same_length_suffix _ _ _ _ H Hlen).
Qed.

Lemma declares_categorize acc entry ident :
  declares (ModelNewGenerator.categorize acc entry) ident
  <-> declares acc ident
      \/ (declaring entry = true /\ ModelNewGenerator.toCamelCase (fst entry) = ident).
Proof.
  destruct entry as [key value].
  unfold ModelNewGenerator.categorize, declaring, declares. simpl fst. simpl snd.
  destruct (ModelNewGenerator.isValidDartVariableName key); simpl negb; cbv iota.
  2:{ simpl. intuition discriminate. }
  destruct value as [|b|n|str|items|fields]; simpl;
    try destruct (Number_isInteger n); simpl;
    rewrite ?List.in_app_iff; simpl;
    try (intuition (try discriminate; subst; auto); fail).
  split.
  - intros [H|[H|[H|[H|[H|[H|[]]]]]]]; auto 10.
    right. split; [reflexivity|]. now apply model_name_inj.
  - intros [[H|[H|[H|[H|H]]]]|[_ <-]]; auto 10.
Qed.

Lemma declares_fold entries : forall acc ident,
  declares (fold_left ModelNewGenerator.categorize entries acc) ident
  <-> declares acc ident
      \/ exists entry, In entry entries /\ declaring entry = true
                       /\ ModelNewGenerator.toCamelCase (fst entry) = ident.
Proof.
  induction entries as [|entry rest IH]; intros acc ident; simpl.
  - split; [auto|]. intros [H|(e & [] & _)]. exact H.
  - rewrite IH, declares_categorize. split.
    + intros [[H|[H1 H2]]|(e & H1 & H2 & H3)]; eauto 8.
    + intros [H|(e & [->|H1] & H2 & H3)]; eauto 8.
Qed.

Lemma declares_nothing ident : ~ declares ModelNewGenerator.no_props ident.
Proof. unfold declares. simpl. tauto. Qed.

(** The fields declared for a sample are the camel-cased forms of its valid
    keys whose value is neither [null] nor an array. *)
Lemma declared_in_iff entries ident :
  declared_in entries ident
  <-> exists entry, In entry entries /\ declaring entry = true
                   /\ ModelNewGenerator.toCamelCase (fst entry) = ident.
Proof.
  unfold declared_in. rewrite declares_fold. split; [|auto].
  intros [H|H]; [|exact H]. now apply declares_nothing in H.
Qed.

Lemma toCamelCase_id key : ModelNewGenerator.toCamelCase key = "id" -> key = "id".
Proof.
  intros H. destruct (toCamelCase_changes key) as [Hsame|[Hu _]].
  - now rewrite <- Hsame.
  - change (DartGenerator.toCamelCase key) with (ModelNewGenerator.toCamelCase key) in Hu.
    rewrite H in Hu. discriminate Hu.
Qed.

Lemma fold_left_append {A} (g : A -> string) (l : list A) : forall init,
  fold_left (fun text x => text +:+ g x) l init = init +:+ join "" (map g l).
Proof.
  unfold join. induction l as [|x l IH]; intros init; simpl.
  - now rewrite append_nil_r.
  - rewrite IH. destruct l as [|y l]; simpl.
    + now rewrite append_nil_r.
    + now rewrite append_assoc.
Qed.



(** ** Serialization of the standard renderer *)

(** With both switches on, the delegation names the helper after
    [this.className], which is undefined, whatever class is rendered. *)
Lemma generateToJson_delegation this properties :
  DartGenerator.opt this "generateToJson" = true ->
  DartGenerator.opt this "useSerializable" = true ->
  DartGenerator.generateToJson this properties
  = nl +:+ "  Map<String, dynamic> toJson() => _$undefinedToJson(this);".
Proof.
  intros H1 H2. unfold DartGenerator.generateToJson. now rewrite H1, H2.
Qed.

(** C3, the code at the failing input: under the default options, where
    generateToJson and useSerializable are on, the class rendered for
    [User] and [{"id":1}] delegates deserialization to [_$UserFromJson] and
    serialization to [_$undefinedToJson]. *)
Theorem toJson_delegates_to_undefined :
  DartGenerator.generateDartClass ReferenceRuntime.runtime DartGenerator.new "User" id_text
  = Ok "import 'package:json_annotation/json_annotation.dart';
import 'package:equatable/equatable.dart';

part 'model.g.dart';
@JsonSerializable()
class User extends Equatable {
  @JsonKey(name: 'id')
  final int? id;
  const User({
    this.id
  });
  factory User.fromJson(Map<String, dynamic> json) => _$UserFromJson(json);

  Map<String, dynamic> toJson() => _$undefinedToJson(this);

  User copyWith({
    int? id
  }) {
    return User(
      id: id ?? this.id
    );
  }

  @override
  List<Object?> get props => [id];
}".
Proof. vm_compute. reflexivity. Qed.

(** ** Empty arrays *)

Lemma generateDartClass_empty_array rt this className jsonString :
  JSON_parse rt jsonString = Ok (JArray []) ->
  DartGenerator.generateDartClass rt this className jsonString
  = Throw (Error "Invalid JSON: Cannot generate class from empty array").
Proof.
  intros H. unfold DartGenerator.generateDartClass, DartGenerator.generateDartClass_try.
  now rewrite H.
Qed.

(** A text that [JSON.parse] rejects is reported with the same prefix. *)
Lemma generateDartClass_parse_error rt this className jsonString error :
  JSON_parse rt jsonString = Throw error ->
  DartGenerator.generateDartClass rt this className jsonString
  = Throw (Error ("Invalid JSON: " +:+ message rt error)).
Proof.
  intros H. unfold DartGenerator.generateDartClass, DartGenerator.generateDartClass_try.
  now rewrite H.
Qed.

(** C5, the code at the failing input: for the text [[]] the [catch] of the
    standard renderer wraps the error of the empty array into the error it
    raises for a text that is no JSON, ["Invalid JSON: ..."]; the nested
    renderer raises the error of the empty array itself.  Neither returns a
    text. *)
Theorem empty_array_errors :
  (forall this className,
      DartGenerator.generateDartClass ReferenceRuntime.runtime this className "[]"
      = Throw (Error "Invalid JSON: Cannot generate class from empty array"))
  /\ (forall rt this className settings,
         ModelNewGenerator.generate rt this className (JArray []) settings
         = Throw (Error "Cannot generate class from empty array")).
Proof.
  split; [|reflexivity].
  intros this className. now apply generateDartClass_empty_array.
Qed.

(** ** The string representation of the standard renderer *)

Lemma join_app sep (l1 l2 : list string) :
  l1 <> [] -> l2 <> [] ->
  join sep (l1 ++ l2) = join sep l1 +:+ sep +:+ join sep l2.
Proof.
  unfold join. intros H1 H2.
  induction l1 as [|x l1 IH]; [congruence|].
  destruct l1 as [|y l1].
  - destruct l2; [congruence|reflexivity].
  - change (String.concat sep ((x :: y :: l1) ++ l2))
      with (x +:+ sep +:+ String.concat sep ((y :: l1) ++ l2)).
    rewrite IH by discriminate. simpl. now rewrite !append_assoc.
Qed.

Lemma generateConstructor_nonempty this className properties :
  nonempty (DartGenerator.generateConstructor this className properties) = true.
Proof. reflexivity. Qed.

Lemma generateToString_cases this className properties :
  DartGenerator.generateToString this className properties
  = if DartGenerator.opt this "generateToString"
    then nl +:+ (if DartGenerator.opt this "useEquatable"
                 then props_getter properties
                 else toString_method className properties)
    else "".
Proof.
  unfold DartGenerator.generateToString, props_getter, toString_method, join.
  destruct (DartGenerator.opt this "generateToString"); [|reflexivity].
  destruct (DartGenerator.opt this "useEquatable"); simpl;
    now rewrite ?append_assoc, ?append_nil.
Qed.

(** The text of the standard renderer: the sections up to copy-with, the
    string-representation section, the closing brace and the comment. *)
Lemma buildDartClass_decomposed (rt : Runtime) (this : DartGenerator.t) (className : string)
    (entries : list (string * json)) (originalJson : string) :
  let properties := DartGenerator.extractEntries this entries in
  DartGenerator.buildDartClass rt this className (JObject entries) originalJson
  = (let! jsonComment := DartGenerator.generateJsonComment rt this originalJson in
     Ok (class_before this className properties +:+ nl
         +:+ (if DartGenerator.opt this "generateToString"
              then nl +:+ (if DartGenerator.opt this "useEquatable"
                           then props_getter properties
                           else toString_method className properties) +:+ nl
              else "")
         +:+ class_after jsonComment)).
Proof.
  intros properties.
  unfold DartGenerator.buildDartClass, DartGenerator.extractProperties, Object_entries.
  cbn [bind]. fold properties.
  destruct (DartGenerator.generateJsonComment rt this originalJson) as [jsonComment|e];
    [|reflexivity].
  cbn [bind]. f_equal.
  change (DartGenerator.sections this className properties jsonComment)
    with ([ DartGenerator.generateImports this;
            "";
            DartGenerator.generateClassDeclaration this className;
            DartGenerator.generateFields this properties;
            "";
            DartGenerator.generateConstructor this className properties;
            "";
            DartGenerator.generateFromJson this className properties;
            DartGenerator.generateToJson this properties;
            DartGenerator.generateCopyWith this className properties ]
          ++ [ DartGenerator.generateToString this className properties; "}"; jsonComment ])%list.
  rewrite List.filter_app, join_app.
  - fold (class_before this className properties). f_equal. f_equal.
    rewrite generateToString_cases. unfold class_after.
    destruct (DartGenerator.opt this "generateToString"); simpl;
      destruct (nonempty jsonComment); simpl; unfold join; simpl;
      now rewrite ?append_assoc, ?append_nil_r.
  - intros Hnil.
    assert (Hin : In (DartGenerator.generateConstructor this className properties)
                    (List.filter nonempty
                       [ DartGenerator.generateImports this;
                         "";
                         DartGenerator.generateClassDeclaration this className;
                         DartGenerator.generateFields this properties;
                         "";
                         DartGenerator.generateConstructor this className properties;
                         "";
                         DartGenerator.generateFromJson this className properties;
                         DartGenerator.generateToJson this properties;
                         DartGenerator.generateCopyWith this className properties ])).
    { apply List.filter_In. split; [simpl; tauto|apply generateConstructor_nonempty]. }
    rewrite Hnil in Hin. exact Hin.
  - simpl. destruct (nonempty (DartGenerator.generateToString this className properties));
      discriminate.
Qed.

(** *** Lines of a text *)

(** The lines of two texts joined by a line feed are the lines of the
    first, then the lines of the second. *)
Lemma split_lines_nl a b :
  split_lines (a +:+ nl +:+ b) = (split_lines a ++ split_lines b)%list.
Proof.
  induction a as [|c a IH].
  - reflexivity.
  - rewrite append_cons. cbn [split_lines]. rewrite IH.
    destruct (Ascii.eqb c "010"); [reflexivity|].
    pose proof (split_lines_not_nil a) as Hne.
    destruct (split_lines a) as [|line more]; [congruence|reflexivity].
Qed.

Lemma single_line_append a b : single_line (a +:+ b) = single_line a && single_line b.
Proof.
  unfold single_line. induction a as [|c a IH]; [reflexivity|].
  rewrite append_cons. cbn [all_chars]. now rewrite IH, andb_assoc.
Qed.

Lemma split_lines_single s : single_line s = true -> split_lines s = [s].
Proof.
  unfold single_line. induction s as [|c s IH]; [reflexivity|].
  cbn [all_chars split_lines]. intros H. apply andb_true_iff in H as [Hc Hs].
  apply negb_true_iff in Hc. now rewrite Hc, (IH Hs).
Qed.

Lemma split_lines_lines s : forallb single_line (split_lines s) = true.
Proof.
  induction s as [|c s IH]; [reflexivity|].
  cbn [split_lines]. destruct (Ascii.eqb c "010") eqn:Hc; [exact IH|].
  pose proof (split_lines_not_nil s) as Hne.
  destruct (split_lines s) as [|line more]; [congruence|].
  cbn [forallb] in *. unfold single_line at 1. cbn [all_chars]. rewrite Hc.
  exact IH.
Qed.

Lemma single_line_join sep l :
  single_line sep = true -> forallb single_line l = true -> single_line (join sep l) = true.
Proof.
  intros Hsep. unfold join. induction l as [|x l IH]; [reflexivity|].
  cbn [forallb]. intros H. apply andb_true_iff in H as [Hx Hl].
  destruct l as [|y l]; [exact Hx|].
  change (String.concat sep (x :: y :: l)) with (x +:+ sep +:+ String.concat sep (y :: l)).
  now rewrite !single_line_append, Hx, Hsep, (IH Hl).
Qed.

(** A property of every line passes to texts joined by line feeds. *)
Lemma every_line_nl P a b :
  every_line P a = true -> every_line P b = true -> every_line P (a +:+ nl +:+ b) = true.
Proof.
  unfold every_line. intros Ha Hb. now rewrite split_lines_nl, forallb_app, Ha, Hb.
Qed.

Lemma every_line_single P s : single_line s = true -> P s = true -> every_line P s = true.
Proof.
  intros Hs HP. unfold every_line. rewrite (split_lines_single s Hs). cbn. now rewrite HP.
Qed.

Lemma every_line_join P l :
  P "" = true -> forallb (every_line P) l = true -> every_line P (join nl l) = true.
Proof.
  intros Hnil. unfold join. induction l as [|x l IH]; [intros _; cbn; now rewrite Hnil|].
  cbn [forallb]. intros H. apply andb_true_iff in H as [Hx Hl].
  destruct l as [|y l]; [exact Hx|].
  change (String.concat nl (x :: y :: l)) with (x +:+ nl +:+ String.concat nl (y :: l)).
  apply every_line_nl; [exact Hx|now apply IH].
Qed.

Lemma every_line_join_comma P l :
  P "" = true ->
  (forall s, In s l -> single_line s = true /\ P s = true /\ P (s +:+ ",") = true) ->
  every_line P (join ("," +:+ nl) l) = true.
Proof.
  intros Hnil. unfold join. induction l as [|x l IH]; [intros _; cbn; now rewrite Hnil|].
  intros H. destruct (H x (or_introl eq_refl)) as (Hx & HPx & HPc).
  destruct l as [|y l]; [now apply every_line_single|].
  change (String.concat ("," +:+ nl) (x :: y :: l))
    with (x +:+ ("," +:+ nl) +:+ String.concat ("," +:+ nl) (y :: l)).
  replace (x +:+ ("," +:+ nl) +:+ String.concat ("," +:+ nl) (y :: l))
    with ((x +:+ ",") +:+ nl +:+ String.concat ("," +:+ nl) (y :: l))
    by (now rewrite !append_assoc).
  apply every_line_nl.
  - apply every_line_single; [|exact HPc]. now rewrite single_line_append, Hx.
  - apply IH. intros s Hs. apply H. now right.
Qed.

Lemma every_line_join_blank P l :
  P "" = true -> forallb (every_line P) l = true ->
  every_line P (join (nl +:+ nl) l) = true.
Proof.
  intros Hnil. unfold join. induction l as [|x l IH]; [intros _; cbn; now rewrite Hnil|].
  cbn [forallb]. intros H. apply andb_true_iff in H as [Hx Hl].
  destruct l as [|y l]; [exact Hx|].
  change (String.concat (nl +:+ nl) (x :: y :: l))
    with (x +:+ nl +:+ (EmptyString +:+ nl +:+ String.concat (nl +:+ nl) (y :: l))).
  apply every_line_nl; [exact Hx|].
  apply every_line_nl; [cbn; now rewrite Hnil|now apply IH].
Qed.

Lemma split_lines_join_in l s line :
  In s l -> In line (split_lines s) -> In line (split_lines (join nl l)).
Proof.
  unfold join. induction l as [|x l IH]; [intros []|].
  intros Hs Hline. destruct l as [|y l].
  - destruct Hs as [<-|[]]. exact Hline.
  - change (String.concat nl (x :: y :: l)) with (x +:+ nl +:+ String.concat nl (y :: l)).
    rewrite split_lines_nl. apply List.in_app_iff.
    destruct Hs as [<-|Hs]; [now left|right; now apply IH].
Qed.

(** *** Lines that declare neither member *)

Lemma strip_prefix_append p : forall s rest, strip_prefix p s = Some rest -> s = p +:+ rest.
Proof.
  induction p as [|a p IH]; intros s rest; cbn [strip_prefix].
  - now intros [= ->].
  - destruct s as [|b s]; [discriminate|].
    destruct (Ascii.eqb_spec a b) as [->|]; [|discriminate].
    intros H. now rewrite (IH s rest H).
Qed.

Lemma plain_third line : third_other line = true -> plain_line line = true.
Proof.
  intros H. unfold plain_line. apply andb_true_iff. split; apply negb_true_iff.
  - unfold declares_props, starts_with. apply andb_false_iff. left.
    destruct (strip_prefix "  List<Object?> get props => [" line) as [rest|] eqn:Hp;
      [|reflexivity].
    apply strip_prefix_append in Hp. subst line. discriminate H.
  - unfold declares_toString. apply String.eqb_neq. intros ->. discriminate H.
Qed.

Lemma eqb_length_false x s : String.length x <> String.length s -> String.eqb x s = false.
Proof. intros H. apply String.eqb_neq. intros ->. congruence. Qed.

Lemma ends_with_append x p t :
  String.length x <= String.length t -> ends_with x (p +:+ t) = ends_with x t.
Proof.
  intros H. induction p as [|c p IH]; [reflexivity|].
  rewrite append_cons. cbn [ends_with]. rewrite IH.
  rewrite eqb_length_false; [reflexivity|].
  cbn [String.length]. rewrite length_append. lia.
Qed.

(** The line that opens the copy-with method declares neither member,
    whatever the class name: it ends with [({]. *)
Lemma plain_copyWith cn : plain_line ("  " +:+ cn +:+ " copyWith({") = true.
Proof.
  unfold plain_line, declares_props, declares_toString.
  apply andb_true_iff. split; apply negb_true_iff.
  - apply andb_false_iff. right.
    rewrite <- append_assoc, ends_with_append by (cbn; lia). reflexivity.
  - apply String.eqb_neq. intros Heq.
    assert (H : ends_with "({" ("  " +:+ cn +:+ " copyWith({") = true).
    { rewrite <- append_assoc, ends_with_append by (cbn; lia). reflexivity. }
    rewrite Heq in H. discriminate H.
Qed.

Lemma fine_parts prop :
  fine prop = true ->
  single_line (DartGenerator.name prop) = true
  /\ single_line (DartGenerator.type prop) = true
  /\ single_line (DartGenerator.jsonKey prop) = true.
Proof.
  unfold fine. intros H. apply andb_true_iff in H as [H Hk].
  apply andb_true_iff in H as [Hn Ht]. auto.
Qed.

(** *** The sections of the class text *)

Ltac single :=
  rewrite ?single_line_append;
  repeat match goal with H : single_line _ = true |- _ => rewrite H; clear H end;
  reflexivity.

Ltac line := apply every_line_single; [single|apply plain_third; reflexivity].

Ltac lines :=
  apply every_line_join; [reflexivity|];
  cbn [forallb]; repeat (apply andb_true_iff; split); try reflexivity.

Ltac each_line H :=
  apply every_line_join_comma; [reflexivity|];
  let s := fresh "s" in let Hs := fresh "Hs" in
  let prop := fresh "prop" in let Hin := fresh "Hin" in
  intros s Hs; apply List.in_map_iff in Hs as (prop & <- & Hin);
  destruct (fine_parts prop (H prop Hin)) as (? & ? & ?).

Lemma getDefaultValue_single_line type :
  single_line (DartGenerator.getDefaultValue type) = true.
Proof.
  unfold DartGenerator.getDefaultValue.
  repeat match goal with |- context [String.eqb ?a ?b] => destruct (String.eqb a b) end;
    reflexivity.
Qed.

(** No section before the string-representation section holds a line that
    declares the getter or the method. *)
Section PlainSections.
Variable this : DartGenerator.t.
Variable className : string.
Variable properties : list DartGenerator.property.
Hypothesis Hname : single_line className = true.
Hypothesis Hprops : forall prop, In prop properties -> fine prop = true.

Lemma generateImports_plain :
  every_line plain_line (DartGenerator.generateImports this) = true.
Proof.
  unfold DartGenerator.generateImports.
  destruct (DartGenerator.opt this "useSerializable"), (DartGenerator.opt this "useEquatable");
    reflexivity.
Qed.

Lemma generateClassDeclaration_plain :
  every_line plain_line (DartGenerator.generateClassDeclaration this className) = true.
Proof.
  unfold DartGenerator.generateClassDeclaration.
  destruct (DartGenerator.opt this "useSerializable"), (DartGenerator.opt this "useEquatable");
    cbn [app]; lines; line.
Qed.

Lemma generateFields_plain :
  every_line plain_line (DartGenerator.generateFields this properties) = true.
Proof.
  unfold DartGenerator.generateFields.
  apply every_line_join_blank; [reflexivity|].
  apply List.forallb_forall. intros s Hs.
  apply List.in_map_iff in Hs as (prop & <- & Hin).
  destruct (fine_parts prop (Hprops prop Hin)) as (Hn & Ht & Hk).
  destruct (DartGenerator.opt this "generateKeys" && DartGenerator.opt this "useSerializable"),
    (DartGenerator.opt this "useDefaultValue"); cbn [app]; lines; line.
Qed.

Lemma generateConstructor_plain :
  every_line plain_line (DartGenerator.generateConstructor this className properties) = true.
Proof.
  unfold DartGenerator.generateConstructor, DartGenerator.constructorParams.
  lines; try line.
  each_line Hprops.
  destruct (DartGenerator.opt this "useDefaultValue");
    (split; [single|split; apply plain_third; reflexivity]).
Qed.

Lemma generateFromJson_plain :
  every_line plain_line (DartGenerator.generateFromJson this className properties) = true.
Proof.
  unfold DartGenerator.generateFromJson.
  destruct (negb (DartGenerator.opt this "useSerializable")); [|line].
  lines; try line.
  each_line Hprops.
  pose proof (getDefaultValue_single_line (DartGenerator.type prop)).
  destruct (negb (String.eqb (DartGenerator.type prop) "dynamic")
            && negb (DartGenerator.opt this "useDefaultValue"));
    [|destruct (DartGenerator.opt this "useDefaultValue")];
    (split; [single|split; apply plain_third; reflexivity]).
Qed.

Lemma generateToJson_plain :
  every_line plain_line (DartGenerator.generateToJson this properties) = true.
Proof.
  unfold DartGenerator.generateToJson.
  destruct (negb (DartGenerator.opt this "generateToJson")); [reflexivity|].
  destruct (negb (DartGenerator.opt this "useSerializable")); [|reflexivity].
  lines. each_line Hprops.
  split; [single|split; apply plain_third; reflexivity].
Qed.

Lemma generateCopyWith_plain :
  every_line plain_line (DartGenerator.generateCopyWith this className properties) = true.
Proof.
  unfold DartGenerator.generateCopyWith.
  destruct (negb (DartGenerator.opt this "generateCopyWith")); [reflexivity|].
  lines; try line.
  - apply every_line_single; [single|apply plain_copyWith].
  - each_line Hprops.
    destruct (DartGenerator.opt this "useDefaultValue");
      (split; [single|split; apply plain_third; reflexivity]).
  - each_line Hprops. split; [single|split; apply plain_third; reflexivity].
Qed.

End PlainSections.

Lemma every_line_weaken (P Q : string -> bool) text :
  (forall line, P line = true -> Q line = true) ->
  every_line P text = true -> every_line Q text = true.
Proof.
  unfold every_line. intros HPQ H. rewrite List.forallb_forall in *. auto.
Qed.

Lemma forallb_filter {A} (P keep : A -> bool) l :
  forallb P l = true -> forallb P (List.filter keep l) = true.
Proof.
  rewrite !List.forallb_forall. intros H x Hx. apply H.
  now apply List.filter_In in Hx as [Hx _].
Qed.

Lemma generateJsonComment_plain rt this originalJson jsonComment :
  DartGenerator.generateJsonComment rt this originalJson = Ok jsonComment ->
  every_line plain_line jsonComment = true.
Proof.
  unfold DartGenerator.generateJsonComment.
  destruct (negb (DartGenerator.opt this "generateComment")); [now intros [= <-]|].
  destruct (JSON_parse rt originalJson) as [parsed|e]; [|discriminate].
  cbn [bind]. intros [= <-].
  change (nl +:+ nl +:+ ?x) with (EmptyString +:+ nl +:+ (EmptyString +:+ nl +:+ x)).
  apply every_line_nl; [reflexivity|]. apply every_line_nl; [reflexivity|].
  apply every_line_join; [reflexivity|].
  apply List.forallb_forall. intros s Hs.
  apply List.in_map_iff in Hs as (line & <- & Hin).
  pose proof (split_lines_lines (JSON_stringify rt parsed)) as Hall.
  rewrite List.forallb_forall in Hall. specialize (Hall line Hin).
  line.
Qed.

Lemma single_line_names properties :
  (forall prop, In prop properties -> fine prop = true) ->
  forallb single_line (map DartGenerator.name properties) = true.
Proof.
  intros H. apply List.forallb_forall. intros s Hs.
  apply List.in_map_iff in Hs as (prop & <- & Hin).
  now destruct (fine_parts prop (H prop Hin)).
Qed.

(** The string-representation section, switch by switch. *)
Lemma generateToString_off this className properties :
  DartGenerator.opt this "generateToString" = false ->
  DartGenerator.generateToString this className properties = "".
Proof. unfold DartGenerator.generateToString. now intros ->. Qed.

Lemma generateToString_props this className properties :
  (forall prop, In prop properties -> fine prop = true) ->
  DartGenerator.opt this "generateToString" = true ->
  DartGenerator.opt this "useEquatable" = true ->
  let section := DartGenerator.generateToString this className properties in
  nonempty section = true
  /\ In (props_line (map DartGenerator.name properties)) (split_lines section)
  /\ every_line (fun line => negb (declares_toString line)) section = true.
Proof.
  intros Hprops Hs He. unfold DartGenerator.generateToString. rewrite Hs, He. cbn [negb].
  fold (props_line (map DartGenerator.name properties)).
  assert (Hone : single_line (props_line (map DartGenerator.name properties)) = true).
  { unfold props_line. rewrite !single_line_append.
    rewrite (single_line_join ", " _ eq_refl (single_line_names _ Hprops)). reflexivity. }
  split; [reflexivity|]. split.
  - change (join nl [ ""; "  @override"; props_line (map DartGenerator.name properties) ])
      with (EmptyString +:+ nl +:+ ("  @override" +:+ nl
                                    +:+ props_line (map DartGenerator.name properties))).
    rewrite !split_lines_nl, (split_lines_single _ Hone). cbn. tauto.
  - apply every_line_join; [reflexivity|]. cbn [forallb].
    rewrite (every_line_single _ _ Hone eq_refl). reflexivity.
Qed.

Lemma generateToString_method this className properties :
  single_line className = true ->
  (forall prop, In prop properties -> fine prop = true) ->
  DartGenerator.opt this "generateToString" = true ->
  DartGenerator.opt this "useEquatable" = false ->
  let section := DartGenerator.generateToString this className properties in
  nonempty section = true
  /\ In toString_header (split_lines section)
  /\ In (toString_return className (map DartGenerator.name properties)) (split_lines section)
  /\ every_line (fun line => negb (declares_props line)) section = true.
Proof.
  intros Hname Hprops Hs He. unfold DartGenerator.generateToString. rewrite Hs, He. cbn [negb].
  rewrite <- (List.map_map DartGenerator.name (fun field => field +:+ ": $" +:+ field)).
  fold (toString_return className (map DartGenerator.name properties)).
  assert (Hone : single_line (toString_return className (map DartGenerator.name properties))
                 = true).
  { unfold toString_return. rewrite !single_line_append, Hname.
    rewrite single_line_join; [reflexivity|reflexivity|].
    apply List.forallb_forall. intros s Hin.
    apply List.in_map_iff in Hin as (field & <- & Hin).
    pose proof (single_line_names _ Hprops) as Hall.
    rewrite List.forallb_forall in Hall.
    now rewrite !single_line_append, (Hall field Hin). }
  split; [reflexivity|].
  change (join nl [ ""; "  @override"; "  String toString() {";
                    toString_return className (map DartGenerator.name properties); "  }" ])
    with (EmptyString +:+ nl +:+ ("  @override" +:+ nl +:+ (toString_header +:+ nl
            +:+ (toString_return className (map DartGenerator.name properties) +:+ nl
                 +:+ "  }")))).
  split; [|split].
  - rewrite !split_lines_nl. cbn. tauto.
  - rewrite !split_lines_nl, (split_lines_single _ Hone). cbn. tauto.
  - repeat (apply every_line_nl; [reflexivity|]).
    apply every_line_nl; [|reflexivity].
    apply every_line_single; [exact Hone|].
    assert (Hplain : plain_line (toString_return className
                                   (map DartGenerator.name properties)) = true)
      by (apply plain_third; reflexivity).
    now apply andb_true_iff in Hplain as [Hplain _].
Qed.

(** *** The descriptors of a sample hold no line feed *)

Lemma ident_part_not_nl c : ident_part c = true -> negb (Ascii.eqb c "010") = true.
Proof. destruct c as [[] [] [] [] [] [] [] []]; vm_compute; congruence. Qed.

Lemma ident_start_not_nl c : ident_start c = true -> negb (Ascii.eqb c "010") = true.
Proof. destruct c as [[] [] [] [] [] [] [] []]; vm_compute; congruence. Qed.

Lemma upper_of_lower_not_nl c :
  is_lower c = true -> negb (Ascii.eqb (char_toUpperCase c) "010") = true.
Proof. destruct c as [[] [] [] [] [] [] [] []]; vm_compute; congruence. Qed.

Lemma identifier_single_line key : identifier_regex_test key = true -> single_line key = true.
Proof.
  destruct key as [|c rest]; [discriminate|]. cbn [identifier_regex_test].
  intros H. apply andb_true_iff in H as [Hc Hrest].
  unfold single_line. cbn [all_chars]. rewrite (ident_start_not_nl c Hc). cbn [andb].
  induction rest as [|d rest IH]; [reflexivity|].
  cbn [all_chars] in *. apply andb_true_iff in Hrest as [Hd Hrest].
  now rewrite (ident_part_not_nl d Hd), (IH Hrest).
Qed.

Lemma toCamelCase_single_line str :
  single_line str = true -> single_line (DartGenerator.toCamelCase str) = true.
Proof.
  unfold single_line.
  induction str as [|c|c d s IHs IHd] using string_ind2; intros H.
  - reflexivity.
  - unfold DartGenerator.toCamelCase. cbn [replace_underscore_lower].
    now destruct (is_underscore c).
  - pose proof H as Hcds. cbn [all_chars] in H.
    apply andb_true_iff in H as [Hc Hds]. pose proof Hds as Hds'.
    apply andb_true_iff in Hds' as [Hd Hs].
    destruct (is_underscore c) eqn:Eu, (is_lower d) eqn:El.
    + rewrite toCamelCase_match by assumption. cbn [all_chars].
      rewrite (upper_of_lower_not_nl d El). now apply IHs.
    + rewrite toCamelCase_skip by (cbn; now rewrite Eu, El).
      cbn [all_chars]. rewrite Hc. apply IHd. cbn [all_chars]. now rewrite Hd, Hs.
    + rewrite toCamelCase_skip by (cbn; now rewrite Eu).
      cbn [all_chars]. rewrite Hc. apply IHd. cbn [all_chars]. now rewrite Hd, Hs.
    + rewrite toCamelCase_skip by (cbn; now rewrite Eu).
      cbn [all_chars]. rewrite Hc. apply IHd. cbn [all_chars]. now rewrite Hd, Hs.
Qed.

Lemma inferDartType_single_line this :
  forall value, single_line (DartGenerator.inferDartType this value) = true.
Proof.
  fix IH 1. intros [| b | n | str | [|first rest] | fields]; cbn [DartGenerator.inferDartType];
    try reflexivity.
  - destruct (DartGenerator.opt this "useNum"); [reflexivity|].
    now destruct (Number_isInteger n).
  - now rewrite !single_line_append, (IH first).
Qed.

Lemma extractEntries_fine this entries :
  forall prop, In prop (DartGenerator.extractEntries this entries) -> fine prop = true.
Proof.
  induction entries as [|[key value] rest IH]; intros prop; [intros []|].
  cbn [DartGenerator.extractEntries].
  destruct (DartGenerator.isValidDartVariableName key) eqn:Hvalid; cbn [negb]; [|apply IH].
  intros [<-|Hin]; [|now apply IH].
  unfold DartGenerator.isValidDartVariableName in Hvalid.
  apply andb_true_iff in Hvalid as [Hre _].
  pose proof (identifier_single_line key Hre) as Hkey.
  unfold fine. cbn [DartGenerator.name DartGenerator.type DartGenerator.jsonKey].
  now rewrite (toCamelCase_single_line key Hkey), inferDartType_single_line, Hkey.
Qed.

(** The identifiers of the descriptors are the camel-cased forms of the
    accepted keys. *)
Lemma extractEntries_names this entries :
  map DartGenerator.name (DartGenerator.extractEntries this entries) = field_names entries.
Proof.
  unfold field_names.
  induction entries as [|[key value] rest IH]; [reflexivity|].
  cbn [DartGenerator.extractEntries List.filter map fst]. rewrite accepted_key_valid.
  destruct (DartGenerator.isValidDartVariableName key); cbn [negb map]; [|exact IH].
  rewrite IH. f_equal. symmetry. apply derive_scan. exact I.
Qed.

(** A property of every plain line and of every line of the
    string-representation section holds of every line of the class text. *)
Lemma sections_plain rt this className entries originalJson jsonComment :
  single_line className = true ->
  DartGenerator.generateJsonComment rt this originalJson = Ok jsonComment ->
  let properties := DartGenerator.extractEntries this entries in
  forall P : string -> bool,
    (forall line, plain_line line = true -> P line = true) ->
    every_line P (DartGenerator.generateToString this className properties) = true ->
    every_line P (join nl (List.filter nonempty
                    (DartGenerator.sections this className properties jsonComment))) = true.
Proof.
  intros Hname Hcomment properties P HP Hsection.
  pose proof (extractEntries_fine this entries) as Hfine. fold properties in Hfine.
  apply every_line_join; [apply HP; reflexivity|].
  apply forallb_filter. unfold DartGenerator.sections. cbn [forallb].
  rewrite Hsection.
  rewrite (every_line_weaken _ P _ HP (generateImports_plain this)).
  rewrite (every_line_weaken _ P _ HP (generateClassDeclaration_plain this className Hname)).
  rewrite (every_line_weaken _ P _ HP (generateFields_plain this properties Hfine)).
  rewrite (every_line_weaken _ P _ HP
             (generateConstructor_plain this className properties Hname Hfine)).
  rewrite (every_line_weaken _ P _ HP
             (generateFromJson_plain this className properties Hname Hfine)).
  rewrite (every_line_weaken _ P _ HP (generateToJson_plain this properties Hfine)).
  rewrite (every_line_weaken _ P _ HP
             (generateCopyWith_plain this className properties Hname Hfine)).
  rewrite (every_line_weaken _ P _ HP (generateJsonComment_plain _ _ _ _ Hcomment)).
  assert (Hnil : every_line P "" = true) by (cbn; now rewrite (HP "" eq_refl)).
  assert (Hbrace : every_line P "}" = true) by (cbn; now rewrite (HP "}" eq_refl)).
  now rewrite Hnil, Hbrace.
Qed.

Lemma section_line this className properties jsonComment line :
  nonempty (DartGenerator.generateToString this className properties) = true ->
  In line (split_lines (DartGenerator.generateToString this className properties)) ->
  In line (split_lines (join nl (List.filter nonempty
             (DartGenerator.sections this className properties jsonComment)))).
Proof.
  intros Hne Hin. eapply split_lines_join_in; [|exact Hin].
  apply List.filter_In. split; [|exact Hne].
  unfold DartGenerator.sections. cbn. tauto.
Qed.

Lemma plain_no_toString line : plain_line line = true -> negb (declares_toString line) = true.
Proof. unfold plain_line. intros H. now apply andb_true_iff in H as [_ H]. Qed.

Lemma plain_no_props line : plain_line line = true -> negb (declares_props line) = true.
Proof. unfold plain_line. intros H. now apply andb_true_iff in H as [H _]. Qed.

Lemma every_line_in P text line :
  every_line P text = true -> In line (split_lines text) -> P line = true.
Proof. unfold every_line. rewrite List.forallb_forall. auto. Qed.



(** ** The trailing comment *)

(** The standard renderer reads the switch generateComment: when it is on,
    the text ends with the pretty-printed JSON, every line behind [// ];
    when it is off, the text ends with the closing brace. *)
Lemma standard_trailing_comment rt this className entries originalJson parsed :
  JSON_parse rt originalJson = Ok parsed ->
  exists body,
    DartGenerator.buildDartClass rt this className (JObject entries) originalJson
    = Ok (body +:+ "}"
          +:+ (if DartGenerator.opt this "generateComment"
               then nl +:+ nl +:+ nl
                    +:+ join nl (map (fun line => "// " +:+ line)
                                     (split_lines (JSON_stringify rt parsed)))
               else "")).
Proof.
  intros Hparse. rewrite buildDartClass_decomposed.
  unfold DartGenerator.generateJsonComment, class_after.
  destruct (DartGenerator.opt this "generateComment"); simpl; rewrite ?Hparse; simpl;
    eexists; rewrite <- !append_assoc; reflexivity.
Qed.


Lemma setting_insert_ne settings key key' (b : bool) :
  key <> key' ->
  ModelNewGenerator.setting (<[key := b]> settings) key'
  = ModelNewGenerator.setting settings key'.
Proof.
  intros Hne. unfold ModelNewGenerator.setting. now rewrite lookup_insert_ne.
Qed.

(** The nested renderer never reads the switch generateComment: setting it
    leaves the text unchanged. *)
Lemma generate_ignores_generateComment rt this className jsonData settings b :
  ModelNewGenerator.generate rt this className jsonData (<["generateComment" := b]> settings)
  = ModelNewGenerator.generate rt this className jsonData settings.
Proof.
  unfold ModelNewGenerator.generate.
  now rewrite !setting_insert_ne by discriminate.
Qed.

(** C6, the code at the failing input: with the switch generateComment on,
    the nested renderer returns for [User] and [{"name": "Ann"}] the class
    text alone, ending with the closing brace and a line feed; no comment
    follows. *)
Theorem nested_generateComment_no_comment (rt : Runtime) :
  ModelNewGenerator.generate rt ModelNewGenerator.new "User" ann
    {[ "modelNew" := true; "generateComment" := true ]}
  = Ok (ann_model "Model.fromJson").
Proof. vm_compute. reflexivity. Qed.

(** ** State carried by the generator instances *)

Lemma inferDartType_agree this that :
  DartGenerator.opt this "useNum" = DartGenerator.opt that "useNum" ->
  forall value, DartGenerator.inferDartType this value = DartGenerator.inferDartType that value.
Proof.
  intros H. fix IH 1. intros [| b | n | str | [|first rest] | fields]; simpl;
    try reflexivity.
  - now rewrite H.
  - now rewrite (IH first).
Qed.

Lemma extractEntries_agree this that entries :
  DartGenerator.opt this "useNum" = DartGenerator.opt that "useNum" ->
  DartGenerator.extractEntries this entries = DartGenerator.extractEntries that entries.
Proof.
  intros H. induction entries as [|[key value] rest IH]; [reflexivity|].
  simpl. now rewrite IH, (inferDartType_agree this that H).
Qed.

Ltac switch H key :=
  let E := fresh "E" in
  pose proof (H key ltac:(simpl; tauto)) as E; rewrite ?E; clear E.

Lemma buildDartClass_agree rt this that className jsonObj originalJson :
  agree this that ->
  DartGenerator.buildDartClass rt this className jsonObj originalJson
  = DartGenerator.buildDartClass rt that className jsonObj originalJson.
Proof.
  intros H.
  unfold DartGenerator.buildDartClass, DartGenerator.extractProperties,
    DartGenerator.generateJsonComment, DartGenerator.sections,
    DartGenerator.generateImports, DartGenerator.generateClassDeclaration,
    DartGenerator.generateFields, DartGenerator.generateConstructor,
    DartGenerator.constructorParams, DartGenerator.generateFromJson,
    DartGenerator.generateToJson, DartGenerator.generateCopyWith,
    DartGenerator.generateToString.
  destruct (Object_entries jsonObj) as [entries|e]; [|reflexivity]. cbn [bind].
  rewrite (extractEntries_agree this that entries (H "useNum" ltac:(simpl; tauto))).
  switch H "generateToJson". switch H "generateCopyWith". switch H "generateToString".
  switch H "generateKeys". switch H "useSerializable". switch H "useEquatable".
  switch H "useDefaultValue". switch H "generateComment".
  reflexivity.
Qed.

Lemma generateDartClass_agree rt this that className jsonString :
  agree this that ->
  DartGenerator.generateDartClass rt this className jsonString
  = DartGenerator.generateDartClass rt that className jsonString.
Proof.
  intros H. unfold DartGenerator.generateDartClass, DartGenerator.generateDartClass_try.
  destruct (JSON_parse rt jsonString) as [[| | | |[|first rest]|]|e]; cbn [bind];
    try reflexivity; now rewrite (buildDartClass_agree rt this that).
Qed.

Lemma setOptions_complete opts this that :
  complete opts ->
  agree (DartGenerator.setOptions opts this) (DartGenerator.setOptions opts that).
Proof.
  intros Hc key Hin. destruct (Hc key Hin) as [b Hb].
  unfold DartGenerator.opt, DartGenerator.setOptions. simpl.
  now rewrite !(lookup_union_Some_l _ _ _ _ Hb).
Qed.

Lemma model_instance_baseImports this :
  model_instance this ->
  ModelNewGenerator.baseImports this = ModelNewGenerator.baseImports ModelNewGenerator.new.
Proof. induction 1 as [|className this _ IH]; [reflexivity|exact IH]. Qed.

(** C9, as stated, fails.  The nested renderer names the deserialization
    method after the class name stored on the instance: for the same class
    name, sample and settings, a fresh instance writes [Model.fromJson] and
    an instance on which [setCurrentClassName("Other")] was called before
    writes [Other.fromJson].  The standard renderer keeps the switches of
    earlier calls of [setOptions]: after [useNum] was switched on, passing
    the empty options object renders [{"id":1}] with the type [num], where
    a fresh instance renders [int]. *)
Lemma render_depends_on_instance_state :
  ModelNewGenerator.generate ReferenceRuntime.runtime ModelNewGenerator.new "User" ann ∅
  = Ok (ann_model "Model.fromJson")
  /\ ModelNewGenerator.generate ReferenceRuntime.runtime
       (ModelNewGenerator.setCurrentClassName "Other" ModelNewGenerator.new) "User" ann ∅
     = Ok (ann_model "Other.fromJson")
  /\ ann_model "Model.fromJson" <> ann_model "Other.fromJson"
  /\ DartGenerator.generateDartClass ReferenceRuntime.runtime
       (DartGenerator.setOptions ∅ DartGenerator.new) "User" id_text
     <> DartGenerator.generateDartClass ReferenceRuntime.runtime
          (DartGenerator.setOptions ∅
             (DartGenerator.setOptions {[ "useNum" := true ]} DartGenerator.new))
          "User" id_text.
Proof.
  split; [vm_compute; reflexivity|].
  split; [vm_compute; reflexivity|].
  split; vm_compute; intros H; discriminate H.
Qed.

(** C9, amended: the text depends on the class name, the sample, the
    options and the state of the instance.  The nested renderer reads the
    class name stored by [setCurrentClassName]: once the caller has stored
    the class name of the call, as the main script does, the text no longer
    depends on what the instance went through before.  The standard
    renderer reads the switches merged by [setOptions]: once the caller has
    passed an options object that defines all nine switches, the text no
    longer depends on the earlier switches. *)
Theorem render_independent_of_earlier_calls (rt : Runtime) :
  (forall this that className jsonData settings,
      model_instance this -> model_instance that ->
      ModelNewGenerator.generate rt (ModelNewGenerator.setCurrentClassName className this)
        className jsonData settings
      = ModelNewGenerator.generate rt (ModelNewGenerator.setCurrentClassName className that)
          className jsonData settings)
  /\ (forall this that opts className jsonString,
         complete opts ->
         DartGenerator.generateDartClass rt (DartGenerator.setOptions opts this)
           className jsonString
         = DartGenerator.generateDartClass rt (DartGenerator.setOptions opts that)
             className jsonString).
Proof.
  split.
  - intros this that className jsonData settings Hthis Hthat.
    unfold ModelNewGenerator.setCurrentClassName.
    now rewrite (model_instance_baseImports this Hthis),
      (model_instance_baseImports that Hthat).
  - intros this that opts className jsonString Hc.
    apply generateDartClass_agree. now apply setOptions_complete.
Qed.

Lemma all_defaults_complete : complete all_defaults.
Proof.
  intros key Hin. simpl in Hin.
  repeat (destruct Hin as [<-|Hin]; [vm_compute; eauto|]). destruct Hin.
Defined.

Lemma render_independent_of_earlier_calls_witness :
  ModelNewGenerator.generate ReferenceRuntime.runtime
    (ModelNewGenerator.setCurrentClassName "User" ModelNewGenerator.new) "User" ann ∅
  = ModelNewGenerator.generate ReferenceRuntime.runtime
      (ModelNewGenerator.setCurrentClassName "User"
         (ModelNewGenerator.setCurrentClassName "Other" ModelNewGenerator.new)) "User" ann ∅
  /\ DartGenerator.generateDartClass ReferenceRuntime.runtime
       (DartGenerator.setOptions all_defaults DartGenerator.new) "User" id_text
     = DartGenerator.generateDartClass ReferenceRuntime.runtime
         (DartGenerator.setOptions all_defaults
            (DartGenerator.setOptions {[ "useNum" := true ]} DartGenerator.new))
         "User" id_text.
Proof.
  split.
  - apply (proj1 (render_independent_of_earlier_calls ReferenceRuntime.runtime)).
    + apply instance_new.
    + apply instance_set, instance_new.
  - apply (proj2 (render_independent_of_earlier_calls ReferenceRuntime.runtime)).
    exact all_defaults_complete.
Defined.

(** ** Keys without a field in the nested renderer *)

(** Every line of the serialization map is written for a valid key and
    refers to its camel-cased form. *)
Lemma toJsonAssignments_lines entries :
  ModelNewGenerator.toJsonAssignments entries
  = map (fun entry => map_line (fst entry) (ModelNewGenerator.toCamelCase (fst entry))
                        (is_nested (snd entry)))
        (List.filter (fun entry => ModelNewGenerator.isValidDartVariableName (fst entry))
                     entries).
Proof.
  unfold ModelNewGenerator.toJsonAssignments. apply List.map_ext.
  intros [key value]. unfold map_line, is_nested. simpl fst. simpl snd.
  destruct value; simpl; now rewrite ?append_assoc, ?append_nil_r.
Qed.

(** C10, as stated, fails: in the sample [clash] the valid key [a_b] has the
    value [null], and yet every identifier that the serialization map refers
    to, [id] and [aB], is declared as a field, because the key [aB] declares
    the identifier that [a_b] is camel-cased to. *)
Lemma serialization_map_within_declared_fields :
  In ("a_b", JNull) clash
  /\ ModelNewGenerator.isValidDartVariableName "a_b" = true
  /\ ModelNewGenerator.generateProperties (JObject clash)
     = Ok ("late String id," +:+ nl +:+ "      aB;")
  /\ (forall ident, referenced_in clash ident -> declared_in clash ident).
Proof.
  split; [simpl; tauto|]. split; [reflexivity|]. split; [reflexivity|].
  intros ident Href. rewrite declared_in_iff.
  destruct Href as [->|(key & value & Hin & _ & <-)].
  - exists ("id", JString "x"). simpl. tauto.
  - destruct Hin as [H|[H|[H|[]]]]; injection H as <- <-.
    + exists ("id", JString "x"). simpl. tauto.
    + exists ("aB", JString "y"). simpl. tauto.
    + exists ("aB", JString "y"). simpl. tauto.
Qed.

(** C10, amended: for every sample object and every valid key of it whose
    value is [null] or an array, the key adds no field declaration and no
    deserialization assignment, and the serialization map holds a line for
    it that refers to its camel-cased identifier.  That identifier is then
    referred to without being declared, unless another key of the sample
    with the same camel-cased form declares it. *)
Theorem null_or_array_key_serialized_undeclared (entries : list (string * json))
    (key : string) (value : json) :
  In (key, value) entries ->
  ModelNewGenerator.isValidDartVariableName key = true ->
  is_null value || Array_isArray value = true ->
  (forall acc, ModelNewGenerator.categorize acc (key, value) = acc)
  /\ ModelNewGenerator.assignment (key, value) = ""
  /\ In (map_line key (ModelNewGenerator.toCamelCase key) false)
        (ModelNewGenerator.toJsonAssignments entries)
  /\ referenced_in entries (ModelNewGenerator.toCamelCase key)
  /\ ((forall entry, In entry entries ->
          ModelNewGenerator.toCamelCase (fst entry) = ModelNewGenerator.toCamelCase key ->
          declaring entry = false) ->
      ~ declared_in entries (ModelNewGenerator.toCamelCase key)).
Proof.
  intros Hin Hvalid Hvalue.
  assert (Hkind : typeof value = TObject /\ is_nested value = false).
  { destruct value; try discriminate Hvalue; split; reflexivity. }
  destruct Hkind as [Hkind Hnested].
  assert (Hskip : negb (is_null value) && negb (Array_isArray value) = false).
  { unfold is_nested in Hnested. now rewrite Hkind in Hnested. }
  split; [|split; [|split; [|split]]].
  - intros acc. unfold ModelNewGenerator.categorize.
    now rewrite Hvalid, Hkind, Hskip.
  - unfold ModelNewGenerator.assignment. now rewrite Hvalid, Hkind, Hskip.
  - rewrite toJsonAssignments_lines. apply List.in_map_iff.
    exists (key, value). simpl. rewrite Hnested. split; [reflexivity|].
    apply List.filter_In. now split.
  - right. exists key, value. auto.
  - intros Hothers. rewrite declared_in_iff. intros (entry & He & Hd & Hc).
    rewrite (Hothers entry He Hc) in Hd. discriminate Hd.
Qed.

Lemma null_or_array_key_serialized_undeclared_witness :
  In (map_line "tags" "tags" false) (ModelNewGenerator.toJsonAssignments tags)
  /\ referenced_in tags "tags"
  /\ ~ declared_in tags "tags".
Proof.
  destruct (null_or_array_key_serialized_undeclared tags "tags" (JArray []))
    as (_ & _ & Hline & Href & Hundeclared).
  - simpl. tauto.
  - reflexivity.
  - reflexivity.
  - split; [exact Hline|]. split; [exact Href|].
    apply Hundeclared. intros entry [<-|[]] _. reflexivity.
Defined.

(** * Further properties of the code *)

(** ** Identifiers *)

Lemma lower_not_upper_after c : is_lower c = true -> is_lower (char_toUpperCase c) = false.
Proof. destruct c as [[] [] [] [] [] [] [] []]; vm_compute; congruence. Qed.

Lemma upper_is_not_underscore c : is_upper c = true -> is_underscore c = false.
Proof. destruct c as [[] [] [] [] [] [] [] []]; vm_compute; congruence. Qed.

Lemma lower_of_upper_of_lower c :
  is_lower c = true -> char_toLowerCase (char_toUpperCase c) = c.
Proof. destruct c as [[] [] [] [] [] [] [] []]; vm_compute; congruence. Qed.

Lemma upper_is_ident_part c : is_upper c = true -> ident_part c = true /\ ident_start c = true.
Proof. destruct c as [[] [] [] [] [] [] [] []]; vm_compute; intuition congruence. Qed.

Lemma ident_part_not_space c : ident_part c = true -> is_space c = false.
Proof. destruct c as [[] [] [] [] [] [] [] []]; vm_compute; congruence. Qed.

Lemma toCamelCase_ident_part str :
  all_chars ident_part str = true ->
  all_chars ident_part (DartGenerator.toCamelCase str) = true.
Proof.
  induction str as [|c|c d s IHs IHd] using string_ind2; intros H.
  - reflexivity.
  - unfold DartGenerator.toCamelCase. simpl. now destruct (is_underscore c).
  - change (ident_part c && (ident_part d && all_chars ident_part s) = true) in H.
    apply andb_true_iff in H as [Hc H]. pose proof H as Hds.
    apply andb_true_iff in H as [Hd Hs].
    destruct (is_underscore c) eqn:Eu, (is_lower d) eqn:El.
    + rewrite toCamelCase_match by assumption. simpl.
      rewrite (proj1 (upper_is_ident_part _ (upper_of_lower d El))). now apply IHs.
    + rewrite toCamelCase_skip by (simpl; now rewrite Eu, El).
      simpl. rewrite Hc. now apply IHd.
    + rewrite toCamelCase_skip by (simpl; now rewrite Eu).
      simpl. rewrite Hc. now apply IHd.
    + rewrite toCamelCase_skip by (simpl; now rewrite Eu).
      simpl. rewrite Hc. now apply IHd.
Qed.

Lemma toCamelCase_identifier key :
  identifier_regex_test key = true ->
  identifier_regex_test (DartGenerator.toCamelCase key) = true.
Proof.
  destruct key as [|c rest]; [discriminate|]. simpl.
  intros H. apply andb_true_iff in H as [Hc Hrest].
  destruct (is_underscore c
            && match rest with String next _ => is_lower next | EmptyString => false end)
    eqn:Ematch.
  - apply andb_true_iff in Ematch as [Eu El].
    destruct rest as [|d rest']; [discriminate|].
    rewrite toCamelCase_match by assumption. simpl.
    rewrite (proj2 (upper_is_ident_part _ (upper_of_lower d El))).
    simpl in Hrest. apply andb_true_iff in Hrest as [_ Hrest'].
    now apply toCamelCase_ident_part.
  - rewrite toCamelCase_skip by assumption. simpl. rewrite Hc.
    now apply toCamelCase_ident_part.
Qed.

(** X1: the identifier derived from a key that passes the legality check
    passes the legality check itself: it matches the identifier pattern and
    is no reserved word.  It holds for both generators. *)
Theorem camel_cased_key_is_valid (key : string) :
  DartGenerator.isValidDartVariableName key = true ->
  DartGenerator.isValidDartVariableName (DartGenerator.toCamelCase key) = true
  /\ ModelNewGenerator.isValidDartVariableName (ModelNewGenerator.toCamelCase key) = true.
Proof.
  intros H.
  assert (Hcamel : DartGenerator.isValidDartVariableName (DartGenerator.toCamelCase key) = true).
  { unfold DartGenerator.isValidDartVariableName in *.
    apply andb_true_iff in H as [Hre Hkw].
    now rewrite isDartKeyword_toCamelCase, Hkw, (toCamelCase_identifier key Hre). }
  split; exact Hcamel.
Qed.

Lemma camel_cased_key_is_valid_witness :
  DartGenerator.isValidDartVariableName (DartGenerator.toCamelCase "_user_name") = true
  /\ ModelNewGenerator.isValidDartVariableName (ModelNewGenerator.toCamelCase "_user_name")
     = true.
Proof. apply (camel_cased_key_is_valid "_user_name"). reflexivity. Defined.

(** The first character of the result is not a lower-case letter when the
    first character of the text is not one. *)
Lemma toCamelCase_head c rest :
  is_lower c = false ->
  match DartGenerator.toCamelCase (String c rest) with
  | String h _ => is_lower h = false
  | EmptyString => True
  end.
Proof.
  intros Hc.
  destruct (is_underscore c
            && match rest with String next _ => is_lower next | EmptyString => false end)
    eqn:Ematch.
  - apply andb_true_iff in Ematch as [Eu El].
    destruct rest as [|d rest']; [discriminate|].
    rewrite toCamelCase_match by assumption. now apply lower_not_upper_after.
  - rewrite toCamelCase_skip by assumption. exact Hc.
Qed.

Lemma toCamelCase_no_match str : has_match (DartGenerator.toCamelCase str) = false.
Proof.
  induction str as [|c|c d s IHs IHd] using string_ind2.
  - reflexivity.
  - unfold DartGenerator.toCamelCase. simpl.
    destruct (is_underscore c); simpl; now rewrite andb_false_r.
  - destruct (is_underscore c) eqn:Eu, (is_lower d) eqn:El.
    + rewrite toCamelCase_match by assumption.
      change (has_match (String (char_toUpperCase d) (DartGenerator.toCamelCase s)))
        with (is_underscore (char_toUpperCase d)
              && match DartGenerator.toCamelCase s with
                 | String next _ => is_lower next
                 | EmptyString => false
                 end
              || has_match (DartGenerator.toCamelCase s)).
      now rewrite (upper_is_not_underscore _ (upper_of_lower d El)), IHs.
    + rewrite toCamelCase_skip by (simpl; now rewrite Eu, El).
      pose proof (toCamelCase_head d s El) as Hhead.
      change (has_match (String c (DartGenerator.toCamelCase (String d s))))
        with (is_underscore c
              && match DartGenerator.toCamelCase (String d s) with
                 | String next _ => is_lower next
                 | EmptyString => false
                 end
              || has_match (DartGenerator.toCamelCase (String d s))).
      rewrite IHd, orb_false_r.
      destruct (DartGenerator.toCamelCase (String d s)); [apply andb_false_r|].
      rewrite Hhead. apply andb_false_r.
    + rewrite toCamelCase_skip by (simpl; now rewrite Eu).
      change (has_match (String c (DartGenerator.toCamelCase (String d s))))
        with (is_underscore c
              && match DartGenerator.toCamelCase (String d s) with
                 | String next _ => is_lower next
                 | EmptyString => false
                 end
              || has_match (DartGenerator.toCamelCase (String d s))).
      now rewrite Eu, IHd.
    + rewrite toCamelCase_skip by (simpl; now rewrite Eu).
      change (has_match (String c (DartGenerator.toCamelCase (String d s))))
        with (is_underscore c
              && match DartGenerator.toCamelCase (String d s) with
                 | String next _ => is_lower next
                 | EmptyString => false
                 end
              || has_match (DartGenerator.toCamelCase (String d s))).
      now rewrite Eu, IHd.
Qed.

Lemma toCamelCase_fixed str : has_match str = false -> DartGenerator.toCamelCase str = str.
Proof.
  induction str as [|c rest IH]; intros H; [reflexivity|].
  simpl in H. apply orb_false_iff in H as [Hhere Hrest].
  rewrite toCamelCase_skip by assumption. now rewrite IH.
Qed.

(** X2: converting twice is converting once: the result of [toCamelCase]
    holds no underscore directly followed by a lower-case letter, so a
    second pass returns it unchanged. *)
Theorem toCamelCase_idempotent (str : string) :
  has_match (DartGenerator.toCamelCase str) = false
  /\ DartGenerator.toCamelCase (DartGenerator.toCamelCase str) = DartGenerator.toCamelCase str
  /\ ModelNewGenerator.toCamelCase (ModelNewGenerator.toCamelCase str)
     = ModelNewGenerator.toCamelCase str.
Proof.
  pose proof (toCamelCase_no_match str) as H.
  split; [exact H|]. split; exact (toCamelCase_fixed _ H).
Qed.

Lemma to_snake_toCamelCase str :
  any_char is_upper str = false -> to_snake (DartGenerator.toCamelCase str) = str.
Proof.
  induction str as [|c|c d s IHs IHd] using string_ind2; intros H.
  - reflexivity.
  - simpl in H. rewrite orb_false_r in H.
    unfold DartGenerator.toCamelCase. simpl.
    destruct (is_underscore c); simpl; now rewrite H.
  - change (is_upper c || (is_upper d || any_char is_upper s) = false) in H.
    apply orb_false_iff in H as [Hc H]. pose proof H as Hds.
    apply orb_false_iff in H as [Hd Hs].
    destruct (is_underscore c) eqn:Eu, (is_lower d) eqn:El.
    + rewrite toCamelCase_match by assumption. simpl.
      rewrite (upper_of_lower d El), (lower_of_upper_of_lower d El), (IHs Hs).
      unfold is_underscore in Eu. apply Ascii.eqb_eq in Eu. now subst c.
    + rewrite toCamelCase_skip by (simpl; now rewrite Eu, El).
      simpl. now rewrite Hc, (IHd Hds).
    + rewrite toCamelCase_skip by (simpl; now rewrite Eu).
      simpl. now rewrite Hc, (IHd Hds).
    + rewrite toCamelCase_skip by (simpl; now rewrite Eu).
      simpl. now rewrite Hc, (IHd Hds).
Qed.

(** X3: on keys without upper-case letters the conversion loses nothing:
    [to_snake] gives the key back, so two such keys with the same identifier
    are the same key. *)
Theorem toCamelCase_injective_on_snake_case (key1 key2 : string) :
  any_char is_upper key1 = false ->
  any_char is_upper key2 = false ->
  to_snake (DartGenerator.toCamelCase key1) = key1
  /\ (DartGenerator.toCamelCase key1 = DartGenerator.toCamelCase key2 -> key1 = key2).
Proof.
  intros H1 H2. split; [now apply to_snake_toCamelCase|].
  intros H. rewrite <- (to_snake_toCamelCase key1 H1), <- (to_snake_toCamelCase key2 H2).
  now rewrite H.
Qed.

Lemma toCamelCase_injective_on_snake_case_witness :
  to_snake (DartGenerator.toCamelCase "zip_code__x") = "zip_code__x"
  /\ (DartGenerator.toCamelCase "zip_code__x" = DartGenerator.toCamelCase "zip_code_x" ->
      "zip_code__x" = "zip_code_x").
Proof.
  apply (toCamelCase_injective_on_snake_case "zip_code__x" "zip_code_x"); reflexivity.
Defined.

(** ** Outcomes of a render call *)

(** X4: what the nested renderer returns or throws is decided by the
    template of its input: the error of the empty array when there is none,
    the [TypeError] of [Object.keys(null)] when it is [null], a text in
    every other case.  No setting and no instance changes that. *)
Theorem generate_outcome (rt : Runtime) (this : ModelNewGenerator.t) (className : string)
    (jsonData : json) (settings : gmap string bool) :
  match template jsonData with
  | None =>
      ModelNewGenerator.generate rt this className jsonData settings
      = Throw (Error "Cannot generate class from empty array")
  | Some JNull =>
      ModelNewGenerator.generate rt this className jsonData settings
      = Throw TypeError_nullish
  | Some _ =>
      exists text, ModelNewGenerator.generate rt this className jsonData settings = Ok text
  end.
Proof.
  destruct jsonData as [| b | n | str | [|first rest] | fields]; simpl;
    try reflexivity; try (eexists; reflexivity).
  destruct first; try reflexivity; eexists; reflexivity.
Qed.

Lemma buildDartClass_succeeds rt this className jsonObj originalJson parsed :
  JSON_parse rt originalJson = Ok parsed ->
  jsonObj <> JNull ->
  exists text, DartGenerator.buildDartClass rt this className jsonObj originalJson = Ok text.
Proof.
  intros Hparse Hnull. unfold DartGenerator.buildDartClass, DartGenerator.extractProperties.
  assert (exists entries, Object_entries jsonObj = Ok entries) as [entries ->].
  { destruct jsonObj; try congruence; eexists; reflexivity. }
  cbn [bind]. unfold DartGenerator.generateJsonComment.
  destruct (negb (DartGenerator.opt this "generateComment")); cbn [bind].
  - eexists; reflexivity.
  - rewrite Hparse. cbn [bind]. eexists; reflexivity.
Qed.

(** X5: the standard renderer returns a text exactly when [JSON.parse]
    accepts the input and the template of the parsed value exists and is
    not [null]; every failure, whatever its cause, is thrown as an [Error]
    whose message starts with ["Invalid JSON: "]. *)
Theorem generateDartClass_outcome (rt : Runtime) (this : DartGenerator.t)
    (className jsonString : string) :
  match JSON_parse rt jsonString with
  | Throw e =>
      DartGenerator.generateDartClass rt this className jsonString
      = Throw (Error ("Invalid JSON: " +:+ message rt e))
  | Ok parsed =>
      match template parsed with
      | None =>
          DartGenerator.generateDartClass rt this className jsonString
          = Throw (Error "Invalid JSON: Cannot generate class from empty array")
      | Some JNull =>
          DartGenerator.generateDartClass rt this className jsonString
          = Throw (Error ("Invalid JSON: " +:+ nullish_message rt))
      | Some _ =>
          exists text, DartGenerator.generateDartClass rt this className jsonString = Ok text
      end
  end.
Proof.
  destruct (JSON_parse rt jsonString) as [parsed|e] eqn:Hparse.
  2:{ now apply generateDartClass_parse_error. }
  unfold DartGenerator.generateDartClass, DartGenerator.generateDartClass_try.
  rewrite Hparse. cbn [bind].
  assert (Hnull : forall originalJson,
             DartGenerator.buildDartClass rt this className JNull originalJson
             = Throw TypeError_nullish) by reflexivity.
  assert (Hok : forall jsonObj, jsonObj <> JNull ->
             exists text,
               match DartGenerator.buildDartClass rt this className jsonObj jsonString with
               | Ok text => Ok text
               | Throw error => Throw (Error ("Invalid JSON: " +:+ message rt error))
               end = Ok text).
  { intros jsonObj Hne.
    destruct (buildDartClass_succeeds rt this className jsonObj jsonString parsed Hparse Hne)
      as [text ->]. now exists text. }
  destruct parsed as [| b | n | str | [|first rest] | fields]; cbn [template];
    try (apply Hok; discriminate).
  - now rewrite Hnull.
  - reflexivity.
  - destruct first; try (apply Hok; discriminate). now rewrite Hnull.
Qed.

(** X6: an array is rendered as its first item: when that item is not an
    array itself, the nested renderer returns for the array what it returns
    for the item, and so does the standard renderer for a text of the array
    and a text of the item as long as the switch generateComment is off.
    The items after the first never matter. *)
Theorem array_renders_first_item (rt : Runtime) (first : json) (rest : list json) :
  Array_isArray first = false ->
  (forall this className settings,
      ModelNewGenerator.generate rt this className (JArray (first :: rest)) settings
      = ModelNewGenerator.generate rt this className first settings)
  /\ (forall this className arrayText itemText,
         JSON_parse rt arrayText = Ok (JArray (first :: rest)) ->
         JSON_parse rt itemText = Ok first ->
         DartGenerator.opt this "generateComment" = false ->
         DartGenerator.generateDartClass rt this className arrayText
         = DartGenerator.generateDartClass rt this className itemText).
Proof.
  intros Hfirst. split.
  - intros this className settings. destruct first; try discriminate Hfirst; reflexivity.
  - intros this className arrayText itemText Harray Hitem Hcomment.
    unfold DartGenerator.generateDartClass, DartGenerator.generateDartClass_try.
    rewrite Harray, Hitem. cbn [bind].
    assert (Hbuild : DartGenerator.buildDartClass rt this className first arrayText
                     = DartGenerator.buildDartClass rt this className first itemText).
    { unfold DartGenerator.buildDartClass, DartGenerator.generateJsonComment.
      now rewrite Hcomment. }
    destruct first; try discriminate Hfirst; now rewrite Hbuild.
Qed.

Lemma array_renders_first_item_witness :
  ModelNewGenerator.generate ReferenceRuntime.runtime ModelNewGenerator.new "User"
    (JArray [ann; JNull]) ∅
  = ModelNewGenerator.generate ReferenceRuntime.runtime ModelNewGenerator.new "User" ann ∅
  /\ DartGenerator.generateDartClass ReferenceRuntime.runtime DartGenerator.new "User"
       two_items_text
     = DartGenerator.generateDartClass ReferenceRuntime.runtime DartGenerator.new "User" id_text.
Proof.
  destruct (array_renders_first_item ReferenceRuntime.runtime ann [JNull] eq_refl)
    as [Hnested _].
  destruct (array_renders_first_item ReferenceRuntime.runtime
              (JObject [("id", JNumber one)]) [JObject [("x", JNumber two)]] eq_refl)
    as [_ Hstandard].
  split; [apply Hnested|].
  apply Hstandard; vm_compute; reflexivity.
Defined.

(** X7: the value that the literal deserialization factory falls back to
    under useDefaultValue, for the type inferred from a sample value: the
    empty string, [false], [0] or [0.0] for the primitives, and [null] for a
    [null], an array or an object, although their fields are declared
    non-nullable. *)
Theorem default_value_of_inferred_type (this : DartGenerator.t) (value : json) :
  DartGenerator.getDefaultValue (DartGenerator.inferDartType this value)
  = match value with
    | JString _ => "''"
    | JBool _ => "false"
    | JNumber n =>
        if DartGenerator.opt this "useNum" then "0"
        else if Number_isInteger n then "0" else "0.0"
    | JNull | JArray _ | JObject _ => "null"
    end.
Proof.
  destruct value as [| b | n | str | [|first rest] | fields]; simpl; try reflexivity.
  destruct (DartGenerator.opt this "useNum"); [reflexivity|].
  now destruct (Number_isInteger n).
Qed.

(** ** Sample values stay out of the class text *)

Lemma sections_erase this className properties jsonComment :
  DartGenerator.sections this className properties jsonComment
  = DartGenerator.sections this className (map erase properties) jsonComment.
Proof.
  unfold DartGenerator.sections, DartGenerator.generateFields,
    DartGenerator.generateConstructor, DartGenerator.constructorParams,
    DartGenerator.generateFromJson, DartGenerator.generateToJson,
    DartGenerator.generateCopyWith, DartGenerator.generateToString.
  now rewrite !List.map_map.
Qed.

Lemma erase_extractEntries this entries entries' :
  map fst entries = map fst entries' ->
  map (fun entry => DartGenerator.inferDartType this (snd entry)) entries
  = map (fun entry => DartGenerator.inferDartType this (snd entry)) entries' ->
  map erase (DartGenerator.extractEntries this entries)
  = map erase (DartGenerator.extractEntries this entries').
Proof.
  revert entries'.
  induction entries as [|[key value] rest IH]; intros [|[key' value'] rest'] Hk Ht;
    try discriminate; [reflexivity|].
  simpl in Hk, Ht. injection Hk as <- Hk. injection Ht as Ht0 Ht.
  simpl. destruct (DartGenerator.isValidDartVariableName key); simpl.
  - unfold erase at 1 3. simpl. rewrite Ht0. f_equal. now apply IH.
  - now apply IH.
Qed.

(** X8: with the switch generateComment off, the text of the standard
    renderer depends on the sample only through its keys and the types
    inferred for their values: two samples with the same keys and the same
    inferred types give the same text, whatever the values are. *)
Theorem standard_text_ignores_values (rt : Runtime) (this : DartGenerator.t)
    (className : string) (entries entries' : list (string * json))
    (originalJson originalJson' : string) :
  map fst entries = map fst entries' ->
  map (fun entry => DartGenerator.inferDartType this (snd entry)) entries
  = map (fun entry => DartGenerator.inferDartType this (snd entry)) entries' ->
  DartGenerator.opt this "generateComment" = false ->
  DartGenerator.buildDartClass rt this className (JObject entries) originalJson
  = DartGenerator.buildDartClass rt this className (JObject entries') originalJson'.
Proof.
  intros Hk Ht Hcomment.
  unfold DartGenerator.buildDartClass, DartGenerator.extractProperties,
    DartGenerator.generateJsonComment.
  rewrite Hcomment. cbn [bind Object_entries negb].
  rewrite (sections_erase this className (DartGenerator.extractEntries this entries)),
    (sections_erase this className (DartGenerator.extractEntries this entries')).
  now rewrite (erase_extractEntries this entries entries' Hk Ht).
Qed.

Lemma standard_text_ignores_values_witness :
  DartGenerator.buildDartClass ReferenceRuntime.runtime DartGenerator.new "User"
    (JObject ann_one) "a"
  = DartGenerator.buildDartClass ReferenceRuntime.runtime DartGenerator.new "User"
      (JObject bob_seven) "b".
Proof.
  apply (standard_text_ignores_values ReferenceRuntime.runtime DartGenerator.new "User"
           ann_one bob_seven "a" "b"); reflexivity.
Defined.

Lemma categorize_kind acc key value value' :
  kind value = kind value' ->
  ModelNewGenerator.categorize acc (key, value) = ModelNewGenerator.categorize acc (key, value').
Proof.
  intros H. unfold ModelNewGenerator.categorize.
  destruct (negb (ModelNewGenerator.isValidDartVariableName key)); [reflexivity|].
  destruct value as [| b | n | str | items | fields],
           value' as [| b' | n' | str' | items' | fields']; simpl in *;
    try destruct (Number_isInteger n); try destruct (Number_isInteger n');
    try discriminate H; reflexivity.
Qed.

Lemma assignment_kind key value value' :
  kind value = kind value' ->
  ModelNewGenerator.assignment (key, value) = ModelNewGenerator.assignment (key, value').
Proof.
  intros H. unfold ModelNewGenerator.assignment.
  destruct (negb (ModelNewGenerator.isValidDartVariableName key)); [reflexivity|].
  destruct value as [| b | n | str | items | fields],
           value' as [| b' | n' | str' | items' | fields']; simpl in *;
    try destruct (Number_isInteger n); try destruct (Number_isInteger n');
    try discriminate H; reflexivity.
Qed.

Lemma fold_categorize_shape entries entries' :
  same_shape entries entries' ->
  forall acc, fold_left ModelNewGenerator.categorize entries acc
              = fold_left ModelNewGenerator.categorize entries' acc.
Proof.
  induction 1 as [|[key value] [key' value'] rest rest' [Hk Hv] _ IH]; intros acc;
    [reflexivity|].
  simpl in Hk, Hv. subst key'. cbn [fold_left].
  now rewrite (categorize_kind acc key value value' Hv), IH.
Qed.

Lemma map_assignment_shape entries entries' :
  same_shape entries entries' ->
  map ModelNewGenerator.assignment entries = map ModelNewGenerator.assignment entries'.
Proof.
  induction 1 as [|[key value] [key' value'] rest rest' [Hk Hv] _ IH]; [reflexivity|].
  simpl in Hk, Hv. subst key'. cbn [map].
  now rewrite (assignment_kind key value value' Hv), IH.
Qed.

Lemma toJsonAssignments_shape entries entries' :
  same_shape entries entries' ->
  ModelNewGenerator.toJsonAssignments entries = ModelNewGenerator.toJsonAssignments entries'.
Proof.
  rewrite !toJsonAssignments_lines.
  induction 1 as [|[key value] [key' value'] rest rest' [Hk Hv] _ IH]; [reflexivity|].
  simpl in Hk, Hv. subst key'. simpl.
  destruct (ModelNewGenerator.isValidDartVariableName key); [|exact IH].
  simpl. rewrite IH. f_equal. f_equal.
  destruct value as [| b | n | str | items | fields],
           value' as [| b' | n' | str' | items' | fields']; simpl in *;
    try destruct (Number_isInteger n); try destruct (Number_isInteger n');
    try discriminate Hv; reflexivity.
Qed.

(** X9: unless it appends its comment, the nested renderer looks at a
    sample value only to tell a string, a boolean, an integer, another
    number, a nested object and the rest apart: two samples with the same
    keys and values of the same kinds give the same text. *)
Theorem nested_text_ignores_values (rt : Runtime) (this : ModelNewGenerator.t)
    (className : string) (entries entries' : list (string * json))
    (settings : gmap string bool) :
  same_shape entries entries' ->
  ModelNewGenerator.setting settings "generateJsonComment" = false ->
  ModelNewGenerator.generate rt this className (JObject entries) settings
  = ModelNewGenerator.generate rt this className (JObject entries') settings.
Proof.
  intros Hshape Hcomment.
  unfold ModelNewGenerator.generate, ModelNewGenerator.generateProperties,
    ModelNewGenerator.generateFromJson, ModelNewGenerator.generateToJson.
  cbn [bind Object_entries]. rewrite Hcomment, !fold_left_append.
  now rewrite (fold_categorize_shape _ _ Hshape), (map_assignment_shape _ _ Hshape),
    (toJsonAssignments_shape _ _ Hshape).
Qed.

Lemma nested_text_ignores_values_witness :
  ModelNewGenerator.generate ReferenceRuntime.runtime ModelNewGenerator.new "User"
    (JObject bob) ∅
  = ModelNewGenerator.generate ReferenceRuntime.runtime ModelNewGenerator.new "User"
      (JObject ann_tags) ∅.
Proof.
  apply (nested_text_ignores_values ReferenceRuntime.runtime ModelNewGenerator.new "User"
           bob ann_tags ∅).
  - repeat constructor.
  - reflexivity.
Defined.

(** ** Declarations and assignments of the nested renderer *)

Lemma assignment_declaring entry :
  nonempty (ModelNewGenerator.assignment entry) = declaring entry.
Proof.
  destruct entry as [key value]. unfold ModelNewGenerator.assignment, declaring.
  simpl fst. simpl snd.
  destruct (ModelNewGenerator.isValidDartVariableName key); [|reflexivity].
  destruct value as [| b | n | str | items | fields]; simpl; try reflexivity.
  now destruct (Number_isInteger n).
Qed.

Lemma declared_count_categorize acc entry :
  declared_count (ModelNewGenerator.categorize acc entry)
  = declared_count acc + (if declaring entry then 1 else 0).
Proof.
  destruct entry as [key value]. unfold ModelNewGenerator.categorize, declaring, declared_count.
  simpl fst. simpl snd.
  destruct (ModelNewGenerator.isValidDartVariableName key); simpl; [|lia].
  destruct value as [| b | n | str | items | fields]; simpl;
    try destruct (Number_isInteger n); simpl; rewrite ?length_app; simpl; lia.
Qed.

Lemma declared_count_fold entries : forall acc,
  declared_count (fold_left ModelNewGenerator.categorize entries acc)
  = declared_count acc + List.length (List.filter declaring entries).
Proof.
  induction entries as [|entry rest IH]; intros acc; cbn [fold_left List.filter].
  - simpl. lia.
  - rewrite IH, declared_count_categorize. destruct (declaring entry); simpl; lia.
Qed.

(** X10: the nested renderer declares a field for an entry of the sample
    exactly when it assigns it in the deserialization method, namely when
    the key is valid and the value is neither [null] nor an array; the
    number of declared fields is the number of such entries. *)
Theorem declared_iff_assigned (entries : list (string * json)) :
  (forall entry, nonempty (ModelNewGenerator.assignment entry) = declaring entry)
  /\ (forall acc entry,
         ModelNewGenerator.categorize acc entry = acc <-> declaring entry = false)
  /\ declared_count (fold_left ModelNewGenerator.categorize entries ModelNewGenerator.no_props)
     = List.length (List.filter declaring entries)
  /\ List.length (List.filter (fun entry => nonempty (ModelNewGenerator.assignment entry)) entries)
     = List.length (List.filter declaring entries).
Proof.
  split; [exact assignment_declaring|]. split; [|split].
  - intros acc entry. pose proof (declared_count_categorize acc entry) as Hcount. split.
    + intros H. rewrite H in Hcount. destruct (declaring entry); [lia|reflexivity].
    + intros H. destruct entry as [key value].
      unfold ModelNewGenerator.categorize, declaring in *. simpl fst in H. simpl snd in H.
      destruct (ModelNewGenerator.isValidDartVariableName key); [|reflexivity].
      destruct value; simpl in *; try discriminate H; reflexivity.
  - now rewrite declared_count_fold.
  - f_equal. apply List.filter_ext. exact assignment_declaring.
Qed.

Lemma trimEnd_keeps c rest : is_space c = false -> trimEnd (String c rest) <> EmptyString.
Proof. intros H. simpl. destruct (trimEnd rest); [rewrite H|]; discriminate. Qed.

Lemma late_head type names :
  names <> [] -> exists rest, ModelNewGenerator.late type names = "  late " +:+ rest.
Proof.
  intros H. destruct names as [|name names]; [congruence|].
  unfold ModelNewGenerator.late. eexists. reflexivity.
Qed.

Lemma declarations_head c :
  declared_count c <> 0 -> exists rest, ModelNewGenerator.declarations c = "  late " +:+ rest.
Proof.
  unfold declared_count, ModelNewGenerator.declarations. intros H.
  destruct (ModelNewGenerator.stringProps c) as [|x1 l1] eqn:E1.
  2:{ destruct (late_head "String" (x1 :: l1)) as [rest ->]; [discriminate|].
      eexists. rewrite append_assoc. reflexivity. }
  destruct (ModelNewGenerator.boolProps c) as [|x2 l2] eqn:E2.
  2:{ destruct (late_head "bool" (x2 :: l2)) as [rest ->]; [discriminate|].
      eexists. rewrite append_nil, append_assoc. reflexivity. }
  destruct (ModelNewGenerator.intProps c) as [|x3 l3] eqn:E3.
  2:{ destruct (late_head "int" (x3 :: l3)) as [rest ->]; [discriminate|].
      eexists. rewrite !append_nil, append_assoc. reflexivity. }
  destruct (ModelNewGenerator.doubleProps c) as [|x4 l4] eqn:E4.
  2:{ destruct (late_head "double" (x4 :: l4)) as [rest ->]; [discriminate|].
      eexists. rewrite !append_nil, append_assoc. reflexivity. }
  destruct (ModelNewGenerator.objectProps c) as [|x5 l5] eqn:E5; [simpl in H; lia|].
  rewrite (fold_left_append (fun prop => "  late " +:+ prop +:+ ";" +:+ nl)).
  change (ModelNewGenerator.late "String" []) with EmptyString.
  change (ModelNewGenerator.late "bool" []) with EmptyString.
  change (ModelNewGenerator.late "int" []) with EmptyString.
  change (ModelNewGenerator.late "double" []) with EmptyString.
  rewrite !append_nil. unfold join. cbn [map String.concat].
  destruct (map (fun prop => "  late " +:+ prop +:+ ";" +:+ nl) l5);
    rewrite ?append_assoc; eexists; reflexivity.
Qed.

(** X11: the block of field declarations is empty exactly when no entry of
    the sample has a valid key and a value that is neither [null] nor an
    array; an empty object is one such sample. *)
Theorem generateProperties_empty_iff (entries : list (string * json)) :
  ModelNewGenerator.generateProperties (JObject entries) = Ok EmptyString
  <-> List.filter declaring entries = [].
Proof.
  unfold ModelNewGenerator.generateProperties. cbn [bind Object_entries].
  pose proof (declared_count_fold entries ModelNewGenerator.no_props) as Hcount.
  change (declared_count ModelNewGenerator.no_props) with 0 in Hcount. simpl in Hcount.
  split.
  - intros H. injection H as H.
    destruct (List.filter declaring entries) as [|entry rest]; [reflexivity|].
    destruct (declarations_head
                (fold_left ModelNewGenerator.categorize entries ModelNewGenerator.no_props))
      as [text Htext]; [rewrite Hcount; discriminate|].
    rewrite Htext in H. unfold trim in H.
    change (trimStart ("  late " +:+ text)) with (String "l" ("ate " +:+ text)) in H.
    now apply trimEnd_keeps in H.
  - intros H. rewrite H in Hcount. simpl in Hcount.
    unfold declared_count in Hcount.
    unfold ModelNewGenerator.declarations.
    destruct (fold_left ModelNewGenerator.categorize entries ModelNewGenerator.no_props)
      as [[|] [|] [|] [|] [|]]; simpl in Hcount; try lia. reflexivity.
Qed.

(** X12: when no key of the sample is valid, the serialization map holds
    the entry for [id] followed by a line that is a lone comma: the comma
    that ends the joined entries is written even when there are none. *)
Theorem generateToJson_without_valid_key (entries : list (string * json)) :
  Forall (fun entry => ModelNewGenerator.isValidDartVariableName (fst entry) = false) entries ->
  ModelNewGenerator.generateToJson (JObject entries) = Ok id_only_map.
Proof.
  intros H. unfold ModelNewGenerator.generateToJson. cbn [bind Object_entries].
  assert (Hnone : ModelNewGenerator.toJsonAssignments entries = []).
  { rewrite toJsonAssignments_lines.
    induction H as [|entry rest Hentry _ IH]; [reflexivity|].
    cbn [List.filter]. now rewrite Hentry. }
  rewrite Hnone. reflexivity.
Qed.

Lemma generateToJson_without_valid_key_witness :
  ModelNewGenerator.generateToJson (JObject [("first-name", JString "Ann"); ("class", JNull)])
  = Ok id_only_map.
Proof.
  apply (generateToJson_without_valid_key [("first-name", JString "Ann"); ("class", JNull)]).
  repeat constructor.
Defined.

(** ** The lines of the trailing comment *)

(** [s.split('\n').join('\n')] is [s]. *)
Lemma join_split_lines s : join nl (split_lines s) = s.
Proof.
  unfold join. induction s as [|c rest IH]; [reflexivity|].
  simpl. destruct (Ascii.eqb c "010") eqn:E.
  - apply Ascii.eqb_eq in E. subst c.
    pose proof (split_lines_not_nil rest) as Hne.
    destruct (split_lines rest) as [|line more]; [congruence|].
    change (String.concat nl (EmptyString :: line :: more))
      with (nl +:+ String.concat nl (line :: more)).
    now rewrite IH.
  - destruct (split_lines rest) as [|line more] eqn:Hsplit.
    + now apply split_lines_not_nil in Hsplit.
    + rewrite <- IH. destruct more; reflexivity.
Qed.

Lemma uncomment_commented (lines : list string) :
  map uncomment (map (fun line => "// " +:+ line) lines) = lines.
Proof.
  rewrite List.map_map. rewrite <- (List.map_id lines) at 2. now apply List.map_ext.
Qed.

(** X13: with the switch generateComment on, the trailing comment of the
    standard renderer is two line feeds and then the pretty-printed JSON,
    line by line, each line behind [// ]: removing that prefix from the
    lines gives the pretty-printed JSON back, and no line of it is left
    uncommented, whatever the JSON holds. *)
Theorem comment_lines (rt : Runtime) (this : DartGenerator.t)
    (originalJson : string) (parsed : json) :
  DartGenerator.opt this "generateComment" = true ->
  JSON_parse rt originalJson = Ok parsed ->
  exists lines,
    DartGenerator.generateJsonComment rt this originalJson = Ok (nl +:+ nl +:+ join nl lines)
    /\ List.length lines = List.length (split_lines (JSON_stringify rt parsed))
    /\ Forall (fun line => strip_prefix "// " line <> None) lines
    /\ join nl (map uncomment lines) = JSON_stringify rt parsed.
Proof.
  intros Hon Hparse.
  exists (map (fun line => "// " +:+ line) (split_lines (JSON_stringify rt parsed))).
  split; [|split; [|split]].
  - unfold DartGenerator.generateJsonComment. now rewrite Hon, Hparse.
  - apply length_map.
  - apply List.Forall_forall. intros line Hin.
    apply List.in_map_iff in Hin as (original & <- & _). discriminate.
  - now rewrite uncomment_commented, join_split_lines.
Qed.

Lemma comment_lines_witness :
  exists lines,
    DartGenerator.generateJsonComment ReferenceRuntime.runtime
      (DartGenerator.setOptions {[ "generateComment" := true ]} DartGenerator.new) id_text
    = Ok (nl +:+ nl +:+ join nl lines)
    /\ List.length lines
       = List.length (split_lines (JSON_stringify ReferenceRuntime.runtime
                                (JObject [("id", JNumber one)])))
    /\ Forall (fun line => strip_prefix "// " line <> None) lines
    /\ join nl (map uncomment lines)
       = JSON_stringify ReferenceRuntime.runtime (JObject [("id", JNumber one)]).
Proof.
  apply (comment_lines ReferenceRuntime.runtime
           (DartGenerator.setOptions {[ "generateComment" := true ]} DartGenerator.new)
           id_text (JObject [("id", JNumber one)])); vm_compute; reflexivity.
Defined.

(** ** The history of the main script *)

Lemma filter_sublist {A} (keep : A -> bool) (l : list A) : List.filter keep l `sublist_of` l.
Proof.
  induction l as [|x l IH]; simpl; [constructor|].
  destruct (keep x); now constructor.
Qed.

Lemma saveItem_unfold item items :
  JsonToDartConverter.saveItem item items
  = item :: take 19 (List.filter
                       (fun other => negb (String.eqb (JsonToDartConverter.className other)
                                                      (JsonToDartConverter.className item)))
                       items).
Proof. reflexivity. Qed.

Lemma saveItem_others item items other :
  In other (take 19 (List.filter
                       (fun other => negb (String.eqb (JsonToDartConverter.className other)
                                                      (JsonToDartConverter.className item)))
                       items)) ->
  In other items
  /\ JsonToDartConverter.className other <> JsonToDartConverter.className item.
Proof.
  intros Hin. apply list_elem_of_In in Hin. apply elem_of_take in Hin as (i & Hin & _).
  apply list_elem_of_lookup_2, list_elem_of_In, List.filter_In in Hin as [Hin Hne].
  split; [exact Hin|]. apply negb_true_iff, String.eqb_neq in Hne. exact Hne.
Qed.

(** X14: after [saveToHistory] the history holds at most twenty items; the
    saved item comes first and no other item has its class name; the other
    items are items of the old history in their old order; and when the old
    history had fewer than twenty items, every item of another class name
    is still there. *)
Theorem saveItem_front (item : JsonToDartConverter.historyItem)
    (items : list JsonToDartConverter.historyItem) :
  exists others,
    JsonToDartConverter.saveItem item items = item :: others
    /\ List.length (JsonToDartConverter.saveItem item items) <= 20
    /\ Forall (fun other => JsonToDartConverter.className other
                            <> JsonToDartConverter.className item) others
    /\ others `sublist_of` items
    /\ (List.length items < 20 ->
        forall other, In other items ->
          JsonToDartConverter.className other <> JsonToDartConverter.className item ->
          In other others).
Proof.
  eexists. split; [apply saveItem_unfold|]. split; [|split; [|split]].
  - rewrite saveItem_unfold. simpl List.length. rewrite length_take. lia.
  - apply List.Forall_forall. intros other Hin. now apply saveItem_others in Hin.
  - etransitivity; [apply sublist_take|apply filter_sublist].
  - intros Hroom other Hin Hne. rewrite take_ge.
    + apply List.filter_In. split; [exact Hin|].
      now apply negb_true_iff, String.eqb_neq.
    + pose proof (List.filter_length_le
                    (fun other => negb (String.eqb (JsonToDartConverter.className other)
                                                   (JsonToDartConverter.className item)))
                    items). lia.
Qed.

Lemma saveItem_front_witness :
  exists others,
    JsonToDartConverter.saveItem order_again two_saved = order_again :: others
    /\ In {| JsonToDartConverter.className := "User";
             JsonToDartConverter.jsonString := "{}";
             JsonToDartConverter.timestamp := 1 |} others.
Proof.
  destruct (saveItem_front order_again two_saved) as (others & Heq & _ & _ & _ & Hroom).
  exists others. split; [exact Heq|].
  apply Hroom; [simpl; lia|simpl; tauto|discriminate].
Defined.

Lemma NoDup_sublist_map {A B} (f : A -> B) (l1 l2 : list A) :
  l1 `sublist_of` l2 -> NoDup (map f l2) -> NoDup (map f l1).
Proof.
  intros Hsub Hnd. eapply sublist_NoDup; [exact Hnd|].
  change (map f l1) with (f <$> l1). change (map f l2) with (f <$> l2).
  now apply fmap_sublist.
Qed.

(** X15: [saveToHistory] keeps the class names of the history pairwise
    distinct: starting from a history without a repeated class name, and in
    particular from the empty one, no class name is ever listed twice. *)
Theorem saveItem_distinct_names (item : JsonToDartConverter.historyItem)
    (items : list JsonToDartConverter.historyItem) :
  NoDup (map JsonToDartConverter.className items) ->
  NoDup (map JsonToDartConverter.className (JsonToDartConverter.saveItem item items)).
Proof.
  intros Hnd. rewrite saveItem_unfold. cbn [map]. apply NoDup_cons. split.
  - intros Hin. apply list_elem_of_In, List.in_map_iff in Hin as (other & Hname & Hin).
    apply saveItem_others in Hin as [_ Hne]. congruence.
  - eapply NoDup_sublist_map; [|exact Hnd].
    etransitivity; [apply sublist_take|apply filter_sublist].
Qed.

Lemma saveItem_distinct_names_witness :
  NoDup (map JsonToDartConverter.className
                (JsonToDartConverter.saveItem order_again two_saved)).
Proof.
  apply (saveItem_distinct_names order_again two_saved).
  apply NoDup_ListNoDup. repeat constructor; simpl; intuition discriminate.
Defined.

(** ** A conversion of the main script *)

(** What the generator called by [convert] returns or throws, told from
    the value it renders. *)
Lemma generated_cases rt this name parsed :
  let modelNew := ModelNewGenerator.setting (JsonToDartConverter.checkboxes this) "modelNew" in
  match rendered rt modelNew parsed with
  | Throw e =>
      exists e', generated rt this name parsed = Throw e'
                 /\ "Error: " +:+ message rt e' = failure modelNew (message rt e)
  | Ok value =>
      match template value with
      | None =>
          exists e', generated rt this name parsed = Throw e'
                     /\ "Error: " +:+ message rt e'
                        = failure modelNew "Cannot generate class from empty array"
      | Some JNull =>
          exists e', generated rt this name parsed = Throw e'
                     /\ "Error: " +:+ message rt e' = failure modelNew (nullish_message rt)
      | Some _ => exists text, generated rt this name parsed = Ok text
      end
  end.
Proof.
  intros modelNew. unfold generated, rendered. subst modelNew.
  destruct (ModelNewGenerator.setting (JsonToDartConverter.checkboxes this) "modelNew").
  - destruct parsed as [| b | n | str | [|first rest] | fields]; cbn [template];
      try (eexists; reflexivity); try (eexists; split; reflexivity).
    destruct first; try (eexists; reflexivity); eexists; split; reflexivity.
  - unfold DartGenerator.generateDartClass, DartGenerator.generateDartClass_try.
    destruct (JSON_parse rt (JSON_stringify rt parsed)) as [value|e] eqn:Hparse; cbn [bind].
    2:{ eexists; split; reflexivity. }
    assert (Hok : forall jsonObj, jsonObj <> JNull ->
               exists text,
                 match DartGenerator.buildDartClass rt
                         (DartGenerator.setOptions (JsonToDartConverter.checkboxes this)
                            (JsonToDartConverter.dartGenerator this))
                         name jsonObj (JSON_stringify rt parsed) with
                 | Ok text => Ok text
                 | Throw error => Throw (Error ("Invalid JSON: " +:+ message rt error))
                 end = Ok text).
    { intros jsonObj Hne.
      destruct (buildDartClass_succeeds rt
                  (DartGenerator.setOptions (JsonToDartConverter.checkboxes this)
                     (JsonToDartConverter.dartGenerator this))
                  name jsonObj (JSON_stringify rt parsed) value Hparse Hne)
        as [text ->]. now exists text. }
    destruct value as [| b | n | str | [|first rest] | fields]; cbn [template];
      try (apply Hok; discriminate); try (eexists; split; reflexivity).
    destruct first; try (apply Hok; discriminate). eexists; split; reflexivity.
Qed.

(** X16: on a page whose two fields hold ASCII text, [convert] ends with
    the notification that the inputs decide: the request for a class name
    when the trimmed name is empty, else the request for JSON data when the
    trimmed text is empty, else the message of [JSON.parse] when it rejects
    the text, else the error of the generator when the rendered value is
    the empty array, is [null] or, for the standard renderer, cannot be
    read back, and the success in every other case.  The class name and the
    check boxes are never changed; the JSON field holds the pretty-printed
    text as soon as the text parses, even when the generator fails.  After
    each of the errors the history and the output are as before; after the
    success the output is the text of the generator chosen by modelNew,
    called for the trimmed class name, and the history was saved with that
    name and the pretty-printed text.  (The writes to [localStorage] are
    outside the model: should one throw, the page shows its error instead
    of the success; the fields, the output and the history are as stated
    all the same.) *)
Theorem convert_outcome (rt : Runtime) (now : Z) (this : JsonToDartConverter.t) :
  ascii_text (JsonToDartConverter.classNameInput this) = true ->
  ascii_text (JsonToDartConverter.jsonInput this) = true ->
  let after := JsonToDartConverter.convert rt now this in
  let name := trim (JsonToDartConverter.classNameInput this) in
  JsonToDartConverter.notification after = Some (verdict rt this)
  /\ JsonToDartConverter.classNameInput after = JsonToDartConverter.classNameInput this
  /\ JsonToDartConverter.checkboxes after = JsonToDartConverter.checkboxes this
  /\ JsonToDartConverter.jsonInput after = pretty rt this
  /\ match snd (verdict rt this) with
     | JsonToDartConverter.error =>
         JsonToDartConverter.history after = JsonToDartConverter.history this
         /\ JsonToDartConverter.dartOutput after = JsonToDartConverter.dartOutput this
     | JsonToDartConverter.success =>
         exists parsed,
           JSON_parse rt (trim (JsonToDartConverter.jsonInput this)) = Ok parsed
           /\ generated rt this name parsed = Ok (JsonToDartConverter.dartOutput after)
           /\ JsonToDartConverter.history after
              = JsonToDartConverter.saveItem
                  {| JsonToDartConverter.className := name;
                     JsonToDartConverter.jsonString := JSON_stringify rt parsed;
                     JsonToDartConverter.timestamp := now |}
                  (JsonToDartConverter.history this)
     end.
Proof.
  intros _ _ after name. subst after.
  unfold JsonToDartConverter.convert, verdict, pretty, nonempty. fold name.
  destruct (String.eqb name "") eqn:Hname; cbn [negb andb].
  { cbn. repeat split; reflexivity. }
  destruct (String.eqb (trim (JsonToDartConverter.jsonInput this)) "") eqn:Hjson;
    cbn [negb andb].
  { cbn. repeat split; reflexivity. }
  destruct (JSON_parse rt (trim (JsonToDartConverter.jsonInput this))) as [parsed|e] eqn:Hparse.
  2:{ cbn. repeat split; reflexivity. }
  pose proof (generated_cases rt this name parsed) as Hcases. cbv zeta in Hcases.
  unfold JsonToDartConverter.convert_parsed, JsonToDartConverter.getCurrentSettings.
  cbn [JsonToDartConverter.checkboxes].
  unfold generated in Hcases |- *.
  destruct (ModelNewGenerator.setting (JsonToDartConverter.checkboxes this) "modelNew");
    cbn [JsonToDartConverter.modelNewGenerator JsonToDartConverter.dartGenerator] in *.
  all: destruct (rendered rt _ parsed) as [value|e];
    [destruct (template value) as [[]|]|];
    first [ destruct Hcases as (e' & -> & <-); cbn; repeat split; reflexivity
          | destruct Hcases as (text & Hgen); rewrite Hgen; cbn;
            repeat split; try reflexivity;
            exists parsed; repeat split; try reflexivity; exact Hgen ].
Qed.

Lemma convert_outcome_witness :
  JsonToDartConverter.notification
    (JsonToDartConverter.convert ReferenceRuntime.runtime 7
       (page " User " id_text all_defaults []))
  = Some ("Dart class generated successfully!", JsonToDartConverter.success)
  /\ JsonToDartConverter.notification
       (JsonToDartConverter.convert ReferenceRuntime.runtime 7
          (page "User" "[]" {[ "modelNew" := true ]} two_saved))
     = Some ("Error: Cannot generate class from empty array", JsonToDartConverter.error)
  /\ JsonToDartConverter.history
       (JsonToDartConverter.convert ReferenceRuntime.runtime 7
          (page "User" "[]" {[ "modelNew" := true ]} two_saved))
     = two_saved.
Proof.
  split; [|split].
  - exact (proj1 (convert_outcome ReferenceRuntime.runtime 7
                    (page " User " id_text all_defaults []) eq_refl eq_refl)).
  - exact (proj1 (convert_outcome ReferenceRuntime.runtime 7
                    (page "User" "[]" {[ "modelNew" := true ]} two_saved) eq_refl eq_refl)).
  - exact (proj1 (proj2 (proj2 (proj2 (proj2
             (convert_outcome ReferenceRuntime.runtime 7
                (page "User" "[]" {[ "modelNew" := true ]} two_saved) eq_refl eq_refl)))))).
Defined.

Lemma setCurrentClassName_instances className this that :
  model_instance this -> model_instance that ->
  ModelNewGenerator.setCurrentClassName className this
  = ModelNewGenerator.setCurrentClassName className that.
Proof.
  intros Hthis Hthat. unfold ModelNewGenerator.setCurrentClassName.
  now rewrite (model_instance_baseImports this Hthis),
    (model_instance_baseImports that Hthat).
Qed.

(** X17: what [convert] shows does not depend on earlier conversions.  Two
    pages with the same class name, the same JSON text and the same check
    boxes, all nine switches of the standard renderer among them, end with
    the same notification and the same input text, and after a success
    with the same output, whatever their generators rendered before and
    whatever their histories hold. *)
Theorem convert_independent_of_past (rt : Runtime) (now : Z)
    (this that : JsonToDartConverter.t) :
  JsonToDartConverter.classNameInput this = JsonToDartConverter.classNameInput that ->
  JsonToDartConverter.jsonInput this = JsonToDartConverter.jsonInput that ->
  JsonToDartConverter.checkboxes this = JsonToDartConverter.checkboxes that ->
  complete (JsonToDartConverter.checkboxes this) ->
  model_instance (JsonToDartConverter.modelNewGenerator this) ->
  model_instance (JsonToDartConverter.modelNewGenerator that) ->
  JsonToDartConverter.notification (JsonToDartConverter.convert rt now this)
  = JsonToDartConverter.notification (JsonToDartConverter.convert rt now that)
  /\ JsonToDartConverter.jsonInput (JsonToDartConverter.convert rt now this)
     = JsonToDartConverter.jsonInput (JsonToDartConverter.convert rt now that)
  /\ (forall text,
         JsonToDartConverter.notification (JsonToDartConverter.convert rt now this)
         = Some (text, JsonToDartConverter.success) ->
         JsonToDartConverter.dartOutput (JsonToDartConverter.convert rt now this)
         = JsonToDartConverter.dartOutput (JsonToDartConverter.convert rt now that)).
Proof.
  destruct this as [dg mg items name json checked output shown],
           that as [dg' mg' items' name' json' checked' output' shown'].
  cbn [JsonToDartConverter.classNameInput JsonToDartConverter.jsonInput
       JsonToDartConverter.checkboxes JsonToDartConverter.modelNewGenerator].
  intros <- <- <- Hcomplete Hmg Hmg'.
  unfold JsonToDartConverter.convert.
  cbn [JsonToDartConverter.classNameInput JsonToDartConverter.jsonInput].
  destruct (negb (nonempty (trim name))); [simpl; repeat split; intros; discriminate|].
  destruct (negb (nonempty (trim json))); [simpl; repeat split; intros; discriminate|].
  destruct (JSON_parse rt (trim json)) as [parsed|e];
    [|simpl; repeat split; intros; discriminate].
  unfold JsonToDartConverter.convert_parsed, JsonToDartConverter.getCurrentSettings.
  cbn [JsonToDartConverter.checkboxes JsonToDartConverter.modelNewGenerator
       JsonToDartConverter.dartGenerator].
  destruct (ModelNewGenerator.setting checked "modelNew");
    cbn [JsonToDartConverter.modelNewGenerator JsonToDartConverter.dartGenerator].
  - rewrite (setCurrentClassName_instances (trim name) mg mg' Hmg Hmg').
    destruct (ModelNewGenerator.generate rt _ (trim name) parsed checked);
      simpl; repeat split; intros; discriminate.
  - rewrite (generateDartClass_agree rt (DartGenerator.setOptions checked dg)
               (DartGenerator.setOptions checked dg') (trim name) (JSON_stringify rt parsed)
               (setOptions_complete checked dg dg' Hcomplete)).
    destruct (DartGenerator.generateDartClass rt _ (trim name) _);
      simpl; repeat split; intros; discriminate.
Qed.

Lemma convert_independent_of_past_witness :
  let this := page " User " id_text all_defaults [] in
  let that := used_page " User " id_text all_defaults in
  JsonToDartConverter.notification (JsonToDartConverter.convert ReferenceRuntime.runtime 5 this)
  = JsonToDartConverter.notification (JsonToDartConverter.convert ReferenceRuntime.runtime 5 that)
  /\ JsonToDartConverter.jsonInput (JsonToDartConverter.convert ReferenceRuntime.runtime 5 this)
     = JsonToDartConverter.jsonInput (JsonToDartConverter.convert ReferenceRuntime.runtime 5 that)
  /\ (forall text,
         JsonToDartConverter.notification
           (JsonToDartConverter.convert ReferenceRuntime.runtime 5 this)
         = Some (text, JsonToDartConverter.success) ->
         JsonToDartConverter.dartOutput
           (JsonToDartConverter.convert ReferenceRuntime.runtime 5 this)
         = JsonToDartConverter.dartOutput
             (JsonToDartConverter.convert ReferenceRuntime.runtime 5 that)).
Proof.
  apply (convert_independent_of_past ReferenceRuntime.runtime 5
           (page " User " id_text all_defaults []) (used_page " User " id_text all_defaults));
    try reflexivity.
  - exact all_defaults_complete.
  - apply instance_new.
  - apply instance_set, instance_new.
Defined.

Example convert_user :
  let after :=
    JsonToDartConverter.convert ReferenceRuntime.runtime 5
      (page " User " id_text all_defaults two_saved) in
  JsonToDartConverter.notification after
  = Some ("Dart class generated successfully!", JsonToDartConverter.success)
  /\ map JsonToDartConverter.className (JsonToDartConverter.history after)
     = ["User"; "Order"]
  /\ JsonToDartConverter.jsonInput after
     = "{" +:+ nl +:+ "  " +:+ dq +:+ "id" +:+ dq +:+ ": 1" +:+ nl +:+ "}".
Proof. vm_compute. repeat split. Qed.

Example convert_empty_array :
  let after :=
    JsonToDartConverter.convert ReferenceRuntime.runtime 5
      (page "User" " [] " all_defaults two_saved) in
  JsonToDartConverter.notification after
  = Some ("Error: Invalid JSON: Cannot generate class from empty array",
          JsonToDartConverter.error)
  /\ JsonToDartConverter.history after = two_saved.
Proof. vm_compute. repeat split. Qed.

(** ** Instance state, continued *)

(** X18: with the switch singletonPattern on, the nested renderer does not
    read the class name stored on the instance: every instance returns the
    same text, whatever [setCurrentClassName] stored before. *)
Theorem singleton_ignores_current_class_name (rt : Runtime)
    (this that : ModelNewGenerator.t) (className : string) (jsonData : json)
    (settings : gmap string bool) :
  model_instance this -> model_instance that ->
  ModelNewGenerator.setting settings "singletonPattern" = true ->
  ModelNewGenerator.generate rt this className jsonData settings
  = ModelNewGenerator.generate rt that className jsonData settings.
Proof.
  intros Hthis Hthat Hsingleton.
  unfold ModelNewGenerator.generate, ModelNewGenerator.generateFromJson.
  now rewrite Hsingleton, (model_instance_baseImports this Hthis),
    (model_instance_baseImports that Hthat).
Qed.

Lemma singleton_ignores_current_class_name_witness :
  ModelNewGenerator.generate ReferenceRuntime.runtime ModelNewGenerator.new "User" ann
    {[ "singletonPattern" := true ]}
  = ModelNewGenerator.generate ReferenceRuntime.runtime
      (ModelNewGenerator.setCurrentClassName "Other" ModelNewGenerator.new) "User" ann
      {[ "singletonPattern" := true ]}.
Proof.
  apply (singleton_ignores_current_class_name ReferenceRuntime.runtime).
  - apply instance_new.
  - apply instance_set, instance_new.
  - reflexivity.
Defined.

(** X19: calls of [setOptions] accumulate: two calls amount to one call
    with the two options objects merged, the later one winning on the
    switches that both define; a switch that the later object leaves out
    keeps the value the earlier one gave it, and repeating a call changes
    nothing. *)
Theorem setOptions_accumulates (first second : gmap string bool) (this : DartGenerator.t) :
  DartGenerator.setOptions second (DartGenerator.setOptions first this)
  = DartGenerator.setOptions (second ∪ first) this
  /\ DartGenerator.setOptions first (DartGenerator.setOptions first this)
     = DartGenerator.setOptions first this
  /\ (forall key,
         DartGenerator.opt (DartGenerator.setOptions second (DartGenerator.setOptions first this))
           key
         = match second !! key, first !! key with
           | Some b, _ => b
           | None, Some b => b
           | None, None => DartGenerator.opt this key
           end).
Proof.
  unfold DartGenerator.setOptions, DartGenerator.opt. cbn [DartGenerator.options].
  split; [|split].
  - now rewrite (assoc_L (∪)).
  - now rewrite (assoc_L (∪)), (idemp_L (∪)).
  - intros key. rewrite !lookup_union.
    destruct (second !! key), (first !! key), (DartGenerator.options this !! key); reflexivity.
Qed.

(** ** Converting an item of the history again *)

Lemma trimEnd_idempotent s : trimEnd (trimEnd s) = trimEnd s.
Proof.
  induction s as [|c rest IH]; [reflexivity|].
  simpl. destruct (trimEnd rest) as [|k kept] eqn:Hrest.
  - destruct (is_space c) eqn:Hc; [reflexivity|]. simpl. now rewrite Hc.
  - change (trimEnd (String c (String k kept)))
      with (match trimEnd (String k kept) with
            | EmptyString => if is_space c then EmptyString else String c EmptyString
            | String k' kept' => String c (String k' kept')
            end).
    now rewrite IH.
Qed.

Lemma trimStart_fixed c rest : is_space c = false -> trimStart (String c rest) = String c rest.
Proof. intros H. simpl. now rewrite H. Qed.

Lemma trimEnd_head c rest :
  is_space c = false -> exists kept, trimEnd (String c rest) = String c kept.
Proof.
  intros H. simpl. destruct (trimEnd rest); [rewrite H|]; eexists; reflexivity.
Qed.

Lemma trimStart_head s :
  trimStart s = EmptyString
  \/ exists c rest, trimStart s = String c rest /\ is_space c = false.
Proof.
  induction s as [|c rest IH]; [now left|].
  simpl. destruct (is_space c) eqn:Hc; [exact IH|]. right. eauto.
Qed.

(** [s.trim().trim()] is [s.trim()]. *)
Lemma trim_idempotent s : trim (trim s) = trim s.
Proof.
  unfold trim. destruct (trimStart_head s) as [->|(c & rest & -> & Hc)]; [reflexivity|].
  destruct (trimEnd_head c rest Hc) as [kept Hkept].
  rewrite Hkept, (trimStart_fixed c kept Hc), <- Hkept. apply trimEnd_idempotent.
Qed.

Lemma setOptions_twice opts this :
  DartGenerator.setOptions opts (DartGenerator.setOptions opts this)
  = DartGenerator.setOptions opts this.
Proof.
  unfold DartGenerator.setOptions. cbn [DartGenerator.options].
  now rewrite (assoc_L (∪)), (idemp_L (∪)).
Qed.

Lemma convert_success rt now this parsed dartClass :
  let name := trim (JsonToDartConverter.classNameInput this) in
  let modelNew :=
    ModelNewGenerator.setting (JsonToDartConverter.checkboxes this) "modelNew" in
  nonempty name = true ->
  nonempty (trim (JsonToDartConverter.jsonInput this)) = true ->
  JSON_parse rt (trim (JsonToDartConverter.jsonInput this)) = Ok parsed ->
  generated rt this name parsed = Ok dartClass ->
  JsonToDartConverter.convert rt now this
  = {| JsonToDartConverter.dartGenerator :=
         if modelNew then JsonToDartConverter.dartGenerator this
         else DartGenerator.setOptions (JsonToDartConverter.checkboxes this)
                (JsonToDartConverter.dartGenerator this);
       JsonToDartConverter.modelNewGenerator :=
         if modelNew
         then ModelNewGenerator.setCurrentClassName name
                (JsonToDartConverter.modelNewGenerator this)
         else JsonToDartConverter.modelNewGenerator this;
       JsonToDartConverter.history :=
         JsonToDartConverter.saveItem
           {| JsonToDartConverter.className := name;
              JsonToDartConverter.jsonString := JSON_stringify rt parsed;
              JsonToDartConverter.timestamp := now |}
           (JsonToDartConverter.history this);
       JsonToDartConverter.classNameInput := JsonToDartConverter.classNameInput this;
       JsonToDartConverter.jsonInput := JSON_stringify rt parsed;
       JsonToDartConverter.checkboxes := JsonToDartConverter.checkboxes this;
       JsonToDartConverter.dartOutput := dartClass;
       JsonToDartConverter.notification :=
         Some ("Dart class generated successfully!", JsonToDartConverter.success) |}.
Proof.
  intros name modelNew Hname Hjson Hparse Hgen.
  unfold JsonToDartConverter.convert. fold name. rewrite Hname, Hjson, Hparse. cbn [negb].
  unfold JsonToDartConverter.convert_parsed, JsonToDartConverter.getCurrentSettings.
  unfold generated in Hgen. fold modelNew in Hgen.
  cbn [JsonToDartConverter.checkboxes]. fold modelNew.
  destruct modelNew;
    cbn [JsonToDartConverter.modelNewGenerator JsonToDartConverter.dartGenerator];
    rewrite Hgen; reflexivity.
Qed.

Lemma convert_success_inv rt now this text :
  JsonToDartConverter.notification (JsonToDartConverter.convert rt now this)
  = Some (text, JsonToDartConverter.success) ->
  exists parsed dartClass,
    nonempty (trim (JsonToDartConverter.classNameInput this)) = true
    /\ nonempty (trim (JsonToDartConverter.jsonInput this)) = true
    /\ JSON_parse rt (trim (JsonToDartConverter.jsonInput this)) = Ok parsed
    /\ generated rt this (trim (JsonToDartConverter.classNameInput this)) parsed
       = Ok dartClass.
Proof.
  unfold JsonToDartConverter.convert.
  destruct (nonempty (trim (JsonToDartConverter.classNameInput this))); cbn [negb];
    [|discriminate].
  destruct (nonempty (trim (JsonToDartConverter.jsonInput this))); cbn [negb];
    [|discriminate].
  destruct (JSON_parse rt (trim (JsonToDartConverter.jsonInput this))) as [parsed|e];
    [|discriminate].
  unfold JsonToDartConverter.convert_parsed, JsonToDartConverter.getCurrentSettings, generated.
  cbn [JsonToDartConverter.checkboxes].
  destruct (ModelNewGenerator.setting (JsonToDartConverter.checkboxes this) "modelNew");
    cbn [JsonToDartConverter.modelNewGenerator JsonToDartConverter.dartGenerator].
  - destruct (ModelNewGenerator.generate rt _ _ parsed _) as [dartClass|e] eqn:Hgen;
      [|discriminate].
    intros _. exists parsed, dartClass. repeat split. exact Hgen.
  - destruct (DartGenerator.generateDartClass rt _ _ _) as [dartClass|e] eqn:Hgen;
      [|discriminate].
    intros _. exists parsed, dartClass. repeat split. exact Hgen.
Qed.

Lemma filter_all {A} (keep : A -> bool) (l : list A) :
  Forall (fun x => keep x = true) l -> List.filter keep l = l.
Proof.
  induction 1 as [|x l Hx _ IH]; [reflexivity|]. simpl. now rewrite Hx, IH.
Qed.

(** Saving again under the class name of the first item replaces that item
    and keeps the others. *)
Lemma saveItem_again item item' items :
  JsonToDartConverter.className item' = JsonToDartConverter.className item ->
  map JsonToDartConverter.className
    (JsonToDartConverter.saveItem item' (JsonToDartConverter.saveItem item items))
  = map JsonToDartConverter.className (JsonToDartConverter.saveItem item items).
Proof.
  intros Hname. rewrite (saveItem_unfold item items).
  set (others := take 19 (List.filter _ items)).
  assert (Hothers : Forall (fun other =>
                              negb (String.eqb (JsonToDartConverter.className other)
                                               (JsonToDartConverter.className item')) = true)
                           others).
  { apply List.Forall_forall. intros other Hin.
    apply saveItem_others in Hin as [_ Hne].
    rewrite Hname. now apply negb_true_iff, String.eqb_neq. }
  rewrite saveItem_unfold. cbn [List.filter].
  rewrite Hname, String.eqb_refl. cbn [negb].
  rewrite <- Hname, (filter_all _ others Hothers), take_ge.
  - cbn [map]. now rewrite Hname.
  - subst others. rewrite length_take. lia.
Qed.

(** X20: a saved item can be converted again.  After a successful
    conversion, loading the first item of the history and converting with
    the same check boxes succeeds again with the same output and the same
    input text, and the history lists the same class names in the same
    order, provided the runtime reads back the JSON text it printed. *)
Theorem reconvert_saved_item (rt : Runtime) (now later : Z) (this : JsonToDartConverter.t)
    (text : string) (parsed : json) :
  let after := JsonToDartConverter.convert rt now this in
  JsonToDartConverter.notification after = Some (text, JsonToDartConverter.success) ->
  JSON_parse rt (trim (JsonToDartConverter.jsonInput this)) = Ok parsed ->
  reads_back rt parsed ->
  exists item others,
    JsonToDartConverter.history after = item :: others
    /\ let again :=
         JsonToDartConverter.convert rt later
           (JsonToDartConverter.loadFromHistory item after) in
       JsonToDartConverter.notification again = JsonToDartConverter.notification after
       /\ JsonToDartConverter.dartOutput again = JsonToDartConverter.dartOutput after
       /\ JsonToDartConverter.jsonInput again = JsonToDartConverter.jsonInput after
       /\ map JsonToDartConverter.className (JsonToDartConverter.history again)
          = map JsonToDartConverter.className (JsonToDartConverter.history after).
Proof.
  intros after Hsuccess Hparse [Hprinted Hread]. subst after.
  destruct (convert_success_inv rt now this text Hsuccess)
    as (parsed' & dartClass & Hname & Hjson & Hparse' & Hgen).
  rewrite Hparse in Hparse'. injection Hparse' as <-.
  rewrite (convert_success rt now this parsed dartClass Hname Hjson Hparse Hgen).
  rewrite saveItem_unfold. eexists _, _. split; [reflexivity|].
  cbn zeta. rewrite <- saveItem_unfold.
  set (name := trim (JsonToDartConverter.classNameInput this)) in *.
  set (loaded := JsonToDartConverter.loadFromHistory _ _).
  assert (Hgen' : generated rt loaded (trim (JsonToDartConverter.classNameInput loaded)) parsed
                  = Ok dartClass).
  { subst loaded. unfold JsonToDartConverter.loadFromHistory, JsonToDartConverter.showSuccess,
      JsonToDartConverter.showNotification.
    cbn [JsonToDartConverter.classNameInput JsonToDartConverter.className].
    subst name. rewrite trim_idempotent.
    unfold generated in *.
    cbn [JsonToDartConverter.checkboxes JsonToDartConverter.modelNewGenerator
         JsonToDartConverter.dartGenerator].
    destruct (ModelNewGenerator.setting (JsonToDartConverter.checkboxes this) "modelNew").
    - exact Hgen.
    - now rewrite setOptions_twice. }
  assert (Hname' : nonempty (trim (JsonToDartConverter.classNameInput loaded)) = true).
  { subst loaded. unfold JsonToDartConverter.loadFromHistory, JsonToDartConverter.showSuccess,
      JsonToDartConverter.showNotification.
    cbn [JsonToDartConverter.classNameInput JsonToDartConverter.className].
    subst name. now rewrite trim_idempotent. }
  rewrite (convert_success rt later loaded parsed dartClass Hname' Hprinted Hread Hgen').
  cbn [JsonToDartConverter.notification JsonToDartConverter.dartOutput
       JsonToDartConverter.jsonInput JsonToDartConverter.history].
  repeat split.
  subst loaded.
  cbn [JsonToDartConverter.loadFromHistory JsonToDartConverter.showSuccess
       JsonToDartConverter.showNotification JsonToDartConverter.history
       JsonToDartConverter.classNameInput JsonToDartConverter.className].
  apply saveItem_again. cbn [JsonToDartConverter.className]. subst name. apply trim_idempotent.
Qed.

Lemma reconvert_saved_item_witness :
  let after :=
    JsonToDartConverter.convert ReferenceRuntime.runtime 5
      (page " User " id_text all_defaults two_saved) in
  exists item others,
    JsonToDartConverter.history after = item :: others
    /\ let again :=
         JsonToDartConverter.convert ReferenceRuntime.runtime 9
           (JsonToDartConverter.loadFromHistory item after) in
       JsonToDartConverter.notification again = JsonToDartConverter.notification after
       /\ JsonToDartConverter.dartOutput again = JsonToDartConverter.dartOutput after
       /\ JsonToDartConverter.jsonInput again = JsonToDartConverter.jsonInput after
       /\ map JsonToDartConverter.className (JsonToDartConverter.history again)
          = map JsonToDartConverter.className (JsonToDartConverter.history after).
Proof.
  apply (reconvert_saved_item ReferenceRuntime.runtime 5 9
           (page " User " id_text all_defaults two_saved)
           "Dart class generated successfully!" (JObject [("id", JNumber one)])).
  - vm_compute. reflexivity.
  - vm_compute. reflexivity.
  - split; vm_compute; reflexivity.
Defined.
